(** * YMRentals API: wallet ledger, rental lifecycle and ad sponsorship

    A shallow embedding of the three NestJS services of the repository
    ([WalletService], [RentalService], [SponsorshipService]) and of the
    wallet controller's entry point for opening a wallet, over an explicit
    model of the relational store they reach through the Prisma client.

    Modelling conventions.
    - A database table is the list of its rows; [findUnique], [findFirst],
      [findMany], [create], [update] and [updateMany] are the list
      operations written out in module [prisma].
    - An [async] method is a function from the database to a result and the
      database it leaves behind.  A thrown exception keeps every write made
      before the throw: the services open no database transaction.
    - Amounts ([number] columns holding Kwanza) are integers, on which the
      arithmetic of the source is exact.  Instants are the milliseconds of
      [Date.getTime()]; one call reads the clock once ([now]).  The hours of
      the payment timeout go through [Date.getHours] and [Date.setHours],
      which read and write local time: module [JsDate] writes them out over
      the time zone of the server.  The calendar days of [setDate] are days
      of 86 400 000 ms.
    - A [status] argument typed [string] in the source ranges over the
      values of the column's enumeration; the ORM refuses any other.
    - Row identifiers are the strings the ORM generates; the model draws them
      from a counter kept in the database. *)

From Stdlib Require Import ZArith List String Bool Lia DecimalString.
Import ListNotations.

Local Open Scope Z_scope.
Local Open Scope string_scope.

(** ** Basic types *)

Definition Id : Type := string.
Definition DateTime : Type := Z.
Definition Money : Type := Z.

Definition msPerHour : Z := 1000 * 60 * 60.
Definition msPerDay : Z := 1000 * 60 * 60 * 24.

(** ** The [Date] object

    The time zone of the process: [LocalTZA t isUTC] is the offset of local
    time from UTC in milliseconds, at the UTC instant [t] when [isUTC] is
    [true] and at the local time [t] when it is [false] (ECMAScript,
    LocalTZA). *)
Record TimeZone : Type := mkTimeZone {
  LocalTZA : DateTime -> bool -> Z
}.

Module JsDate.

Definition msPerSecond : Z := 1000.
Definition msPerMinute : Z := 60000.

Definition LocalTime (tz : TimeZone) (t : DateTime) : Z :=
  t + LocalTZA tz t true.

Definition UTC (tz : TimeZone) (t : Z) : DateTime :=
  t - LocalTZA tz t false.

Definition Day (t : Z) : Z := t / msPerDay.
Definition HourFromTime (t : Z) : Z := (t / msPerHour) mod 24.
Definition MinFromTime (t : Z) : Z := (t / msPerMinute) mod 60.
Definition SecFromTime (t : Z) : Z := (t / msPerSecond) mod 60.
Definition msFromTime (t : Z) : Z := t mod msPerSecond.

Definition MakeTime (hour min sec ms : Z) : Z :=
  hour * msPerHour + min * msPerMinute + sec * msPerSecond + ms.

Definition MakeDate (day time : Z) : Z := day * msPerDay + time.

(** [date.getHours()] *)
Definition getHours (tz : TimeZone) (t : DateTime) : Z :=
  HourFromTime (LocalTime tz t).

(** [date.setHours(hour)]: the time value the date holds afterwards. *)
Definition setHours (tz : TimeZone) (t : DateTime) (hour : Z) : DateTime :=
  let local := LocalTime tz t in
  UTC tz (MakeDate (Day local)
            (MakeTime hour (MinFromTime local) (SecFromTime local)
               (msFromTime local))).

End JsDate.

(** [Math.ceil (a / b)] for a positive divisor. *)
Definition ceilDiv (a b : Z) : Z := - ((- a) / b).

Inductive Json : Type :=
| JString (s : string)
| JNumber (n : Z).

(** An object literal: a key whose value is [undefined] is not stored. *)
Definition Metadata : Type := list (string * Json).

Definition optString (key : string) (v : option string) : Metadata :=
  match v with
  | Some s => [(key, JString s)]
  | None => []
  end.

(** JavaScript truthiness of the optional values the services test. *)
Definition truthyString (v : option string) : bool :=
  match v with
  | Some s => negb (s =? "")
  | None => false
  end.

Definition truthyNumber (v : option Z) : bool :=
  match v with
  | Some n => negb (n =? 0)%Z
  | None => false
  end.

Definition truthyBool (v : option bool) : bool :=
  match v with
  | Some b => b
  | None => false
  end.

(** ** Enumerations (wallet-transaction.dto.ts, migrations, rental DTO) *)

Inductive WalletTransactionType : Type :=
| DEPOSIT | WITHDRAWAL | PAYMENT | REFUND
| PRIORITY_FEE | PROMOTION_FEE | COMMISSION | BONUS.

Inductive WalletTransactionStatus : Type :=
| TX_PENDING | TX_PROCESSING | TX_COMPLETED | TX_FAILED | TX_CANCELLED | TX_REFUNDED.

(** Modelled from the spec: the enumeration of the [status] column of a
    rental is declared in the Prisma schema, which is not among the
    sources; these are the states of the specification's rental lifecycle,
    all of them written or tested by [RentalService]. *)
Inductive RentalStatus : Type :=
| PENDING | APPROVED | PAID | ACTIVE | COMPLETED | CANCELLED | REJECTED.

(** Modelled from the spec: [paymentStatus] is PENDING or PAID. *)
Inductive PaymentStatus : Type :=
| PAY_PENDING | PAY_PAID.

(** Modelled from the spec: [paymentReceiptStatus] is PENDING, APPROVED
    or REJECTED. *)
Inductive PaymentReceiptStatus : Type :=
| RECEIPT_PENDING | RECEIPT_APPROVED | RECEIPT_REJECTED.

Inductive PaymentMethod : Type :=
| REFERENCE | RECEIPT | WALLET.

Inductive PricePeriod : Type :=
| HOURLY | DAILY | WEEKLY | MONTHLY.

Inductive AdSponsorshipStatus : Type :=
| AD_ACTIVE | AD_PAUSED | AD_EXPIRED | AD_CANCELLED.

Definition txStatus_eqb (a b : WalletTransactionStatus) : bool :=
  match a, b with
  | TX_PENDING, TX_PENDING | TX_PROCESSING, TX_PROCESSING
  | TX_COMPLETED, TX_COMPLETED | TX_FAILED, TX_FAILED
  | TX_CANCELLED, TX_CANCELLED | TX_REFUNDED, TX_REFUNDED => true
  | _, _ => false
  end.

Definition rentalStatus_eqb (a b : RentalStatus) : bool :=
  match a, b with
  | PENDING, PENDING | APPROVED, APPROVED | PAID, PAID | ACTIVE, ACTIVE
  | COMPLETED, COMPLETED | CANCELLED, CANCELLED | REJECTED, REJECTED => true
  | _, _ => false
  end.

Definition paymentStatus_eqb (a b : PaymentStatus) : bool :=
  match a, b with
  | PAY_PENDING, PAY_PENDING | PAY_PAID, PAY_PAID => true
  | _, _ => false
  end.

Definition adStatus_eqb (a b : AdSponsorshipStatus) : bool :=
  match a, b with
  | AD_ACTIVE, AD_ACTIVE | AD_PAUSED, AD_PAUSED
  | AD_EXPIRED, AD_EXPIRED | AD_CANCELLED, AD_CANCELLED => true
  | _, _ => false
  end.

(** ** Exceptions *)

Inductive HttpException : Type :=
| NotFoundException (message : string)
| BadRequestException (message : string)
| ForbiddenException (message : string)
| RecordNotFound (model : string).
(** [RecordNotFound] is what [update] raises when its [where] matches no row. *)

(** ** Rows

    [Wallet], [WalletTransaction] and [AdSponsorship] follow the
    migrations.  The tables of users, equipment and rentals are declared in
    the Prisma schema, which is not among the sources: their rows carry the
    columns the three services read and write. *)

Module User.
(** Modelled from the spec: the columns of a user the services read. *)
Record t : Type := mk {
  id : Id;
  fullName : string;
  email : string;
  phoneNumber : option string;
  userType : string
}.
End User.

Module Wallet.
Record t : Type := mk {
  id : Id;
  userId : Id;
  balance : Money;
  isActive : bool
}.

Definition incrementBalance (amount : Money) (w : t) : t :=
  mk (id w) (userId w) (balance w + amount) (isActive w).
End Wallet.

Module WalletTransaction.
Record t : Type := mk {
  id : Id;
  walletId : Id;
  type : WalletTransactionType;
  amount : Money;
  description : string;
  status : WalletTransactionStatus;
  reference : option string;
  proxyPayReference : option string;
  proxyPayId : option string;
  metadata : option Metadata
}.
End WalletTransaction.

Module Equipment.
(** Modelled from the spec: identity, owner, availability, price and price
    period of an equipment, with the soft-delete marker the queries test. *)
Record t : Type := mk {
  id : Id;
  name : string;
  ownerId : Id;
  isAvailable : bool;
  price : option Money;
  pricePeriod : option PricePeriod;
  deletedAt : option DateTime
}.

Definition set_isAvailable (b : bool) (e : t) : t :=
  mk (id e) (name e) (ownerId e) b (price e) (pricePeriod e) (deletedAt e).
End Equipment.

Module Rental.
(** Modelled from the spec: the attributes of a rental listed in the data
    model, as [RentalService.create] fills them. *)
Record t : Type := mk {
  id : Id;
  equipmentId : Id;
  renterId : Id;
  ownerId : Id;
  startDate : DateTime;
  endDate : DateTime;
  startTime : option string;
  endTime : option string;
  totalAmount : Money;
  dailyRate : Money;
  maxRentalDays : option Z;
  paymentMethod : PaymentMethod;
  paymentReference : option string;
  returnReminderDate : DateTime;
  status : RentalStatus;
  paymentStatus : PaymentStatus;
  paymentReceiptStatus : option PaymentReceiptStatus;
  pricePeriod : option PricePeriod;
  hasPriority : bool;
  priorityAmount : option Money;
  priorityPaidAt : option DateTime;
  approvedAt : option DateTime;
  deletedAt : option DateTime
}.

Definition set_status (s : RentalStatus) (r : t) : t :=
  mk (id r) (equipmentId r) (renterId r) (ownerId r) (startDate r) (endDate r)
     (startTime r) (endTime r) (totalAmount r) (dailyRate r) (maxRentalDays r)
     (paymentMethod r) (paymentReference r) (returnReminderDate r)
     s (paymentStatus r) (paymentReceiptStatus r) (pricePeriod r)
     (hasPriority r) (priorityAmount r) (priorityPaidAt r) (approvedAt r)
     (deletedAt r).

Definition set_approvedAt (d : option DateTime) (r : t) : t :=
  mk (id r) (equipmentId r) (renterId r) (ownerId r) (startDate r) (endDate r)
     (startTime r) (endTime r) (totalAmount r) (dailyRate r) (maxRentalDays r)
     (paymentMethod r) (paymentReference r) (returnReminderDate r)
     (status r) (paymentStatus r) (paymentReceiptStatus r) (pricePeriod r)
     (hasPriority r) (priorityAmount r) (priorityPaidAt r) d
     (deletedAt r).

Definition set_deletedAt (d : option DateTime) (r : t) : t :=
  mk (id r) (equipmentId r) (renterId r) (ownerId r) (startDate r) (endDate r)
     (startTime r) (endTime r) (totalAmount r) (dailyRate r) (maxRentalDays r)
     (paymentMethod r) (paymentReference r) (returnReminderDate r)
     (status r) (paymentStatus r) (paymentReceiptStatus r) (pricePeriod r)
     (hasPriority r) (priorityAmount r) (priorityPaidAt r) (approvedAt r)
     d.

(** [data: { paymentStatus: 'PAID', paymentMethod: 'WALLET', status: 'PAID' }] *)
Definition set_paid_by_wallet (r : t) : t :=
  mk (id r) (equipmentId r) (renterId r) (ownerId r) (startDate r) (endDate r)
     (startTime r) (endTime r) (totalAmount r) (dailyRate r) (maxRentalDays r)
     WALLET (paymentReference r) (returnReminderDate r)
     PAID PAY_PAID (paymentReceiptStatus r) (pricePeriod r)
     (hasPriority r) (priorityAmount r) (priorityPaidAt r) (approvedAt r)
     (deletedAt r).

(** [data: { hasPriority: false, priorityAmount: null, priorityPaidAt: null }] *)
Definition clear_priority (r : t) : t :=
  mk (id r) (equipmentId r) (renterId r) (ownerId r) (startDate r) (endDate r)
     (startTime r) (endTime r) (totalAmount r) (dailyRate r) (maxRentalDays r)
     (paymentMethod r) (paymentReference r) (returnReminderDate r)
     (status r) (paymentStatus r) (paymentReceiptStatus r) (pricePeriod r)
     false None None (approvedAt r)
     (deletedAt r).
(** [data: { paymentReceipt, paymentReceiptStatus: 'PENDING' }] *)
Definition set_receipt_uploaded (r : t) : t :=
  mk (id r) (equipmentId r) (renterId r) (ownerId r) (startDate r) (endDate r)
     (startTime r) (endTime r) (totalAmount r) (dailyRate r) (maxRentalDays r)
     (paymentMethod r) (paymentReference r) (returnReminderDate r)
     (status r) (paymentStatus r) (Some RECEIPT_PENDING) (pricePeriod r)
     (hasPriority r) (priorityAmount r) (priorityPaidAt r) (approvedAt r)
     (deletedAt r).

(** [updateData] of [validatePaymentReceipt]: the receipt status, and for
    an approval [paymentStatus: 'PAID'] and [status: 'PAID']. *)
Definition set_receipt_validated (isApproved : bool) (r : t) : t :=
  mk (id r) (equipmentId r) (renterId r) (ownerId r) (startDate r) (endDate r)
     (startTime r) (endTime r) (totalAmount r) (dailyRate r) (maxRentalDays r)
     (paymentMethod r) (paymentReference r) (returnReminderDate r)
     (if isApproved then PAID else status r)
     (if isApproved then PAY_PAID else paymentStatus r)
     (Some (if isApproved then RECEIPT_APPROVED else RECEIPT_REJECTED))
     (pricePeriod r)
     (hasPriority r) (priorityAmount r) (priorityPaidAt r) (approvedAt r)
     (deletedAt r).
End Rental.

Module AdSponsorship.
Record t : Type := mk {
  id : Id;
  sponsorId : Id;
  targetUserId : option Id;
  equipmentId : option Id;
  amount : Money;
  duration : Z;
  startDate : DateTime;
  endDate : DateTime;
  status : AdSponsorshipStatus;
  impressions : Z;
  clicks : Z
}.

Definition set_status (st : AdSponsorshipStatus) (s : t) : t :=
  mk (id s) (sponsorId s) (targetUserId s) (equipmentId s) (amount s)
     (duration s) (startDate s) (endDate s) st (impressions s) (clicks s).

End AdSponsorship.

(** ** The database *)

Record Db : Type := mkDb {
  users : list User.t;
  wallets : list Wallet.t;
  walletTransactions : list WalletTransaction.t;
  equipments : list Equipment.t;
  rentals : list Rental.t;
  adSponsorships : list AdSponsorship.t;
  nextUuid : nat
}.

Definition uuid (n : nat) : Id :=
  "uuid-" ++ NilEmpty.string_of_uint (Nat.to_uint n).

(** ** Asynchronous methods over the database *)

Definition Promise (A : Type) : Type := Db -> (HttpException + A) * Db.

Definition ret {A : Type} (a : A) : Promise A :=
  fun db => (inr a, db).

Definition throw {A : Type} (e : HttpException) : Promise A :=
  fun db => (inl e, db).

Definition bind {A B : Type} (m : Promise A) (k : A -> Promise B) : Promise B :=
  fun db =>
    match m db with
    | (inl e, db') => (inl e, db')
    | (inr a, db') => k a db'
    end.

(** [try { m } catch (error) { h error }] *)
Definition tryCatch {A : Type} (m : Promise A) (h : HttpException -> Promise A)
  : Promise A :=
  fun db =>
    match m db with
    | (inl e, db') => h e db'
    | (inr a, db') => (inr a, db')
    end.

Declare Scope promise_scope.
Delimit Scope promise_scope with promise.
Notation "x <- m ;; k" := (bind m (fun x => k))
  (at level 61, m at next level, right associativity) : promise_scope.
Notation "m ;; k" := (bind m (fun _ => k))
  (at level 61, right associativity) : promise_scope.
Local Open Scope promise_scope.

Definition succeeded {A : Type} (r : (HttpException + A) * Db) : bool :=
  match fst r with
  | inr _ => true
  | inl _ => false
  end.

(** ** The Prisma client *)

Module prisma.

Definition freshId : Promise Id :=
  fun db =>
    (inr (uuid (nextUuid db)),
     mkDb (users db) (wallets db) (walletTransactions db) (equipments db)
          (rentals db) (adSponsorships db) (S (nextUuid db))).

Definition set_wallets (ws : list Wallet.t) (db : Db) : Db :=
  mkDb (users db) ws (walletTransactions db) (equipments db)
       (rentals db) (adSponsorships db) (nextUuid db).

Definition set_walletTransactions (ts : list WalletTransaction.t) (db : Db) : Db :=
  mkDb (users db) (wallets db) ts (equipments db)
       (rentals db) (adSponsorships db) (nextUuid db).

Definition set_equipments (es : list Equipment.t) (db : Db) : Db :=
  mkDb (users db) (wallets db) (walletTransactions db) es
       (rentals db) (adSponsorships db) (nextUuid db).

Definition set_rentals (rs : list Rental.t) (db : Db) : Db :=
  mkDb (users db) (wallets db) (walletTransactions db) (equipments db)
       rs (adSponsorships db) (nextUuid db).

Definition set_adSponsorships (ss : list AdSponsorship.t) (db : Db) : Db :=
  mkDb (users db) (wallets db) (walletTransactions db) (equipments db)
       (rentals db) ss (nextUuid db).

(** [prisma.user.findUnique({ where: { id } })] *)
Definition user_findUnique (id : Id) : Promise (option User.t) :=
  fun db => (inr (find (fun u => User.id u =? id) (users db)), db).

(** [prisma.wallet.findUnique({ where: { id } })] *)
Definition wallet_findUnique (id : Id) : Promise (option Wallet.t) :=
  fun db => (inr (find (fun w => Wallet.id w =? id) (wallets db)), db).

(** [prisma.wallet.findUnique({ where: { userId } })] *)
Definition wallet_findUnique_userId (userId : Id) : Promise (option Wallet.t) :=
  fun db => (inr (find (fun w => Wallet.userId w =? userId) (wallets db)), db).

(** [prisma.wallet.create({ data: { userId, balance } })];
    [isActive] takes its column default. *)
Definition wallet_create (userId : Id) (balance : Money) : Promise Wallet.t :=
  id <- freshId ;;
  fun db =>
    let w := Wallet.mk id userId balance true in
    (inr w, set_wallets (wallets db ++ [w])%list db).

(** [prisma.wallet.update({ where: { id }, data: { balance: { increment } } })] *)
Definition wallet_update_increment (id : Id) (amount : Money) : Promise Wallet.t :=
  fun db =>
    match find (fun w => Wallet.id w =? id) (wallets db) with
    | None => (inl (RecordNotFound "Wallet"), db)
    | Some w =>
        (inr (Wallet.incrementBalance amount w),
         set_wallets
           (map (fun x => if Wallet.id x =? id
                          then Wallet.incrementBalance amount x else x)
                (wallets db)) db)
    end.

(** [prisma.walletTransaction.create({ data })]; the row built by [data]
    from the generated id. *)
Definition walletTransaction_create (data : Id -> WalletTransaction.t)
  : Promise WalletTransaction.t :=
  id <- freshId ;;
  fun db =>
    (inr (data id),
     set_walletTransactions (walletTransactions db ++ [data id])%list db).

(** [prisma.equipment.findUnique({ where: { id, ...where } })] *)
Definition equipment_findUnique (id : Id) (cond : Equipment.t -> bool)
  : Promise (option Equipment.t) :=
  fun db =>
    (inr (find (fun e => (Equipment.id e =? id) && cond e) (equipments db)), db).

(** [prisma.equipment.update({ where: { id }, data })] *)
Definition equipment_update (id : Id) (data : Equipment.t -> Equipment.t)
  : Promise Equipment.t :=
  fun db =>
    match find (fun e => Equipment.id e =? id) (equipments db) with
    | None => (inl (RecordNotFound "Equipment"), db)
    | Some e =>
        (inr (data e),
         set_equipments
           (map (fun x => if Equipment.id x =? id then data x else x)
                (equipments db)) db)
    end.

(** [prisma.rental.findUnique({ where: { id, ...where } })] *)
Definition rental_findUnique (id : Id) (cond : Rental.t -> bool)
  : Promise (option Rental.t) :=
  fun db =>
    (inr (find (fun r => (Rental.id r =? id) && cond r) (rentals db)), db).

(** [prisma.rental.findFirst({ where })] *)
Definition rental_findFirst (cond : Rental.t -> bool)
  : Promise (option Rental.t) :=
  fun db => (inr (find cond (rentals db)), db).

(** [prisma.rental.findMany({ where })] *)
Definition rental_findMany (cond : Rental.t -> bool)
  : Promise (list Rental.t) :=
  fun db => (inr (filter cond (rentals db)), db).

(** [prisma.rental.create({ data })] *)
Definition rental_create (data : Id -> Rental.t) : Promise Rental.t :=
  id <- freshId ;;
  fun db => (inr (data id), set_rentals (rentals db ++ [data id])%list db).

(** [prisma.rental.update({ where: { id }, data })] *)
Definition rental_update (id : Id) (data : Rental.t -> Rental.t)
  : Promise Rental.t :=
  fun db =>
    match find (fun r => Rental.id r =? id) (rentals db) with
    | None => (inl (RecordNotFound "Rental"), db)
    | Some r =>
        (inr (data r),
         set_rentals
           (map (fun x => if Rental.id x =? id then data x else x)
                (rentals db)) db)
    end.

(** [prisma.rental.updateMany({ where, data })] *)
Definition rental_updateMany (cond : Rental.t -> bool)
           (data : Rental.t -> Rental.t) : Promise unit :=
  fun db =>
    (inr tt,
     set_rentals (map (fun x => if cond x then data x else x) (rentals db)) db).

(** [prisma.adSponsorship.findFirst({ where })] *)
Definition adSponsorship_findFirst (cond : AdSponsorship.t -> bool)
  : Promise (option AdSponsorship.t) :=
  fun db => (inr (find cond (adSponsorships db)), db).

(** [prisma.adSponsorship.create({ data })] *)
Definition adSponsorship_create (data : Id -> AdSponsorship.t)
  : Promise AdSponsorship.t :=
  id <- freshId ;;
  fun db =>
    (inr (data id), set_adSponsorships (adSponsorships db ++ [data id])%list db).

(** [prisma.adSponsorship.findUnique({ where: { id } })] *)
Definition adSponsorship_findUnique (id : Id) : Promise (option AdSponsorship.t) :=
  fun db => (inr (find (fun s => AdSponsorship.id s =? id) (adSponsorships db)), db).

(** [prisma.adSponsorship.update({ where: { id }, data })] *)
Definition adSponsorship_update (id : Id) (data : AdSponsorship.t -> AdSponsorship.t)
  : Promise AdSponsorship.t :=
  fun db =>
    match find (fun s => AdSponsorship.id s =? id) (adSponsorships db) with
    | None => (inl (RecordNotFound "AdSponsorship"), db)
    | Some s =>
        (inr (data s),
         set_adSponsorships
           (map (fun x => if AdSponsorship.id x =? id then data x else x)
                (adSponsorships db)) db)
    end.


End prisma.

(** ** wallet/dto *)

Record CreateWalletDto : Type := mkCreateWalletDto {
  cw_userId : Id;
  cw_initialBalance : option Money
}.

Record CreateWalletTransactionDto : Type := mkCreateWalletTransactionDto {
  ct_walletId : Id;
  ct_type : WalletTransactionType;
  ct_amount : Money;
  ct_description : string;
  ct_reference : option string;
  ct_proxyPayReference : option string;
  ct_proxyPayId : option string;
  ct_status : option WalletTransactionStatus;
  ct_metadata : option Metadata
}.

Record ProxyPayDepositDto : Type := mkProxyPayDepositDto {
  pd_amount : Money;
  pd_paymentMethod : string;
  pd_phoneNumber : option string
}.

(** The answer of [ProxyPayService.createDeposit], a call to the payment
    gateway: an input of the model. *)
Record ProxyPayResponse : Type := mkProxyPayResponse {
  pp_success : bool;
  pp_transactionId : string;
  pp_reference : string;
  pp_status : string;
  pp_paymentUrl : option string;
  pp_error : option string
}.

(** What [simulateProxyPayWithdrawal] answers: [reference] is built from
    [Date.now()], the two ProxyPay identifiers from [Math.random()] and
    [processedAt] from the clock.  They are inputs of the model. *)
Record SimulatedWithdrawal : Type := mkSimulatedWithdrawal {
  sw_reference : string;
  sw_proxyPayReference : string;
  sw_proxyPayId : string;
  sw_processedAt : string
}.

Record ProxyPayWithdrawalDto : Type := mkProxyPayWithdrawalDto {
  pw_amount : Money;
  pw_withdrawalMethod : string;
  pw_accountNumber : string;
  pw_bankName : option string
}.

(** [req.user], as the JWT guard fills it. *)
Record RequestUser : Type := mkRequestUser {
  req_userId : Id;
  req_role : string
}.

(** ** WalletService (wallet.service.ts) *)

Module WalletService.

(** The destructuring of the DTO names no [status]: the row is always
    written with [WalletTransactionStatus.COMPLETED]. *)
Definition createTransaction (createTransactionDto : CreateWalletTransactionDto)
  : Promise WalletTransaction.t :=
  let walletId := ct_walletId createTransactionDto in
  let amount := ct_amount createTransactionDto in
  wallet <- prisma.wallet_findUnique walletId ;;
  match wallet with
  | None => throw (NotFoundException "Wallet not found")
  | Some wallet =>
      if (amount <? 0)%Z && (Wallet.balance wallet + amount <? 0)%Z
      then throw (BadRequestException "Insufficient balance")
      else
        transaction <- prisma.walletTransaction_create (fun id =>
          WalletTransaction.mk id walletId
            (ct_type createTransactionDto) amount
            (ct_description createTransactionDto)
            TX_COMPLETED
            (ct_reference createTransactionDto)
            (ct_proxyPayReference createTransactionDto)
            (ct_proxyPayId createTransactionDto)
            (ct_metadata createTransactionDto)) ;;
        prisma.wallet_update_increment walletId amount ;;
        ret transaction
  end.

Definition createWallet (createWalletDto : CreateWalletDto) : Promise Wallet.t :=
  let userId := cw_userId createWalletDto in
  let initialBalance :=
    match cw_initialBalance createWalletDto with
    | Some b => b
    | None => 0%Z
    end in
  user <- prisma.user_findUnique userId ;;
  match user with
  | None => throw (NotFoundException "User not found")
  | Some _ =>
      existingWallet <- prisma.wallet_findUnique_userId userId ;;
      match existingWallet with
      | Some _ => throw (BadRequestException "User already has a wallet")
      | None =>
          wallet <- prisma.wallet_create userId initialBalance ;;
          (if (0 <? initialBalance)%Z
           then
             createTransaction
               (mkCreateWalletTransactionDto (Wallet.id wallet) DEPOSIT
                  initialBalance "Saldo inicial da carteira"
                  (Some ("INITIAL_" ++ Wallet.id wallet))
                  None None None None) ;;
             ret tt
           else ret tt) ;;
          ret wallet
      end
  end.

Definition getWalletByUserId (userId : Id) : Promise Wallet.t :=
  wallet <- prisma.wallet_findUnique_userId userId ;;
  match wallet with
  | None => createWallet (mkCreateWalletDto userId None)
  | Some wallet => ret wallet
  end.

(** [proxyPayResponse] is what the gateway answered to [createDeposit]. *)
Definition depositViaProxyPay (userId : Id) (depositDto : ProxyPayDepositDto)
           (proxyPayResponse : ProxyPayResponse)
  : Promise (WalletTransaction.t * Money) :=
  let amount := pd_amount depositDto in
  let paymentMethod := pd_paymentMethod depositDto in
  if (amount <=? 0)%Z then throw (BadRequestException "Amount must be positive")
  else
    wallet <- getWalletByUserId userId ;;
    user <- prisma.user_findUnique userId ;;
    match user with
    | None => throw (NotFoundException "User not found")
    | Some user =>
        if negb (pp_success proxyPayResponse)
        then throw (BadRequestException
                      ("ProxyPay deposit failed: "
                       ++ match pp_error proxyPayResponse with
                          | Some e => e
                          | None => "undefined"
                          end))
        else
          transaction <- createTransaction
            (mkCreateWalletTransactionDto (Wallet.id wallet) DEPOSIT amount
               ("Depósito via ProxyPay - " ++ paymentMethod)
               (Some (pp_reference proxyPayResponse))
               (Some (pp_reference proxyPayResponse))
               (Some (pp_transactionId proxyPayResponse))
               (Some TX_PENDING)
               (Some ([("gateway", JString "proxypay");
                       ("paymentMethod", JString paymentMethod)]
                      ++ optString "phoneNumber"
                           (if truthyString (pd_phoneNumber depositDto)
                            then pd_phoneNumber depositDto
                            else User.phoneNumber user)
                      ++ optString "paymentUrl"
                           (pp_paymentUrl proxyPayResponse))%list)) ;;
          ret (transaction, Wallet.balance wallet)
    end.


(** The result carries the transaction and [newBalance]. *)
Definition withdrawViaProxyPay (userId : Id) (withdrawalDto : ProxyPayWithdrawalDto)
           (proxyPayResponse : SimulatedWithdrawal)
  : Promise (WalletTransaction.t * Money) :=
  let amount := pw_amount withdrawalDto in
  let withdrawalMethod := pw_withdrawalMethod withdrawalDto in
  if (amount <=? 0)%Z then throw (BadRequestException "Amount must be positive")
  else
    wallet <- getWalletByUserId userId ;;
    if (Wallet.balance wallet <? amount)%Z
    then throw (BadRequestException "Insufficient balance")
    else
      transaction <- createTransaction
        (mkCreateWalletTransactionDto (Wallet.id wallet) WITHDRAWAL (- amount)
           ("Saque via ProxyPay - " ++ withdrawalMethod)
           (Some (sw_reference proxyPayResponse))
           (Some (sw_proxyPayReference proxyPayResponse))
           (Some (sw_proxyPayId proxyPayResponse))
           None
           (Some ([("processedAt", JString (sw_processedAt proxyPayResponse));
                   ("gateway", JString "proxypay");
                   ("environment", JString "sandbox");
                   ("withdrawalMethod", JString withdrawalMethod);
                   ("accountNumber", JString (pw_accountNumber withdrawalDto))]
                  ++ optString "bankName" (pw_bankName withdrawalDto))%list)) ;;
      ret (transaction, (Wallet.balance wallet - amount)%Z).

End WalletService.

(** The ledger of a wallet: the amounts of its COMPLETED transactions. *)
Definition completedAmounts (walletId : Id) (db : Db) : list Money :=
  map WalletTransaction.amount
      (filter (fun t => (WalletTransaction.walletId t =? walletId)
                        && txStatus_eqb (WalletTransaction.status t) TX_COMPLETED)
              (walletTransactions db)).

Definition completedSum (walletId : Id) (db : Db) : Money :=
  fold_right Z.add 0%Z (completedAmounts walletId db).

Definition balanceOf (walletId : Id) (db : Db) : option Money :=
  option_map Wallet.balance
    (find (fun w => Wallet.id w =? walletId) (wallets db)).

(** ** WalletController (wallet.controller.ts) *)

Module WalletController.

(** A caller who is not an administrator has the [userId] of the body
    overwritten with their own. *)
Definition createWallet (createWalletDto : CreateWalletDto) (user : RequestUser)
  : Promise Wallet.t :=
  let createWalletDto :=
    if negb (req_role user =? "ADMIN")
       && negb (cw_userId createWalletDto =? req_userId user)
    then mkCreateWalletDto (req_userId user) (cw_initialBalance createWalletDto)
    else createWalletDto in
  WalletService.createWallet createWalletDto.

End WalletController.

(** ** rental/dto/create-rental.dto.ts

    [startDate] and [endDate] are the instants [new Date(...)] parses from
    the request; the renter's coordinates and address are stored as given
    and read by no rule, and are left out. *)

Record CreateRentalDto : Type := mkCreateRentalDto {
  cr_startDate : DateTime;
  cr_endDate : DateTime;
  cr_startTime : option string;
  cr_endTime : option string;
  cr_totalAmount : option Money;
  cr_dailyRate : option Money;
  cr_pricePeriod : option PricePeriod;
  cr_maxRentalDays : option Z;
  cr_paymentMethod : PaymentMethod;
  cr_paymentReference : option string;
  cr_equipmentId : Id;
  cr_hasPriority : option bool;
  cr_priorityAmount : option Money;
  cr_renterId : Id
}.

(** ** RentalService (rental.service.ts) *)

Module RentalService.

(** [Math.ceil((endDate.getTime() - startDate.getTime()) / (1000*60*60*24))] *)
Definition rentalDays (startDate endDate : DateTime) : Z :=
  ceilDiv (endDate - startDate) msPerDay.

(** The [switch] on the price period. *)
Definition periodAmount (pricePeriod : option PricePeriod) (dailyRate : Money)
           (days : Z) : Money :=
  match pricePeriod with
  | Some HOURLY => dailyRate * days * 8
  | Some WEEKLY => let weeks := ceilDiv days 7 in dailyRate * weeks
  | Some MONTHLY => let months := ceilDiv days 30 in dailyRate * months
  | _ => dailyRate * days
  end.

Definition orElse {A : Type} (a b : option A) : option A :=
  match a with
  | Some _ => a
  | None => b
  end.

Definition isHeld (now : DateTime) (equipmentId : Id) (r : Rental.t) : bool :=
  (Rental.equipmentId r =? equipmentId)
  && (rentalStatus_eqb (Rental.status r) APPROVED
      || rentalStatus_eqb (Rental.status r) PAID
      || rentalStatus_eqb (Rental.status r) ACTIVE)
  && (now <=? Rental.endDate r)%Z.

Definition notDeleted (r : Rental.t) : bool :=
  match Rental.deletedAt r with
  | None => true
  | Some _ => false
  end.

(** [today] is [now] with [setHours(0, 0, 0, 0)]: local midnight. *)
Definition create (createRentalDto : CreateRentalDto) (now today : DateTime)
  : Promise Rental.t :=
  equipment <- prisma.equipment_findUnique (cr_equipmentId createRentalDto)
                 (fun e => match Equipment.deletedAt e with
                           | None => true
                           | Some _ => false
                           end) ;;
  match equipment with
  | None => throw (NotFoundException "Equipment not found")
  | Some equipment =>
  if negb (Equipment.isAvailable equipment)
  then throw (BadRequestException "Equipment is not available")
  else if Equipment.ownerId equipment =? cr_renterId createRentalDto
  then throw (BadRequestException "You cannot rent your own equipment")
  else
  renter <- prisma.user_findUnique (cr_renterId createRentalDto) ;;
  match renter with
  | None => throw (NotFoundException "Renter not found")
  | Some renter =>
  if User.userType renter =? "LANDLORD"
  then throw (BadRequestException
                "Landlords cannot rent equipment. Only tenants can rent equipment.")
  else
  let startDate := cr_startDate createRentalDto in
  let endDate := cr_endDate createRentalDto in
  if (startDate <? today)%Z
  then throw (BadRequestException "Start date cannot be in the past")
  else if (endDate <=? startDate)%Z
  then throw (BadRequestException "End date must be after start date")
  else
  let days := rentalDays startDate endDate in
  if truthyNumber (cr_maxRentalDays createRentalDto)
     && match cr_maxRentalDays createRentalDto with
        | Some m => (m <? days)%Z
        | None => false
        end
  then throw (BadRequestException
                ("Rental period cannot exceed "
                 ++ match cr_maxRentalDays createRentalDto with
                    | Some m => NilEmpty.string_of_int (Z.to_int m)
                    | None => ""
                    end ++ " days"))
  else
  let dailyRate :=
    if truthyNumber (cr_dailyRate createRentalDto)
    then match cr_dailyRate createRentalDto with Some d => d | None => 0%Z end
    else if truthyNumber (Equipment.price equipment)
    then match Equipment.price equipment with Some p => p | None => 0%Z end
    else 0%Z in
  let pricePeriod :=
    orElse (cr_pricePeriod createRentalDto) (Equipment.pricePeriod equipment) in
  let totalAmount :=
    if negb (truthyNumber (cr_totalAmount createRentalDto))
    then periodAmount pricePeriod dailyRate days
    else match cr_totalAmount createRentalDto with Some t => t | None => 0%Z end in
  let returnReminderDate := (endDate - msPerDay)%Z in
  rental <- prisma.rental_create (fun id =>
    Rental.mk id (cr_equipmentId createRentalDto) (cr_renterId createRentalDto)
      (Equipment.ownerId equipment) startDate endDate
      (cr_startTime createRentalDto) (cr_endTime createRentalDto)
      totalAmount dailyRate (cr_maxRentalDays createRentalDto)
      (cr_paymentMethod createRentalDto) (cr_paymentReference createRentalDto)
      returnReminderDate PENDING PAY_PENDING
      (match cr_paymentMethod createRentalDto with
       | RECEIPT => Some RECEIPT_PENDING
       | _ => None
       end)
      pricePeriod
      (truthyBool (cr_hasPriority createRentalDto))
      (cr_priorityAmount createRentalDto)
      (if truthyBool (cr_hasPriority createRentalDto) then Some now else None)
      None None) ;;
  (if truthyBool (cr_hasPriority createRentalDto)
      && truthyNumber (cr_priorityAmount createRentalDto)
   then
     let priorityAmount :=
       match cr_priorityAmount createRentalDto with Some p => p | None => 0%Z end in
     tryCatch
       (wallet <- WalletService.getWalletByUserId (cr_renterId createRentalDto) ;;
        if (priorityAmount <=? Wallet.balance wallet)%Z
        then
          WalletService.createTransaction
            (mkCreateWalletTransactionDto (Wallet.id wallet) PRIORITY_FEE
               (- priorityAmount)
               ("Taxa de prioridade - Aluguel " ++ Equipment.name equipment)
               None None None (Some TX_COMPLETED)
               (Some [("rentalId", JString (Rental.id rental));
                      ("equipmentId", JString (Equipment.id equipment))])) ;;
          ret tt
        else
          prisma.rental_update (Rental.id rental) Rental.clear_priority ;;
          ret tt)
       (fun _ =>
          prisma.rental_update (Rental.id rental) Rental.clear_priority ;;
          ret tt)
   else ret tt) ;;
  ret rental
  end
  end.

Definition findOne (id : Id) (userId : option Id) : Promise Rental.t :=
  rental <- prisma.rental_findUnique id notDeleted ;;
  match rental with
  | None => throw (NotFoundException "Rental not found")
  | Some rental =>
      if truthyString userId
         && match userId with
            | Some u => negb (Rental.renterId rental =? u)
                        && negb (Rental.ownerId rental =? u)
            | None => false
            end
      then throw (ForbiddenException
                    "You do not have permission to view this rental")
      else ret rental
  end.

Definition updateStatus (id : Id) (status : RentalStatus) (userId : Id)
           (now : DateTime) : Promise Rental.t :=
  rental <- findOne id (Some userId) ;;
  if rentalStatus_eqb status APPROVED && negb (Rental.ownerId rental =? userId)
  then throw (ForbiddenException "Only the owner can approve rentals")
  else if rentalStatus_eqb status CANCELLED
          && negb (Rental.renterId rental =? userId)
          && negb (Rental.ownerId rental =? userId)
  then throw (ForbiddenException "Only the renter or owner can cancel rentals")
  else
  updatedRental <- prisma.rental_update (Rental.id rental) (Rental.set_status status) ;;
  (if rentalStatus_eqb status APPROVED
   then
     prisma.equipment_update (Rental.equipmentId rental)
       (Equipment.set_isAvailable false) ;;
     prisma.rental_updateMany
       (fun r => (Rental.equipmentId r =? Rental.equipmentId rental)
                 && rentalStatus_eqb (Rental.status r) PENDING
                 && negb (Rental.id r =? Rental.id rental))
       (Rental.set_status REJECTED) ;;
     prisma.rental_update (Rental.id rental) (Rental.set_approvedAt (Some now)) ;;
     ret tt
   else ret tt) ;;
  (if rentalStatus_eqb status CANCELLED || rentalStatus_eqb status REJECTED
   then
     hasApprovedRentals <-
       prisma.rental_findFirst (isHeld now (Rental.equipmentId rental)) ;;
     match hasApprovedRentals with
     | None =>
         prisma.equipment_update (Rental.equipmentId rental)
           (Equipment.set_isAvailable true) ;;
         ret tt
     | Some _ => ret tt
     end
   else ret tt) ;;
  ret updatedRental.

Definition cancelRental (id : Id) (userId : Id) (now : DateTime)
  : Promise Rental.t :=
  rental <- findOne id (Some userId) ;;
  if negb (Rental.renterId rental =? userId)
     && negb (Rental.ownerId rental =? userId)
  then throw (ForbiddenException
                "You do not have permission to cancel this rental")
  else if rentalStatus_eqb (Rental.status rental) COMPLETED
  then throw (BadRequestException "Cannot cancel a completed rental")
  else
  updatedRental <-
    prisma.rental_update id
      (fun r => Rental.set_deletedAt (Some now) (Rental.set_status CANCELLED r)) ;;
  prisma.equipment_update (Rental.equipmentId rental)
    (Equipment.set_isAvailable true) ;;
  ret updatedRental.

Definition payWithWallet (rentalId : Id) (userId : Id) : Promise Rental.t :=
  rental <- prisma.rental_findUnique rentalId (fun _ => true) ;;
  match rental with
  | None => throw (NotFoundException "Rental not found")
  | Some rental =>
  if negb (Rental.renterId rental =? userId)
  then throw (ForbiddenException "You can only pay for your own rentals")
  else if paymentStatus_eqb (Rental.paymentStatus rental) PAY_PAID
  then throw (BadRequestException "Rental already paid")
  else
  wallet <- WalletService.getWalletByUserId userId ;;
  if (Wallet.balance wallet <? Rental.totalAmount rental)%Z
  then throw (BadRequestException "Insufficient wallet balance")
  else
  (* [rental.equipment.name], loaded with the rental by [include] *)
  equipmentName <-
    (e <- prisma.equipment_findUnique (Rental.equipmentId rental) (fun _ => true) ;;
     ret match e with Some e => Equipment.name e | None => "" end) ;;
  WalletService.createTransaction
    (mkCreateWalletTransactionDto (Wallet.id wallet) PAYMENT
       (- Rental.totalAmount rental)
       ("Pagamento de aluguel - " ++ equipmentName)
       None None None (Some TX_COMPLETED)
       (Some [("rentalId", JString (Rental.id rental));
              ("equipmentId", JString (Rental.equipmentId rental));
              ("ownerId", JString (Rental.ownerId rental))])) ;;
  prisma.rental_update rentalId Rental.set_paid_by_wallet
  end.

(** The body of the [for] loop: [true] when the rental was pushed on
    [cancelledRentals], [false] when the [catch] logged an error. *)
Definition cancelExpired (now : DateTime) (rental : Rental.t) : Promise bool :=
  tryCatch
    (prisma.rental_update (Rental.id rental) (Rental.set_status CANCELLED) ;;
     hasOtherApprovedRentals <-
       prisma.rental_findFirst
         (fun r => isHeld now (Rental.equipmentId rental) r
                   && negb (Rental.id r =? Rental.id rental)) ;;
     match hasOtherApprovedRentals with
     | None =>
         prisma.equipment_update (Rental.equipmentId rental)
           (Equipment.set_isAvailable true) ;;
         ret true
     | Some _ => ret true
     end)
    (fun _ => ret false).

Fixpoint cancelEach (now : DateTime) (expiredRentals cancelledRentals : list Rental.t)
  : Promise (list Rental.t) :=
  match expiredRentals with
  | [] => ret cancelledRentals
  | rental :: rest =>
      pushed <- cancelExpired now rental ;;
      cancelEach now rest
        (if pushed then (cancelledRentals ++ [rental])%list else cancelledRentals)
  end.

(** The rows the sweep selects:
    [status: 'APPROVED', paymentStatus: 'PENDING', approvedAt: { lte }]. *)
Definition isExpired (expirationDate : DateTime) (r : Rental.t) : bool :=
  rentalStatus_eqb (Rental.status r) APPROVED
  && paymentStatus_eqb (Rental.paymentStatus r) PAY_PENDING
  && match Rental.approvedAt r with
     | Some t => (t <=? expirationDate)%Z
     | None => false
     end.

(** [timeoutHours] is [RENTAL_PAYMENT_TIMEOUT_HOURS], 24 when unset; [tz]
    is the time zone the server runs in. *)
Definition cancelExpiredApprovedRentals (tz : TimeZone) (timeoutHours : Z)
           (now : DateTime) : Promise (list Rental.t) :=
  let expirationDate :=
    JsDate.setHours tz now (JsDate.getHours tz now - timeoutHours)%Z in
  expiredRentals <- prisma.rental_findMany (isExpired expirationDate) ;;
  cancelEach now expiredRentals [].


(** The columns [paymentReceipt], [moderatedBy], [moderatedAt] and
    [rejectionReason] are written by the two receipt methods and read by
    neither; like the renter's coordinates they are not carried by the row,
    so [receiptUrl], [moderatorId] and [rejectionReason] reach no rule. *)
Definition uploadPaymentReceipt (id : Id) (receiptUrl : string) (userId : Id)
  : Promise Rental.t :=
  rental <- prisma.rental_findUnique id (fun _ => true) ;;
  match rental with
  | None => throw (NotFoundException "Rental not found")
  | Some rental =>
  if negb (Rental.renterId rental =? userId)
  then throw (ForbiddenException
                "You can only upload receipt for your own rentals")
  else match Rental.paymentMethod rental with
       | RECEIPT => prisma.rental_update id Rental.set_receipt_uploaded
       | _ => throw (BadRequestException
                       "This rental does not use receipt payment method")
       end
  end.

Definition validatePaymentReceipt (id : Id) (isApproved : bool) (moderatorId : Id)
           (rejectionReason : option string) : Promise Rental.t :=
  rental <- prisma.rental_findUnique id (fun _ => true) ;;
  match rental with
  | None => throw (NotFoundException "Rental not found")
  | Some rental =>
      match Rental.paymentReceiptStatus rental with
      | Some RECEIPT_PENDING =>
          prisma.rental_update id (Rental.set_receipt_validated isApproved)
      | _ => throw (BadRequestException
                      "Payment receipt is not pending validation")
      end
  end.

End RentalService.

(** ** SponsorshipService (sponsorship.service.ts) *)

Record CreateSponsorshipDto : Type := mkCreateSponsorshipDto {
  cs_targetUserId : option Id;
  cs_equipmentId : option Id;
  cs_amount : Money;
  cs_duration : Z
}.

Module SponsorshipService.

(** [{ sponsorId, status: 'ACTIVE', startDate: { lte: now }, endDate: { gte: now } }] *)
Definition isActiveNow (sponsorId : Id) (now : DateTime) (s : AdSponsorship.t)
  : bool :=
  (AdSponsorship.sponsorId s =? sponsorId)
  && adStatus_eqb (AdSponsorship.status s) AD_ACTIVE
  && (AdSponsorship.startDate s <=? now)%Z
  && (now <=? AdSponsorship.endDate s)%Z.

Definition createSponsorship (sponsorId : Id)
           (createSponsorshipDto : CreateSponsorshipDto) (now : DateTime)
  : Promise AdSponsorship.t :=
  let targetUserId := cs_targetUserId createSponsorshipDto in
  let equipmentId := cs_equipmentId createSponsorshipDto in
  let amount := cs_amount createSponsorshipDto in
  let duration := cs_duration createSponsorshipDto in
  if (amount <=? 0)%Z then throw (BadRequestException "Amount must be positive")
  else if (duration <=? 0)%Z
  then throw (BadRequestException "Duration must be positive")
  else
  existingSponsorship <-
    prisma.adSponsorship_findFirst (isActiveNow sponsorId now) ;;
  match existingSponsorship with
  | Some _ =>
      throw (BadRequestException
               "Você já possui um patrocínio ativo. Aguarde a expiração ou cancele o atual para criar um novo.")
  | None =>
  wallet <- WalletService.getWalletByUserId sponsorId ;;
  if (Wallet.balance wallet <? amount)%Z
  then throw (BadRequestException "Insufficient wallet balance")
  else
  (if truthyString equipmentId
   then
     equipment <-
       prisma.equipment_findUnique
         (match equipmentId with Some e => e | None => "" end)
         (fun e => (Equipment.ownerId e =? sponsorId)
                   && match Equipment.deletedAt e with
                      | None => true
                      | Some _ => false
                      end) ;;
     match equipment with
     | None => throw (NotFoundException "Equipment not found or not owned by user")
     | Some _ => ret tt
     end
   else ret tt) ;;
  (if truthyString targetUserId
   then
     targetUser <-
       prisma.user_findUnique (match targetUserId with Some u => u | None => "" end) ;;
     match targetUser with
     | None => throw (NotFoundException "Target user not found")
     | Some _ => ret tt
     end
   else ret tt) ;;
  let startDate := now in
  let endDate := (now + duration * msPerDay)%Z in
  sponsorship <- prisma.adSponsorship_create (fun id =>
    AdSponsorship.mk id sponsorId targetUserId equipmentId amount duration
      startDate endDate AD_ACTIVE 0 0) ;;
  WalletService.createTransaction
    (mkCreateWalletTransactionDto (Wallet.id wallet) PROMOTION_FEE (- amount)
       ("Patrocínio de anúncio - "
        ++ NilEmpty.string_of_int (Z.to_int duration) ++ " dias")
       None None None (Some TX_COMPLETED)
       (Some ([("sponsorshipId", JString (AdSponsorship.id sponsorship))]
              ++ optString "targetUserId" targetUserId
              ++ optString "equipmentId" equipmentId
              ++ [("duration", JNumber duration)])%list)) ;;
  ret sponsorship
  end.


Definition updateStatus (id : Id) (status : AdSponsorshipStatus) (userId : Id)
  : Promise AdSponsorship.t :=
  sponsorship <- prisma.adSponsorship_findUnique id ;;
  match sponsorship with
  | None => throw (NotFoundException "Sponsorship not found")
  | Some sponsorship =>
      if negb (AdSponsorship.sponsorId sponsorship =? userId)
      then throw (BadRequestException "You can only update your own sponsorships")
      else prisma.adSponsorship_update id (AdSponsorship.set_status status)
  end.








End SponsorshipService.

(** ** Sample data *)

Module Sample.

Definition ana : User.t := User.mk "ana" "Ana Tenant" "ana@example.com" None "TENANT".
Definition rui : User.t := User.mk "rui" "Rui Tenant" "rui@example.com" None "TENANT".
Definition olga : User.t :=
  User.mk "olga" "Olga Owner" "olga@example.com" None "LANDLORD".

Definition drill (isAvailable : bool) : Equipment.t :=
  Equipment.mk "drill" "Drill" "olga" isAvailable (Some 50%Z) (Some DAILY) None.

Definition emptyDb : Db :=
  mkDb [ana; rui; olga] [] [] [drill true] [] [] 0.

(** A rental of the drill, four days from 2024-03-01 (UTC). *)
Definition march1 : DateTime := 1709251200000%Z.
Definition march5 : DateTime := 1709596800000%Z.

Definition rentalOf (id renterId : Id) (status : RentalStatus)
           (approvedAt : option DateTime) : Rental.t :=
  Rental.mk id "drill" renterId "olga" march1 march5 None None 200%Z 50%Z None
    REFERENCE None (march5 - msPerDay)%Z status PAY_PENDING None (Some DAILY)
    false None None approvedAt None.

Definition request (pricePeriod : option PricePeriod) : CreateRentalDto :=
  mkCreateRentalDto march1 march5 None None None (Some 50%Z) pricePeriod None
    REFERENCE None "drill" None None "ana".

(** "ana" holds a wallet of 40; the gateway accepts a deposit. *)
Definition walletDb : Db :=
  mkDb [ana; rui; olga] [Wallet.mk "w-ana" "ana" 40%Z true] [] [drill true] [] [] 0.

Definition gatewayOk : ProxyPayResponse :=
  mkProxyPayResponse true "1234" "1234" "pending"
    (Some "https://sandbox.proxypay.co.ao/payment/01005/1234") None.

(** Two tenants have asked for the drill; nothing is approved yet. *)
Definition pendingDb : Db :=
  mkDb [ana; rui; olga] [] [] [drill true]
       [rentalOf "r1" "ana" PENDING None; rentalOf "r2" "rui" PENDING None] [] 0.

(** "ana" holds 250 and owes 200 for the approved rental "r1". *)
Definition payDb : Db :=
  mkDb [ana; rui; olga] [Wallet.mk "w-ana" "ana" 250%Z true] [] [drill false]
       [rentalOf "r1" "ana" APPROVED (Some march1)] [] 0.

(** The sweep runs at [sweepTime]; "r25" was approved 25 hours before,
    "r23" 23 hours before. *)
Definition sweepTime : DateTime := (march1 + 30 * msPerHour)%Z.

Definition sweepDb : Db :=
  mkDb [ana; rui; olga] [] [] [drill false]
       [rentalOf "r25" "ana" APPROVED (Some (sweepTime - 25 * msPerHour)%Z);
        rentalOf "r23" "rui" APPROVED (Some (sweepTime - 23 * msPerHour)%Z)]
       [] 0.

(** "olga" sponsors her drill from 2024-03-01 for four days. *)
Definition sponsoredDb : Db :=
  mkDb [ana; rui; olga] [Wallet.mk "w-olga" "olga" 9000%Z true] [] [drill true] []
       [AdSponsorship.mk "s1" "olga" None (Some "drill") 1000%Z 4%Z
          march1 march5 AD_ACTIVE 0%Z 0%Z] 0.

(** As [pendingDb], with a wallet of 250 for "ana". *)
Definition fundedPendingDb : Db :=
  mkDb [ana; rui; olga] [Wallet.mk "w-ana" "ana" 250%Z true] [] [drill true]
       [rentalOf "r1" "ana" PENDING None; rentalOf "r2" "rui" PENDING None] [] 0.

(** "ana" asks for the drill with a priority fee of [p]. *)
Definition priorityRequest (p : Money) : CreateRentalDto :=
  mkCreateRentalDto march1 march5 None None None (Some 50%Z) None None
    REFERENCE None "drill" (Some true) (Some p) "ana".

(** "ana" pays "r1" by receipt and has uploaded one; the rental was
    cancelled in the meantime. *)
Definition receiptDb : Db :=
  mkDb [ana; rui; olga] [] [] [drill true]
       [Rental.mk "r1" "drill" "ana" "olga" march1 march5 None None 200%Z 50%Z
          None RECEIPT None (march5 - msPerDay)%Z CANCELLED PAY_PENDING
          (Some RECEIPT_PENDING) (Some DAILY) false None None None None] [] 0.

(** A server that keeps UTC all year. *)
Definition utc : TimeZone := mkTimeZone (fun _ _ => 0%Z).

(** A server on Lisbon time around the last Sunday of March 2024: at
    2024-03-31 01:00 UTC the clocks go from 01:00 (UTC+0) to 02:00 (UTC+1).
    A local time in the skipped hour is read with the offset before the
    change. *)
Definition clocksForward : DateTime := 1711846800000%Z.

Definition lisbon : TimeZone :=
  mkTimeZone (fun t isUTC =>
    if isUTC
    then if (t <? clocksForward)%Z then 0%Z else 3600000%Z
    else if (t <? clocksForward + 3600000)%Z then 0%Z else 3600000%Z).

(** The sweep of 2024-03-31 12:00 UTC; "r25" was approved 25 hours before,
    "r23" 23 hours before. *)
Definition changeDaySweepTime : DateTime := 1711886400000%Z.

Definition changeDayDb : Db :=
  mkDb [ana; rui; olga] [] [] [drill false]
       [rentalOf "r25" "ana" APPROVED (Some (changeDaySweepTime - 25 * 3600000)%Z);
        rentalOf "r23" "rui" APPROVED (Some (changeDaySweepTime - 23 * 3600000)%Z)]
       [] 0.

(** [renterId] asks for the drill. *)
Definition requestBy (renterId : Id) : CreateRentalDto :=
  mkCreateRentalDto march1 march5 None None None (Some 50%Z) None None
    REFERENCE None "drill" None None renterId.

(** The database after "ana" has asked for the drill, and after "rui" has
    asked for it too: the requests are the rentals "uuid-0" and "uuid-1". *)
Definition askedOnceDb : Db :=
  snd (RentalService.create (requestBy "ana") march1 march1 emptyDb).

Definition askedTwiceDb : Db :=
  snd (RentalService.create (requestBy "rui") march1 march1 askedOnceDb).

End Sample.

(** ** Vocabulary of the statements *)

(** The row [createTransaction] writes for a request, given the generated id. *)
Definition postedTransaction (dto : CreateWalletTransactionDto) (id : Id)
  : WalletTransaction.t :=
  WalletTransaction.mk id (ct_walletId dto) (ct_type dto) (ct_amount dto)
    (ct_description dto) TX_COMPLETED (ct_reference dto)
    (ct_proxyPayReference dto) (ct_proxyPayId dto) (ct_metadata dto).

Definition credit (walletId : Id) (amount : Money) (ws : list Wallet.t)
  : list Wallet.t :=
  map (fun x => if Wallet.id x =? walletId
                then Wallet.incrementBalance amount x else x) ws.

(** The database after [createTransaction] has gone through. *)
Definition posted (dto : CreateWalletTransactionDto) (db : Db) : Db :=
  mkDb (users db)
       (credit (ct_walletId dto) (ct_amount dto) (wallets db))
       (walletTransactions db ++ [postedTransaction dto (uuid (nextUuid db))])%list
       (equipments db) (rentals db) (adSponsorships db) (S (nextUuid db)).

(** Every stored balance is the sum of the wallet's COMPLETED transactions. *)
Definition ledgerConsistent (db : Db) : Prop :=
  forall w, In w (wallets db) ->
            Wallet.balance w = completedSum (Wallet.id w) db.

(** The period count of a rental of [days] days, as the specification
    words it. *)
Definition periodCount (pricePeriod : option PricePeriod) (days : Z) : Z :=
  match pricePeriod with
  | Some HOURLY => days * 8
  | Some WEEKLY => ceilDiv days 7
  | Some MONTHLY => ceilDiv days 30
  | Some DAILY | None => days
  end.

(** [isAvailable] of the equipment [equipmentId] set to [b]. *)
Definition setAvailability (equipmentId : Id) (b : bool) (es : list Equipment.t)
  : list Equipment.t :=
  map (fun e => if Equipment.id e =? equipmentId
                then Equipment.set_isAvailable b e else e) es.

(** What the approval of rental [r] does to a row [x] of the rental table:
    [r] becomes APPROVED and is stamped, the other PENDING requests for the
    same equipment become REJECTED. *)
Definition approveRow (now : DateTime) (r x : Rental.t) : Rental.t :=
  if Rental.id x =? Rental.id r
  then Rental.set_approvedAt (Some now) (Rental.set_status APPROVED x)
  else if (Rental.equipmentId x =? Rental.equipmentId r)
          && rentalStatus_eqb (Rental.status x) PENDING
       then Rental.set_status REJECTED x
       else x.

(** The lifecycle as the specification draws it:
    PENDING -> APPROVED -> PAID/ACTIVE -> COMPLETED, with CANCELLED and
    REJECTED reachable from PENDING and APPROVED. *)
Definition declaredTransition (from to : RentalStatus) : bool :=
  match from, to with
  | PENDING, APPROVED
  | APPROVED, PAID | APPROVED, ACTIVE | PAID, ACTIVE
  | PAID, COMPLETED | ACTIVE, COMPLETED
  | PENDING, CANCELLED | PENDING, REJECTED
  | APPROVED, CANCELLED | APPROVED, REJECTED => true
  | _, _ => false
  end.

(** [status] written on the rows of rental [id]. *)
Definition statusRow (status : RentalStatus) (id : Id) (x : Rental.t) : Rental.t :=
  if Rental.id x =? id then Rental.set_status status x else x.

Definition statusOf (id : Id) (db : Db) : option RentalStatus :=
  option_map Rental.status (find (fun x => Rental.id x =? id) (rentals db)).

(** The database [updateStatus] leaves when it goes through for rental [r]. *)
Definition afterUpdateStatus (status : RentalStatus) (r : Rental.t)
           (now : DateTime) (db : Db) : Db :=
  match status with
  | APPROVED =>
      prisma.set_rentals (map (approveRow now r) (rentals db))
        (prisma.set_equipments
           (setAvailability (Rental.equipmentId r) false (equipments db)) db)
  | CANCELLED | REJECTED =>
      let rs := map (statusRow status (Rental.id r)) (rentals db) in
      match find (RentalService.isHeld now (Rental.equipmentId r)) rs with
      | Some _ => prisma.set_rentals rs db
      | None =>
          prisma.set_equipments
            (setAvailability (Rental.equipmentId r) true (equipments db))
            (prisma.set_rentals rs db)
      end
  | _ => prisma.set_rentals (map (statusRow status (Rental.id r)) (rentals db)) db
  end.

(** The rows of rental [rentalId] after a wallet payment. *)
Definition paidRow (rentalId : Id) (x : Rental.t) : Rental.t :=
  if Rental.id x =? rentalId then Rental.set_paid_by_wallet x else x.

(** The row the expired-approval sweep leaves for [x]. *)
Definition sweptRow (expirationDate : DateTime) (x : Rental.t) : Rental.t :=
  if RentalService.isExpired expirationDate x
  then Rental.set_status CANCELLED x else x.

(** The rental table after one turn of the sweep on [rental]. *)
Definition cancelRows (rs : list Rental.t) (rental : Rental.t) : list Rental.t :=
  map (statusRow CANCELLED (Rental.id rental)) rs.

(** The columns of a rental other than [status] and [approvedAt]. *)
Definition otherColumns (r : Rental.t) :=
  (Rental.id r, Rental.equipmentId r, Rental.renterId r, Rental.ownerId r,
   Rental.startDate r, Rental.endDate r, Rental.startTime r, Rental.endTime r,
   Rental.totalAmount r, Rental.dailyRate r, Rental.maxRentalDays r,
   Rental.paymentMethod r, Rental.paymentReference r,
   Rental.returnReminderDate r, Rental.paymentStatus r,
   Rental.paymentReceiptStatus r, Rental.pricePeriod r, Rental.hasPriority r,
   Rental.priorityAmount r, Rental.priorityPaidAt r, Rental.deletedAt r).

(** The instant at which the local clock read [timeoutHours] hours less
    than it reads at [now]. *)
Definition wallClockHoursBefore (tz : TimeZone) (timeoutHours : Z)
           (now : DateTime) : DateTime :=
  let local := (now + LocalTZA tz now true - timeoutHours * 3600000)%Z in
  (local - LocalTZA tz local false)%Z.

(** An approval that has waited for its payment since [threshold] or
    longer. *)
Definition approvalExpired (threshold : DateTime) (x : Rental.t) : Prop :=
  Rental.status x = APPROVED
  /\ Rental.paymentStatus x = PAY_PENDING
  /\ exists a, Rental.approvedAt x = Some a /\ (a <= threshold)%Z.

(** No wallet is overdrawn. *)
Definition noOverdraft (db : Db) : Prop :=
  forall w, In w (wallets db) -> (0 <= Wallet.balance w)%Z.

(** The database after an empty wallet has been opened for [userId]. *)
Definition withEmptyWallet (userId : Id) (db : Db) : Db :=
  mkDb (users db)
       (wallets db ++ [Wallet.mk (uuid (nextUuid db)) userId 0%Z true])%list
       (walletTransactions db) (equipments db) (rentals db)
       (adSponsorships db) (S (nextUuid db)).

(** The rows of rental [id] with the priority fields cleared. *)
Definition clearRow (id : Id) (x : Rental.t) : Rental.t :=
  if Rental.id x =? id then Rental.clear_priority x else x.

(** The database right after [create] has inserted [rental]. *)
Definition withRental (rental : Rental.t) (db : Db) : Db :=
  mkDb (users db) (wallets db) (walletTransactions db) (equipments db)
       (rentals db ++ [rental])%list (adSponsorships db) (S (nextUuid db)).





(** * Properties *)

(** ** Wallet ledger *)

Lemma createTransaction_run (dto : CreateWalletTransactionDto) (db : Db) :
  WalletService.createTransaction dto db =
  match find (fun w => Wallet.id w =? ct_walletId dto) (wallets db) with
  | None => (inl (NotFoundException "Wallet not found"), db)
  | Some w =>
      if (ct_amount dto <? 0)%Z && (Wallet.balance w + ct_amount dto <? 0)%Z
      then (inl (BadRequestException "Insufficient balance"), db)
      else (inr (postedTransaction dto (uuid (nextUuid db))), posted dto db)
  end.
Proof.
  unfold WalletService.createTransaction, bind, prisma.wallet_findUnique.
  destruct (find _ (wallets db)) as [w|] eqn:Hw; [|reflexivity].
  destruct ((ct_amount dto <? 0)%Z && _) eqn:Hdebit; [reflexivity|].
  unfold prisma.walletTransaction_create, prisma.wallet_update_increment,
    prisma.freshId, bind; simpl.
  rewrite Hw. reflexivity.
Qed.

Lemma fold_sum_app (l1 l2 : list Z) :
  fold_right Z.add 0%Z (l1 ++ l2)
  = (fold_right Z.add 0%Z l1 + fold_right Z.add 0%Z l2)%Z.
Proof.
  induction l1 as [|x l1 IH]; simpl; [reflexivity|]. rewrite IH. lia.
Qed.

Lemma completedSum_posted (dto : CreateWalletTransactionDto) (db : Db) (walletId : Id) :
  completedSum walletId (posted dto db)
  = (completedSum walletId db
     + if String.eqb (ct_walletId dto) walletId then ct_amount dto else 0)%Z.
Proof.
  unfold completedSum, completedAmounts, posted; simpl.
  rewrite filter_app, map_app, fold_sum_app. simpl.
  destruct (ct_walletId dto =? walletId); simpl; lia.
Qed.

(** [createTransaction] keeps balances and ledgers in step: the invariant
    can only be broken elsewhere. *)
Lemma createTransaction_preserves_ledger
      (dto : CreateWalletTransactionDto) (db db' : Db) (t : WalletTransaction.t) :
  ledgerConsistent db ->
  WalletService.createTransaction dto db = (inr t, db') ->
  ledgerConsistent db'.
Proof.
  intros Hinv Hrun. rewrite createTransaction_run in Hrun.
  destruct (find _ (wallets db)) as [w0|]; [|discriminate].
  destruct (_ && _); [discriminate|].
  injection Hrun as _ <-.
  intros w Hin. rewrite completedSum_posted.
  simpl in Hin. unfold credit in Hin. apply in_map_iff in Hin.
  destruct Hin as [x [<- Hx]]. specialize (Hinv x Hx).
  destruct (Wallet.id x =? ct_walletId dto) eqn:E; simpl;
    rewrite String.eqb_sym, E; lia.
Qed.

(** C1 (defect).  The balance of a wallet should equal the sum of its
    COMPLETED transactions.  [createWallet] with a positive initial balance
    stores the balance on the new row and then posts the same amount as a
    DEPOSIT, which adds it a second time: the wallet of "ana", opened with
    100, holds 200 against a ledger of 100. *)
Theorem createWallet_counts_initial_balance_twice :
  let run := WalletService.createWallet
               (mkCreateWalletDto "ana" (Some 100%Z)) Sample.emptyDb in
  succeeded run = true
  /\ balanceOf "uuid-0" (snd run) = Some 200%Z
  /\ completedSum "uuid-0" (snd run) = 100%Z
  /\ ~ ledgerConsistent (snd run).
Proof.
  repeat split; try reflexivity.
  intros H.
  specialize (H (Wallet.mk "uuid-0" "ana" 200%Z true)).
  assert (Hin : In (Wallet.mk "uuid-0" "ana" 200%Z true)
                   (wallets (snd (WalletService.createWallet
                      (mkCreateWalletDto "ana" (Some 100%Z)) Sample.emptyDb)))).
  { vm_compute. left. reflexivity. }
  specialize (H Hin). vm_compute in H. discriminate.
Qed.

(** C2.  A debit that would drive the balance of an existing wallet below
    zero is refused with "Insufficient balance" and the database (balances
    and transaction history included) is left as it was. *)
Theorem createTransaction_insufficient_balance
        (dto : CreateWalletTransactionDto) (db : Db) (w : Wallet.t) :
  find (fun x => Wallet.id x =? ct_walletId dto) (wallets db) = Some w ->
  (ct_amount dto < 0)%Z ->
  (Wallet.balance w + ct_amount dto < 0)%Z ->
  WalletService.createTransaction dto db
  = (inl (BadRequestException "Insufficient balance"), db).
Proof.
  intros Hw Hneg Hlow. rewrite createTransaction_run, Hw.
  apply Z.ltb_lt in Hneg. apply Z.ltb_lt in Hlow.
  rewrite Hneg, Hlow. reflexivity.
Qed.

Lemma createTransaction_insufficient_balance_witness :
  WalletService.createTransaction
    (mkCreateWalletTransactionDto "w1" PAYMENT (-60)%Z "debit" None None None None None)
    (mkDb [Sample.ana] [Wallet.mk "w1" "ana" 40%Z true] [] [] [] [] 0)
  = (inl (BadRequestException "Insufficient balance"),
     mkDb [Sample.ana] [Wallet.mk "w1" "ana" 40%Z true] [] [] [] [] 0).
Proof.
  apply (createTransaction_insufficient_balance
           (mkCreateWalletTransactionDto "w1" PAYMENT (-60)%Z "debit"
              None None None None None)
           (mkDb [Sample.ana] [Wallet.mk "w1" "ana" 40%Z true] [] [] [] [] 0)
           (Wallet.mk "w1" "ana" 40%Z true)).
  - reflexivity.
  - simpl. lia.
  - simpl. lia.
Defined.

Lemma getWalletByUserId_found (userId : Id) (db : Db) (w : Wallet.t) :
  find (fun x => Wallet.userId x =? userId) (wallets db) = Some w ->
  WalletService.getWalletByUserId userId db = (inr w, db).
Proof.
  intros Hw. unfold WalletService.getWalletByUserId, bind,
    prisma.wallet_findUnique_userId.
  rewrite Hw. reflexivity.
Qed.

Lemma find_wallet_by_id (ws : list Wallet.t) (w : Wallet.t) :
  In w ws ->
  exists w', find (fun x => Wallet.id x =? Wallet.id w) ws = Some w'.
Proof.
  intros Hin.
  destruct (find (fun x => Wallet.id x =? Wallet.id w) ws) as [w'|] eqn:E.
  - exists w'. reflexivity.
  - apply (find_none _ _ E) in Hin. rewrite String.eqb_refl in Hin. discriminate.
Qed.

(** C10.  Whatever status the request carries, a transaction that goes
    through is stored as COMPLETED and its amount is on the balance at once.
    A gateway deposit is posted by [depositViaProxyPay] with status PENDING:
    it too is stored as COMPLETED and credited before any confirmation. *)
Theorem createTransaction_always_completed :
  (forall (dto : CreateWalletTransactionDto) (db db' : Db) (t : WalletTransaction.t),
      WalletService.createTransaction dto db = (inr t, db') ->
      WalletTransaction.status t = TX_COMPLETED
      /\ walletTransactions db' = (walletTransactions db ++ [t])%list
      /\ wallets db' = credit (ct_walletId dto) (ct_amount dto) (wallets db))
  /\
  (forall (userId : Id) (depositDto : ProxyPayDepositDto)
          (proxyPayResponse : ProxyPayResponse) (db : Db)
          (w : Wallet.t) (u : User.t),
      find (fun x => Wallet.userId x =? userId) (wallets db) = Some w ->
      find (fun x => User.id x =? userId) (users db) = Some u ->
      pp_success proxyPayResponse = true ->
      (0 < pd_amount depositDto)%Z ->
      exists (t : WalletTransaction.t) (db' : Db),
        WalletService.depositViaProxyPay userId depositDto proxyPayResponse db
        = (inr (t, Wallet.balance w), db')
        /\ WalletTransaction.status t = TX_COMPLETED
        /\ WalletTransaction.amount t = pd_amount depositDto
        /\ walletTransactions db' = (walletTransactions db ++ [t])%list
        /\ wallets db' = credit (Wallet.id w) (pd_amount depositDto) (wallets db)).
Proof.
  split.
  - intros dto db db' t Hrun. rewrite createTransaction_run in Hrun.
    destruct (find _ (wallets db)); [|discriminate].
    destruct (_ && _); [discriminate|].
    injection Hrun as <- <-. repeat split.
  - intros userId depositDto resp db w u Hw Hu Hok Hpos.
    unfold WalletService.depositViaProxyPay.
    destruct (pd_amount depositDto <=? 0)%Z eqn:Hle;
      [apply Z.leb_le in Hle; lia|].
    unfold bind at 1. rewrite (getWalletByUserId_found _ _ _ Hw).
    unfold bind at 1, prisma.user_findUnique at 1. rewrite Hu, Hok.
    cbn [negb]. unfold bind at 1. rewrite createTransaction_run.
    cbn [ct_walletId ct_amount].
    destruct (find_wallet_by_id (wallets db) w (proj1 (find_some _ _ Hw)))
      as [w' ->].
    assert (Hnodebit : (pd_amount depositDto <? 0)%Z = false)
      by (apply Z.ltb_ge; lia).
    rewrite Hnodebit. cbn [andb].
    eexists. eexists. split; [reflexivity|]. repeat split.
Qed.

Lemma createTransaction_always_completed_witness :
  exists (t : WalletTransaction.t) (db' : Db),
    WalletService.depositViaProxyPay "ana"
      (mkProxyPayDepositDto 500%Z "bank_transfer" None)
      Sample.gatewayOk Sample.walletDb
    = (inr (t, 40%Z), db')
    /\ WalletTransaction.status t = TX_COMPLETED
    /\ WalletTransaction.amount t = 500%Z
    /\ walletTransactions db' = [t]
    /\ wallets db' = [Wallet.mk "w-ana" "ana" 540%Z true].
Proof.
  apply (proj2 createTransaction_always_completed "ana"
           (mkProxyPayDepositDto 500%Z "bank_transfer" None)
           Sample.gatewayOk Sample.walletDb
           (Wallet.mk "w-ana" "ana" 40%Z true) Sample.ana).
  - reflexivity.
  - reflexivity.
  - reflexivity.
  - simpl. lia.
Defined.

(** ** Running a method step by step *)

Lemma rentalStatus_eqb_eq (a b : RentalStatus) :
  rentalStatus_eqb a b = true <-> a = b.
Proof. destruct a, b; split; intros H; try reflexivity; discriminate H. Qed.

Lemma paymentStatus_eqb_eq (a b : PaymentStatus) :
  paymentStatus_eqb a b = true <-> a = b.
Proof. destruct a, b; split; intros H; try reflexivity; discriminate H. Qed.

(** A table rewritten row by row, read row by row. *)
Lemma Forall2_map_self {A : Type} (R : A -> A -> Prop) (f : A -> A) (l : list A) :
  (forall x, In x l -> R x (f x)) -> Forall2 R l (map f l).
Proof.
  induction l as [|a l IH]; intros H; cbn [map]; constructor.
  - apply H. left. reflexivity.
  - apply IH. intros x Hx. apply H. right. exact Hx.
Qed.

Lemma bind_ok {A B : Type} (m : Promise A) (k : A -> Promise B)
      (db db1 : Db) (a : A) :
  m db = (inr a, db1) -> bind m k db = k a db1.
Proof. intros H. unfold bind. rewrite H. reflexivity. Qed.

Lemma bind_inr {A B : Type} (m : Promise A) (k : A -> Promise B)
      (db db' : Db) (b : B) :
  bind m k db = (inr b, db') ->
  exists a db1, m db = (inr a, db1) /\ k a db1 = (inr b, db').
Proof.
  unfold bind. destruct (m db) as [[e|a] db1]; intros H; [discriminate|].
  exists a, db1. split; [reflexivity|exact H].
Qed.

(** The double credit of [createWallet] in general: for any positive
    initial balance the new wallet ends with twice the amount, against a
    single DEPOSIT of the amount. *)
Lemma createWallet_double_credit (dto : CreateWalletDto) (db : Db) (u : User.t)
      (initialBalance : Money) :
  find (fun x => User.id x =? cw_userId dto) (users db) = Some u ->
  find (fun x => Wallet.userId x =? cw_userId dto) (wallets db) = None ->
  cw_initialBalance dto = Some initialBalance ->
  (0 < initialBalance)%Z ->
  exists db',
    WalletService.createWallet dto db
    = (inr (Wallet.mk (uuid (nextUuid db)) (cw_userId dto) initialBalance true), db')
    /\ In (Wallet.mk (uuid (nextUuid db)) (cw_userId dto)
             (initialBalance + initialBalance) true) (wallets db')
    /\ completedSum (uuid (nextUuid db)) db'
       = (completedSum (uuid (nextUuid db)) db + initialBalance)%Z.
Proof.
  intros Hu Hnone Hinit Hpos.
  unfold WalletService.createWallet. rewrite Hinit.
  unfold bind at 1, prisma.user_findUnique at 1. rewrite Hu.
  unfold bind at 1, prisma.wallet_findUnique_userId at 1. rewrite Hnone.
  unfold bind at 1, prisma.wallet_create at 1, bind at 1, prisma.freshId at 1.
  cbn [wallets Wallet.id].
  assert (Hcredit : (0 <? initialBalance)%Z = true) by (apply Z.ltb_lt; exact Hpos).
  rewrite Hcredit.
  unfold bind at 1, bind at 1. rewrite createTransaction_run.
  cbn [ct_walletId ct_amount wallets prisma.set_wallets].
  set (w0 := Wallet.mk (uuid (nextUuid db)) (cw_userId dto) initialBalance true).
  destruct (find_wallet_by_id (wallets db ++ [w0]) w0
              ltac:(apply in_or_app; right; left; reflexivity)) as [w' Hw'].
  change (Wallet.id w0) with (uuid (nextUuid db)) in Hw'. rewrite Hw'.
  assert (Hnodebit : (initialBalance <? 0)%Z = false) by (apply Z.ltb_ge; lia).
  rewrite Hnodebit. cbn [andb].
  eexists. split; [reflexivity|]. split.
  - cbn [wallets posted ct_walletId ct_amount]. unfold credit.
    apply in_map_iff. exists w0. split.
    + cbn. rewrite String.eqb_refl. reflexivity.
    + apply in_or_app. right. left. reflexivity.
  - rewrite completedSum_posted. cbn [ct_walletId ct_amount].
    rewrite String.eqb_refl. reflexivity.
Qed.

(** Opened without an initial balance, under an identifier no transaction
    refers to yet, a wallet keeps balances and ledgers in step. *)
Lemma createWallet_empty_preserves_ledger (userId : Id) (db db' : Db)
      (w : Wallet.t) :
  ledgerConsistent db ->
  completedSum (uuid (nextUuid db)) db = 0%Z ->
  WalletService.createWallet (mkCreateWalletDto userId None) db = (inr w, db') ->
  ledgerConsistent db'.
Proof.
  intros Hinv Hfresh Hrun. unfold WalletService.createWallet in Hrun.
  cbn [cw_userId cw_initialBalance] in Hrun.
  apply bind_inr in Hrun as (user & db1 & Huser & Hrun).
  injection Huser as _ <-.
  destruct user as [user|]; [|discriminate].
  apply bind_inr in Hrun as (existing & db2 & Hex & Hrun).
  injection Hex as _ <-.
  destruct existing as [existing|]; [discriminate|].
  cbn in Hrun. injection Hrun as _ <-.
  intros x Hin. cbn in Hin. apply in_app_or in Hin.
  destruct Hin as [Hin | [<- | []]].
  - exact (Hinv x Hin).
  - cbn. symmetry. exact Hfresh.
Qed.

(** ** Rental pricing *)

(** [ceilDiv a b] is the least integer [n] with [a <= n * b]. *)
Lemma ceilDiv_spec (a b : Z) :
  (0 < b)%Z ->
  (a <= ceilDiv a b * b)%Z /\ ((ceilDiv a b - 1) * b < a)%Z.
Proof.
  intros Hb. unfold ceilDiv.
  pose proof (Z.div_mod (- a) b ltac:(lia)) as Hdm.
  pose proof (Z.mod_pos_bound (- a) b Hb) as Hm.
  nia.
Qed.

(** C6.  When the request carries no [totalAmount] (a zero is read as
    none, being falsy), the rental is created
    with [totalAmount = dailyRate * periodCount], the period count being
    [days * 8] for HOURLY, [ceil(days/7)] for WEEKLY, [ceil(days/30)] for
    MONTHLY and [days] otherwise, for
    [days = ceil((endDate - startDate) / one day)].  At a daily rate of 50
    over 2024-03-01 .. 2024-03-05 this gives 200, 1600, 50 and 50. *)
Theorem create_totalAmount :
  (forall (dto : CreateRentalDto) (now today : DateTime) (db db' : Db)
          (rental : Rental.t),
      truthyNumber (cr_totalAmount dto) = false ->
      RentalService.create dto now today db = (inr rental, db') ->
      Rental.totalAmount rental
      = (Rental.dailyRate rental
         * periodCount (Rental.pricePeriod rental)
             (ceilDiv (Rental.endDate rental - Rental.startDate rental) msPerDay))%Z
      /\ Rental.startDate rental = cr_startDate dto
      /\ Rental.endDate rental = cr_endDate dto)
  /\ (let total pricePeriod :=
        match fst (RentalService.create (Sample.request pricePeriod)
                     Sample.march1 Sample.march1 Sample.emptyDb) with
        | inr rental => Some (Rental.totalAmount rental)
        | inl _ => None
        end in
      ceilDiv (Sample.march5 - Sample.march1) msPerDay = 4%Z
      /\ total (Some DAILY) = Some 200%Z
      /\ total (Some HOURLY) = Some 1600%Z
      /\ total (Some WEEKLY) = Some 50%Z
      /\ total (Some MONTHLY) = Some 50%Z).
Proof.
  split; [|repeat split; reflexivity].
  intros dto now today db db' rental Hnone Hrun.
  unfold RentalService.create in Hrun.
  apply bind_inr in Hrun as (equipment & db1 & _ & Hrun).
  destruct equipment as [equipment|]; [|discriminate].
  destruct (negb (Equipment.isAvailable equipment)); [discriminate|].
  destruct (Equipment.ownerId equipment =? cr_renterId dto); [discriminate|].
  apply bind_inr in Hrun as (renter & db2 & _ & Hrun).
  destruct renter as [renter|]; [|discriminate].
  destruct (User.userType renter =? "LANDLORD"); [discriminate|].
  destruct (cr_startDate dto <? today)%Z; [discriminate|].
  destruct (cr_endDate dto <=? cr_startDate dto)%Z; [discriminate|].
  destruct (truthyNumber (cr_maxRentalDays dto) && _); [discriminate|].
  apply bind_inr in Hrun as (created & db3 & Hcreate & Hrun).
  apply bind_inr in Hrun as (u & db4 & _ & Hrun).
  injection Hrun as <- _.
  unfold prisma.rental_create, prisma.freshId, bind in Hcreate.
  injection Hcreate as <- _.
  rewrite Hnone. cbn.
  unfold RentalService.periodAmount, RentalService.rentalDays, periodCount.
  repeat split.
  destruct (RentalService.orElse _ _) as [[| | |]|]; cbn; lia.
Qed.

Lemma create_totalAmount_witness :
  exists (rental : Rental.t) (db' : Db),
    RentalService.create (Sample.request (Some WEEKLY))
      Sample.march1 Sample.march1 Sample.emptyDb = (inr rental, db')
    /\ Rental.totalAmount rental
       = (Rental.dailyRate rental
          * periodCount (Rental.pricePeriod rental)
              (ceilDiv (Rental.endDate rental - Rental.startDate rental) msPerDay))%Z
    /\ Rental.startDate rental = Sample.march1
    /\ Rental.endDate rental = Sample.march5.
Proof.
  destruct (RentalService.create (Sample.request (Some WEEKLY))
              Sample.march1 Sample.march1 Sample.emptyDb)
    as [[e|rental] db'] eqn:Hrun.
  - vm_compute in Hrun. discriminate Hrun.
  - exists rental, db'. split; [reflexivity|].
    exact (proj1 create_totalAmount (Sample.request (Some WEEKLY))
             Sample.march1 Sample.march1 Sample.emptyDb db' rental
             eq_refl Hrun).
Defined.

(** ** Rental lifecycle *)

Lemma findOne_inr (id : Id) (userId : option Id) (db db' : Db) (rental : Rental.t) :
  RentalService.findOne id userId db = (inr rental, db') ->
  db' = db
  /\ find (fun x => (Rental.id x =? id) && RentalService.notDeleted x) (rentals db)
     = Some rental.
Proof.
  unfold RentalService.findOne, bind, prisma.rental_findUnique.
  destruct (find _ (rentals db)) as [r|]; [|discriminate].
  destruct (truthyString userId && _); [discriminate|].
  intros H. injection H as <- <-. split; reflexivity.
Qed.

Lemma rental_update_inr (id : Id) (data : Rental.t -> Rental.t)
      (db db' : Db) (res : Rental.t) :
  prisma.rental_update id data db = (inr res, db') ->
  db' = prisma.set_rentals
          (map (fun x => if Rental.id x =? id then data x else x) (rentals db)) db
  /\ exists r0, find (fun x => Rental.id x =? id) (rentals db) = Some r0
                /\ res = data r0.
Proof.
  unfold prisma.rental_update.
  destruct (find _ (rentals db)) as [r0|]; [|discriminate].
  intros H. injection H as <- <-. split; [reflexivity|].
  exists r0. split; reflexivity.
Qed.

Lemma equipment_update_inr (id : Id) (data : Equipment.t -> Equipment.t)
      (db db' : Db) (res : Equipment.t) :
  prisma.equipment_update id data db = (inr res, db') ->
  db' = prisma.set_equipments
          (map (fun x => if Equipment.id x =? id then data x else x)
               (equipments db)) db
  /\ exists e, In e (equipments db) /\ Equipment.id e = id.
Proof.
  unfold prisma.equipment_update.
  destruct (find _ (equipments db)) as [e|] eqn:He; [|discriminate].
  intros H. injection H as _ <-. split; [reflexivity|].
  exists e. apply find_some in He. destruct He as [Hin Hid].
  apply String.eqb_eq in Hid. split; assumption.
Qed.

Lemma found_rental (id : Id) (cond : Rental.t -> bool) (rs : list Rental.t)
      (r : Rental.t) :
  find (fun x => (Rental.id x =? id) && cond x) rs = Some r ->
  In r rs /\ Rental.id r = id /\ cond r = true.
Proof.
  intros H. apply find_some in H. destruct H as [Hin H].
  apply andb_true_iff in H. destruct H as [Hid Hc].
  apply String.eqb_eq in Hid. repeat split; assumption.
Qed.

(** What an approval that went through has checked and written. *)
Lemma updateStatus_approved_inr
      (db db' : Db) (id userId : Id) (now : DateTime) (r res : Rental.t) :
  find (fun x => (Rental.id x =? id) && RentalService.notDeleted x) (rentals db)
  = Some r ->
  RentalService.updateStatus id APPROVED userId now db = (inr res, db') ->
  userId = Rental.ownerId r
  /\ equipments db' = setAvailability (Rental.equipmentId r) false (equipments db)
  /\ (exists e, In e (equipments db')
                /\ Equipment.id e = Rental.equipmentId r
                /\ Equipment.isAvailable e = false)
  /\ rentals db' = map (approveRow now r) (rentals db).
Proof.
  intros Hr Hrun. unfold RentalService.updateStatus in Hrun.
  apply bind_inr in Hrun as (rental & db1 & Hfind & Hrun).
  apply findOne_inr in Hfind as [-> Hfind].
  rewrite Hr in Hfind. injection Hfind as <-.
  cbn [rentalStatus_eqb andb orb] in Hrun.
  destruct (Rental.ownerId r =? userId) eqn:Howner; cbn [negb] in Hrun;
    [|discriminate].
  apply String.eqb_eq in Howner.
  apply bind_inr in Hrun as (updated & db2 & Hup1 & Hrun).
  apply rental_update_inr in Hup1 as [-> _].
  apply bind_inr in Hrun as (u1 & db3 & Hblock & Hrun).
  apply bind_inr in Hrun as (u2 & db4 & Hret & Hrun).
  injection Hret as _ <-. injection Hrun as _ <-.
  apply bind_inr in Hblock as (e1 & db5 & Heq & Hblock).
  apply equipment_update_inr in Heq as [-> (e & Hin & Hid)].
  apply bind_inr in Hblock as (u3 & db6 & Hmany & Hblock).
  injection Hmany as _ <-.
  apply bind_inr in Hblock as (r3 & db7 & Hup2 & Hblock).
  apply rental_update_inr in Hup2 as [-> _].
  injection Hblock as _ <-.
  split; [symmetry; exact Howner|].
  split; [reflexivity|].
  split.
  - exists (Equipment.set_isAvailable false e). cbn. repeat split; [|exact Hid].
    unfold setAvailability. apply in_map_iff. exists e. split; [|exact Hin].
    rewrite Hid, String.eqb_refl. reflexivity.
  - cbn. rewrite !map_map. apply map_ext. intros x. unfold approveRow.
    destruct (Rental.id x =? Rental.id r) eqn:Hx; cbn.
    + rewrite Hx, andb_false_r. cbn. rewrite Hx. reflexivity.
    + rewrite Hx. cbn [negb]. rewrite andb_true_r.
      destruct ((Rental.equipmentId x =? Rental.equipmentId r)
                && rentalStatus_eqb (Rental.status x) PENDING); cbn;
        rewrite Hx; reflexivity.
Qed.

Lemma findOne_run (id userId : Id) (db : Db) (r : Rental.t) :
  find (fun x => (Rental.id x =? id) && RentalService.notDeleted x) (rentals db)
  = Some r ->
  userId = Rental.renterId r \/ userId = Rental.ownerId r ->
  RentalService.findOne id (Some userId) db = (inr r, db).
Proof.
  intros Hr Hparty.
  unfold RentalService.findOne, bind, prisma.rental_findUnique. rewrite Hr.
  assert (Hperm : negb (Rental.renterId r =? userId)
                  && negb (Rental.ownerId r =? userId) = false).
  { destruct Hparty as [-> | ->]; rewrite String.eqb_refl; cbn;
      [reflexivity | apply andb_false_r]. }
  rewrite Hperm, andb_false_r. reflexivity.
Qed.

Lemma find_rental_by_id (rs : list Rental.t) (r : Rental.t) :
  In r rs ->
  exists r0, find (fun x => Rental.id x =? Rental.id r) rs = Some r0.
Proof.
  intros Hin.
  destruct (find (fun x => Rental.id x =? Rental.id r) rs) as [r0|] eqn:E.
  - exists r0. reflexivity.
  - apply (find_none _ _ E) in Hin. rewrite String.eqb_refl in Hin. discriminate.
Qed.

Lemma find_equipment_by_id (es : list Equipment.t) (e : Equipment.t) :
  In e es ->
  exists e0, find (fun x => Equipment.id x =? Equipment.id e) es = Some e0.
Proof.
  intros Hin.
  destruct (find (fun x => Equipment.id x =? Equipment.id e) es) as [e0|] eqn:E.
  - exists e0. reflexivity.
  - apply (find_none _ _ E) in Hin. rewrite String.eqb_refl in Hin. discriminate.
Qed.

(** A row-wise update that keeps identifiers keeps [find] by identifier. *)
Lemma find_map_id (g : Rental.t -> Rental.t) (id : Id) (rs : list Rental.t) :
  (forall x, Rental.id (g x) = Rental.id x) ->
  find (fun x => Rental.id x =? id) (map g rs)
  = option_map g (find (fun x => Rental.id x =? id) rs).
Proof.
  intros Hg. induction rs as [|x rs IH]; cbn; [reflexivity|].
  rewrite Hg. destruct (Rental.id x =? id); [reflexivity|exact IH].
Qed.

Lemma statusRow_id (status : RentalStatus) (id : Id) (x : Rental.t) :
  Rental.id (statusRow status id x) = Rental.id x.
Proof. unfold statusRow. destruct (Rental.id x =? id); reflexivity. Qed.

Lemma approveRow_id (now : DateTime) (r x : Rental.t) :
  Rental.id (approveRow now r x) = Rental.id x.
Proof.
  unfold approveRow. destruct (Rental.id x =? Rental.id r); [reflexivity|].
  destruct (_ && _); reflexivity.
Qed.

(** The three writes of an approval, composed. *)
Lemma approve_rows (now : DateTime) (r : Rental.t) (rs : list Rental.t) :
  map (fun x => if Rental.id x =? Rental.id r
                then Rental.set_approvedAt (Some now) x else x)
      (map (fun x => if (Rental.equipmentId x =? Rental.equipmentId r)
                        && rentalStatus_eqb (Rental.status x) PENDING
                        && negb (Rental.id x =? Rental.id r)
                     then Rental.set_status REJECTED x else x)
           (map (statusRow APPROVED (Rental.id r)) rs))
  = map (approveRow now r) rs.
Proof.
  rewrite !map_map. apply map_ext. intros x. unfold approveRow, statusRow.
  destruct (Rental.id x =? Rental.id r) eqn:Hx; cbn.
  - rewrite Hx, andb_false_r. cbn. rewrite Hx. reflexivity.
  - rewrite Hx. cbn [negb]. rewrite andb_true_r.
    destruct ((Rental.equipmentId x =? Rental.equipmentId r)
              && rentalStatus_eqb (Rental.status x) PENDING); cbn;
      rewrite Hx; reflexivity.
Qed.

Lemma rental_update_run (id : Id) (data : Rental.t -> Rental.t) (db : Db)
      (x : Rental.t) :
  In x (rentals db) -> Rental.id x = id ->
  exists r0,
    find (fun y => Rental.id y =? id) (rentals db) = Some r0
    /\ prisma.rental_update id data db
       = (inr (data r0),
          prisma.set_rentals
            (map (fun y => if Rental.id y =? id then data y else y) (rentals db))
            db).
Proof.
  intros Hin <-. destruct (find_rental_by_id _ _ Hin) as [r0 Hr0].
  exists r0. split; [exact Hr0|].
  unfold prisma.rental_update. rewrite Hr0. reflexivity.
Qed.

Lemma equipment_update_run (id : Id) (data : Equipment.t -> Equipment.t)
      (db : Db) (e : Equipment.t) :
  In e (equipments db) -> Equipment.id e = id ->
  exists e0,
    prisma.equipment_update id data db
    = (inr e0,
       prisma.set_equipments
         (map (fun y => if Equipment.id y =? id then data y else y)
              (equipments db)) db).
Proof.
  intros Hin <-. destruct (find_equipment_by_id _ _ Hin) as [e0 He0].
  exists (data e0). unfold prisma.equipment_update. rewrite He0. reflexivity.
Qed.

Lemma rental_updateMany_run (cond : Rental.t -> bool)
      (data : Rental.t -> Rental.t) (db : Db) :
  prisma.rental_updateMany cond data db
  = (inr tt,
     prisma.set_rentals
       (map (fun x => if cond x then data x else x) (rentals db)) db).
Proof. reflexivity. Qed.

(** What [updateStatus] does when nothing stops it: the actor is a party of
    the rental (the owner, to approve) and the equipment row is there. *)
Lemma updateStatus_run (db : Db) (id userId : Id) (now : DateTime)
      (status : RentalStatus) (r : Rental.t) :
  find (fun x => (Rental.id x =? id) && RentalService.notDeleted x) (rentals db)
  = Some r ->
  userId = Rental.renterId r \/ userId = Rental.ownerId r ->
  (status = APPROVED -> userId = Rental.ownerId r) ->
  (exists e, In e (equipments db) /\ Equipment.id e = Rental.equipmentId r) ->
  exists r0,
    find (fun x => Rental.id x =? id) (rentals db) = Some r0
    /\ RentalService.updateStatus id status userId now db
       = (inr (Rental.set_status status r0), afterUpdateStatus status r now db).
Proof.
  intros Hr Hparty Howner (e & He & Heid).
  destruct (found_rental _ _ _ _ Hr) as (Hin & Hid & _).
  destruct (rental_update_run (Rental.id r) (Rental.set_status status) db r Hin
              eq_refl) as (r0 & Hr0 & Hup).
  exists r0. split; [rewrite <- Hid; exact Hr0|].
  unfold RentalService.updateStatus.
  rewrite (bind_ok _ _ _ _ _ (findOne_run id userId db r Hr Hparty)).
  assert (Hperm1 : rentalStatus_eqb status APPROVED
                   && negb (Rental.ownerId r =? userId) = false).
  { destruct status; try reflexivity.
    rewrite <- (Howner eq_refl), String.eqb_refl. reflexivity. }
  assert (Hperm2 : rentalStatus_eqb status CANCELLED
                   && negb (Rental.renterId r =? userId)
                   && negb (Rental.ownerId r =? userId) = false).
  { destruct Hparty as [Hp | Hp]; rewrite Hp, String.eqb_refl; cbn [negb];
      rewrite ?andb_false_r; reflexivity. }
  rewrite Hperm1, Hperm2.
  rewrite (bind_ok _ _ _ _ _ Hup).
  set (db1 := prisma.set_rentals _ db).
  assert (Hrs1 : rentals db1 = map (statusRow status (Rental.id r)) (rentals db))
    by reflexivity.
  assert (He1 : In e (equipments db1)) by exact He.
  destruct status; cbn [rentalStatus_eqb orb].
  - (* PENDING *) reflexivity.
  - (* APPROVED *)
    destruct (equipment_update_run (Rental.equipmentId r)
                (Equipment.set_isAvailable false) db1 e He1 Heid) as (e0 & Hequ).
    unfold bind at 1. rewrite (bind_ok _ _ _ _ _ Hequ).
    rewrite (bind_ok _ _ _ _ _ (rental_updateMany_run _ _ _)).
    set (db3 := prisma.set_rentals _ _).
    assert (Hin3 : In (Rental.set_status APPROVED r) (rentals db3)).
    { subst db3. cbn. apply in_map_iff.
      exists (Rental.set_status APPROVED r). split.
      - cbn. rewrite String.eqb_refl, andb_false_r. reflexivity.
      - apply in_map_iff. exists r. split; [|exact Hin].
        rewrite String.eqb_refl. reflexivity. }
    destruct (rental_update_run (Rental.id r)
                (Rental.set_approvedAt (Some now)) db3 _ Hin3 eq_refl)
      as (r3 & _ & Hup3).
    rewrite (bind_ok _ _ _ _ _ Hup3).
    subst db3 db1. unfold afterUpdateStatus.
    rewrite <- (approve_rows now r (rentals db)). reflexivity.
  - (* PAID *) reflexivity.
  - (* ACTIVE *) reflexivity.
  - (* COMPLETED *) reflexivity.
  - (* CANCELLED *)
    unfold bind at 1. cbn [ret]. unfold ret at 1.
    unfold bind at 1, bind at 1, prisma.rental_findFirst at 1.
    rewrite Hrs1. unfold afterUpdateStatus. cbv zeta.
    destruct (find _ (map _ (rentals db))) as [held|]; [reflexivity|].
    destruct (equipment_update_run (Rental.equipmentId r)
                (Equipment.set_isAvailable true) db1 e He1 Heid) as (e0 & Hequ).
    rewrite (bind_ok _ _ _ _ _ Hequ). reflexivity.
  - (* REJECTED *)
    unfold bind at 1. cbn [ret]. unfold ret at 1.
    unfold bind at 1, bind at 1, prisma.rental_findFirst at 1.
    rewrite Hrs1. unfold afterUpdateStatus. cbv zeta.
    destruct (find _ (map _ (rentals db))) as [held|]; [reflexivity|].
    destruct (equipment_update_run (Rental.equipmentId r)
                (Equipment.set_isAvailable true) db1 e He1 Heid) as (e0 & Hequ).
    rewrite (bind_ok _ _ _ _ _ Hequ). reflexivity.
Qed.

Lemma rentals_afterUpdateStatus (status : RentalStatus) (r : Rental.t)
      (now : DateTime) (db : Db) :
  rentals (afterUpdateStatus status r now db)
  = map (match status with
         | APPROVED => approveRow now r
         | _ => statusRow status (Rental.id r)
         end) (rentals db).
Proof.
  unfold afterUpdateStatus.
  destruct status; try reflexivity;
    cbv zeta; destruct (find _ (map _ (rentals db))); reflexivity.
Qed.

(** C3 (as stated, refuted).  The status of a rental is said to move only
    along PENDING -> APPROVED -> PAID/ACTIVE -> COMPLETED.  [updateStatus]
    looks at who is asking, never at the current status: the renter "ana"
    moves her PENDING request "r1" straight to PAID. *)
Lemma updateStatus_pending_to_paid :
  let run := RentalService.updateStatus "r1" PAID "ana" Sample.march1
               Sample.pendingDb in
  statusOf "r1" Sample.pendingDb = Some PENDING
  /\ succeeded run = true
  /\ statusOf "r1" (snd run) = Some PAID
  /\ declaredTransition PENDING PAID = false.
Proof. repeat split. Qed.

(** C3 (amended).  [updateStatus] enforces authorisation, not the
    lifecycle: for a rental that is not soft-deleted, any requested status
    and any current status, the call goes through and leaves the rental in
    the requested status, provided the actor is its renter or its owner (its
    owner, when the requested status is APPROVED) and the equipment row
    exists. *)
Theorem updateStatus_sets_requested_status
        (db : Db) (id userId : Id) (now : DateTime) (status : RentalStatus)
        (r : Rental.t) :
  find (fun x => (Rental.id x =? id) && RentalService.notDeleted x) (rentals db)
  = Some r ->
  userId = Rental.renterId r \/ userId = Rental.ownerId r ->
  (status = APPROVED -> userId = Rental.ownerId r) ->
  (exists e, In e (equipments db) /\ Equipment.id e = Rental.equipmentId r) ->
  exists (res : Rental.t) (db' : Db),
    RentalService.updateStatus id status userId now db = (inr res, db')
    /\ Rental.status res = status
    /\ statusOf id db' = Some status
    /\ (forall x, In x (rentals db') -> Rental.id x = id ->
                  Rental.status x = status).
Proof.
  intros Hr Hparty Howner Heq.
  destruct (updateStatus_run db id userId now status r Hr Hparty Howner Heq)
    as (r0 & Hr0 & Hrun).
  destruct (found_rental _ _ _ _ Hr) as (_ & Hid & _).
  exists (Rental.set_status status r0), (afterUpdateStatus status r now db).
  split; [exact Hrun|]. split; [reflexivity|].
  assert (Hrow : forall x, Rental.id x = id ->
            Rental.status (match status with
                           | APPROVED => approveRow now r
                           | _ => statusRow status (Rental.id r)
                           end x) = status).
  { intros x Hx.
    destruct status; unfold approveRow, statusRow;
      rewrite Hx, Hid, String.eqb_refl; reflexivity. }
  assert (Hkeep : forall x,
            Rental.id (match status with
                       | APPROVED => approveRow now r
                       | _ => statusRow status (Rental.id r)
                       end x) = Rental.id x).
  { intros x. destruct status; first [apply approveRow_id | apply statusRow_id]. }
  split.
  - unfold statusOf. rewrite rentals_afterUpdateStatus.
    rewrite (find_map_id _ id (rentals db) Hkeep), Hr0. cbn.
    rewrite Hrow; [reflexivity|].
    apply find_some in Hr0. destruct Hr0 as [_ Hr0]. apply String.eqb_eq in Hr0.
    exact Hr0.
  - intros x Hin Hx. rewrite rentals_afterUpdateStatus in Hin.
    apply in_map_iff in Hin. destruct Hin as (x0 & <- & _).
    rewrite Hkeep in Hx. apply Hrow. exact Hx.
Qed.

Lemma updateStatus_sets_requested_status_witness :
  exists (res : Rental.t) (db' : Db),
    RentalService.updateStatus "r1" COMPLETED "ana" Sample.march1 Sample.pendingDb
    = (inr res, db')
    /\ Rental.status res = COMPLETED
    /\ statusOf "r1" db' = Some COMPLETED
    /\ (forall x, In x (rentals db') -> Rental.id x = "r1" ->
                  Rental.status x = COMPLETED).
Proof.
  apply (updateStatus_sets_requested_status Sample.pendingDb "r1" "ana"
           Sample.march1 COMPLETED (Sample.rentalOf "r1" "ana" PENDING None)).
  - reflexivity.
  - left. reflexivity.
  - intros H. discriminate H.
  - exists (Sample.drill true). split; [left; reflexivity | reflexivity].
Defined.

(** C4 (defect).  After a cancellation the equipment should be available
    only if no other rental holds it.  [updateStatus] and the sweep check
    this; [cancelRental] frees the equipment unconditionally.  "olga"
    approves "r1", which rejects "r2"; when "rui" then cancels "r2" the
    drill is marked available although "r1" is APPROVED and still running.
    The same cancellation made through [updateStatus] leaves it
    unavailable. *)
Theorem cancelRental_frees_held_equipment :
  let now := Sample.march1 in
  let db1 := snd (RentalService.updateStatus "r1" APPROVED "olga" now
                    Sample.pendingDb) in
  let run := RentalService.cancelRental "r2" "rui" now db1 in
  let sibling := RentalService.updateStatus "r2" CANCELLED "rui" now db1 in
  statusOf "r1" db1 = Some APPROVED
  /\ statusOf "r2" db1 = Some REJECTED
  /\ map Equipment.isAvailable (equipments db1) = [false]
  /\ succeeded run = true
  /\ statusOf "r2" (snd run) = Some CANCELLED
  /\ existsb (fun r => RentalService.isHeld now "drill" r
                       && negb (Rental.id r =? "r2")) (rentals (snd run)) = true
  /\ map Equipment.isAvailable (equipments (snd run)) = [true]
  /\ succeeded sibling = true
  /\ map Equipment.isAvailable (equipments (snd sibling)) = [false].
Proof. repeat split. Qed.

(** [cancelRental] in general: whoever else holds the equipment, a
    cancellation by the renter or the owner marks it available. *)
Lemma cancelRental_always_frees (db : Db) (id userId : Id) (now : DateTime)
      (r : Rental.t) :
  find (fun x => (Rental.id x =? id) && RentalService.notDeleted x) (rentals db)
  = Some r ->
  userId = Rental.renterId r \/ userId = Rental.ownerId r ->
  Rental.status r <> COMPLETED ->
  (exists e, In e (equipments db) /\ Equipment.id e = Rental.equipmentId r) ->
  exists (res : Rental.t) (db' : Db),
    RentalService.cancelRental id userId now db = (inr res, db')
    /\ equipments db'
       = setAvailability (Rental.equipmentId r) true (equipments db).
Proof.
  intros Hr Hparty Hstatus (e & He & Heid).
  destruct (found_rental _ _ _ _ Hr) as (Hin & Hid & _).
  unfold RentalService.cancelRental.
  rewrite (bind_ok _ _ _ _ _ (findOne_run id userId db r Hr Hparty)).
  assert (Hperm : negb (Rental.renterId r =? userId)
                  && negb (Rental.ownerId r =? userId) = false).
  { destruct Hparty as [Hp | Hp]; rewrite Hp, String.eqb_refl; cbn [negb];
      rewrite ?andb_false_r; reflexivity. }
  rewrite Hperm.
  assert (Hopen : rentalStatus_eqb (Rental.status r) COMPLETED = false).
  { destruct (Rental.status r); try reflexivity. exfalso. apply Hstatus.
    reflexivity. }
  rewrite Hopen.
  destruct (rental_update_run id
              (fun x => Rental.set_deletedAt (Some now)
                          (Rental.set_status CANCELLED x)) db r Hin Hid)
    as (r0 & _ & Hup).
  rewrite (bind_ok _ _ _ _ _ Hup).
  set (db1 := prisma.set_rentals _ db).
  destruct (equipment_update_run (Rental.equipmentId r)
              (Equipment.set_isAvailable true) db1 e He Heid) as (e0 & Hequ).
  rewrite (bind_ok _ _ _ _ _ Hequ).
  eexists. eexists. split; reflexivity.
Qed.

(** [payWithWallet] does not look at the status either: "ana" pays the
    PENDING request "r1" and it becomes PAID. *)
Remark payWithWallet_pending_to_paid :
  let run := RentalService.payWithWallet "r1" "ana" Sample.fundedPendingDb in
  statusOf "r1" Sample.fundedPendingDb = Some PENDING
  /\ succeeded run = true
  /\ statusOf "r1" (snd run) = Some PAID
  /\ balanceOf "w-ana" (snd run) = Some 50%Z.
Proof. repeat split. Qed.

(** ** Paying a rental from the wallet *)

Lemma find_ext_bool {A : Type} (f g : A -> bool) (l : list A) :
  (forall x, f x = g x) -> find f l = find g l.
Proof.
  intros H. induction l as [|x l IH]; cbn; [reflexivity|].
  rewrite H, IH. reflexivity.
Qed.

(** Under the primary key, an identifier finds the row that carries it. *)
Lemma find_unique_wallet (ws : list Wallet.t) (w : Wallet.t) :
  NoDup (map Wallet.id ws) -> In w ws ->
  find (fun x => Wallet.id x =? Wallet.id w) ws = Some w.
Proof.
  induction ws as [|x ws IH]; intros Hnd Hin; [contradiction|].
  cbn in Hnd. inversion Hnd as [|? ? Hnotin Hnd']; subst.
  cbn. destruct (Wallet.id x =? Wallet.id w) eqn:E.
  - destruct Hin as [-> | Hin]; [reflexivity|].
    apply String.eqb_eq in E. exfalso. apply Hnotin. rewrite E.
    apply in_map. exact Hin.
  - destruct Hin as [-> | Hin]; [rewrite String.eqb_refl in E; discriminate|].
    apply IH; assumption.
Qed.

Lemma find_credit (walletId : Id) (amount : Money) (ws : list Wallet.t)
      (w : Wallet.t) :
  find (fun x => Wallet.id x =? walletId) ws = Some w ->
  find (fun x => Wallet.id x =? walletId) (credit walletId amount ws)
  = Some (Wallet.incrementBalance amount w).
Proof.
  induction ws as [|x ws IH]; cbn; [discriminate|].
  destruct (Wallet.id x =? walletId) eqn:E; cbn; rewrite E.
  - intros H. injection H as <-. reflexivity.
  - exact IH.
Qed.

(** C5.  The renter pays a rental that is not yet PAID from a wallet [w].
    With [balance >= totalAmount] the wallet is debited by [totalAmount]
    through one PAYMENT transaction and the rental gets
    [paymentStatus = PAID], [paymentMethod = WALLET], [status = PAID].
    With [balance < totalAmount] the call fails with "Insufficient wallet
    balance" and the database, the rental with it, is untouched. *)
Theorem payWithWallet_pays_or_refuses
        (db : Db) (rentalId userId : Id) (r : Rental.t) (w : Wallet.t) :
  find (fun x => Rental.id x =? rentalId) (rentals db) = Some r ->
  Rental.renterId r = userId ->
  Rental.paymentStatus r <> PAY_PAID ->
  find (fun x => Wallet.userId x =? userId) (wallets db) = Some w ->
  NoDup (map Wallet.id (wallets db)) ->
  ((Rental.totalAmount r <= Wallet.balance w)%Z ->
   exists (res : Rental.t) (t : WalletTransaction.t) (db' : Db),
     RentalService.payWithWallet rentalId userId db = (inr res, db')
     /\ balanceOf (Wallet.id w) db'
        = Some (Wallet.balance w - Rental.totalAmount r)%Z
     /\ wallets db' = credit (Wallet.id w) (- Rental.totalAmount r) (wallets db)
     /\ walletTransactions db' = (walletTransactions db ++ [t])%list
     /\ WalletTransaction.walletId t = Wallet.id w
     /\ WalletTransaction.type t = PAYMENT
     /\ WalletTransaction.amount t = (- Rental.totalAmount r)%Z
     /\ res = Rental.set_paid_by_wallet r
     /\ Rental.paymentStatus res = PAY_PAID
     /\ Rental.paymentMethod res = WALLET
     /\ Rental.status res = PAID
     /\ rentals db' = map (paidRow rentalId) (rentals db))
  /\
  ((Wallet.balance w < Rental.totalAmount r)%Z ->
   RentalService.payWithWallet rentalId userId db
   = (inl (BadRequestException "Insufficient wallet balance"), db)).
Proof.
  intros Hr Hrenter Hunpaid Hw Hnd.
  assert (Hr' : find (fun x => (Rental.id x =? rentalId) && true) (rentals db)
                = Some r).
  { rewrite <- Hr. apply find_ext_bool. intros x. apply andb_true_r. }
  assert (Hpaid : paymentStatus_eqb (Rental.paymentStatus r) PAY_PAID = false).
  { destruct (Rental.paymentStatus r); [reflexivity|]. exfalso. apply Hunpaid.
    reflexivity. }
  assert (Hstart :
            RentalService.payWithWallet rentalId userId db
            = (if (Wallet.balance w <? Rental.totalAmount r)%Z
               then throw (BadRequestException "Insufficient wallet balance")
               else
                 equipmentName <-
                   (e <- prisma.equipment_findUnique (Rental.equipmentId r)
                           (fun _ => true) ;;
                    ret match e with
                        | Some e => Equipment.name e
                        | None => ""
                        end) ;;
                 WalletService.createTransaction
                   (mkCreateWalletTransactionDto (Wallet.id w) PAYMENT
                      (- Rental.totalAmount r)
                      ("Pagamento de aluguel - " ++ equipmentName)
                      None None None (Some TX_COMPLETED)
                      (Some [("rentalId", JString (Rental.id r));
                             ("equipmentId", JString (Rental.equipmentId r));
                             ("ownerId", JString (Rental.ownerId r))])) ;;
                 prisma.rental_update rentalId Rental.set_paid_by_wallet) db).
  { unfold RentalService.payWithWallet.
    unfold bind at 1, prisma.rental_findUnique at 1. rewrite Hr'.
    rewrite Hrenter, String.eqb_refl, Hpaid. cbn [negb].
    rewrite (bind_ok _ _ _ _ _ (getWalletByUserId_found _ _ _ Hw)).
    reflexivity. }
  rewrite Hstart. clear Hstart.
  split.
  - intros Henough.
    assert (Hlt : (Wallet.balance w <? Rental.totalAmount r)%Z = false)
      by (apply Z.ltb_ge; lia).
    rewrite Hlt.
    unfold bind at 1, bind at 1, prisma.equipment_findUnique at 1, ret at 1.
    unfold bind at 1. rewrite createTransaction_run.
    cbn [ct_walletId ct_amount].
    pose proof (find_unique_wallet _ _ Hnd (proj1 (find_some _ _ Hw))) as Hwid.
    rewrite Hwid.
    assert (Hok : ((- Rental.totalAmount r <? 0)%Z
                   && (Wallet.balance w + - Rental.totalAmount r <? 0)%Z) = false).
    { apply andb_false_iff. right. apply Z.ltb_ge. lia. }
    rewrite Hok.
    unfold prisma.rental_update. cbn [rentals posted]. rewrite Hr.
    eexists. eexists. eexists. split; [reflexivity|].
    repeat split.
    unfold balanceOf, prisma.set_rentals, posted.
    cbn [wallets ct_walletId ct_amount].
    rewrite (find_credit _ _ _ _ Hwid). reflexivity.
  - intros Hshort. apply Z.ltb_lt in Hshort. rewrite Hshort. reflexivity.
Qed.

(** A renter without a wallet gets an empty one on the way; a rental with a
    positive amount is then refused and the rental table is untouched. *)
Lemma payWithWallet_without_wallet (db : Db) (rentalId userId : Id)
      (r : Rental.t) (u : User.t) :
  find (fun x => Rental.id x =? rentalId) (rentals db) = Some r ->
  Rental.renterId r = userId ->
  Rental.paymentStatus r <> PAY_PAID ->
  find (fun x => User.id x =? userId) (users db) = Some u ->
  find (fun x => Wallet.userId x =? userId) (wallets db) = None ->
  (0 < Rental.totalAmount r)%Z ->
  exists db',
    RentalService.payWithWallet rentalId userId db
    = (inl (BadRequestException "Insufficient wallet balance"), db')
    /\ rentals db' = rentals db
    /\ walletTransactions db' = walletTransactions db
    /\ wallets db'
       = (wallets db ++ [Wallet.mk (uuid (nextUuid db)) userId 0%Z true])%list.
Proof.
  intros Hr Hrenter Hunpaid Hu Hnone Hpos.
  assert (Hr' : find (fun x => (Rental.id x =? rentalId) && true) (rentals db)
                = Some r).
  { rewrite <- Hr. apply find_ext_bool. intros x. apply andb_true_r. }
  assert (Hpaid : paymentStatus_eqb (Rental.paymentStatus r) PAY_PAID = false).
  { destruct (Rental.paymentStatus r); [reflexivity|]. exfalso. apply Hunpaid.
    reflexivity. }
  unfold RentalService.payWithWallet.
  unfold bind at 1, prisma.rental_findUnique at 1. rewrite Hr'.
  rewrite Hrenter, String.eqb_refl, Hpaid. cbn [negb].
  unfold bind at 1, WalletService.getWalletByUserId at 1.
  unfold bind at 1, prisma.wallet_findUnique_userId at 1. rewrite Hnone.
  unfold WalletService.createWallet. cbn [cw_userId cw_initialBalance].
  unfold bind at 1, prisma.user_findUnique at 1. rewrite Hu.
  unfold bind at 1, prisma.wallet_findUnique_userId at 1. rewrite Hnone.
  cbn. apply Z.ltb_lt in Hpos. rewrite Hpos.
  eexists. split; [reflexivity|]. repeat split.
Qed.

Lemma payWithWallet_pays_or_refuses_witness :
  exists (res : Rental.t) (t : WalletTransaction.t) (db' : Db),
    RentalService.payWithWallet "r1" "ana" Sample.payDb = (inr res, db')
    /\ balanceOf "w-ana" db' = Some 50%Z
    /\ wallets db' = credit "w-ana" (-200)%Z (wallets Sample.payDb)
    /\ walletTransactions db' = [t]
    /\ WalletTransaction.walletId t = "w-ana"
    /\ WalletTransaction.type t = PAYMENT
    /\ WalletTransaction.amount t = (-200)%Z
    /\ res = Rental.set_paid_by_wallet
               (Sample.rentalOf "r1" "ana" APPROVED (Some Sample.march1))
    /\ Rental.paymentStatus res = PAY_PAID
    /\ Rental.paymentMethod res = WALLET
    /\ Rental.status res = PAID
    /\ rentals db' = map (paidRow "r1") (rentals Sample.payDb).
Proof.
  apply (proj1 (payWithWallet_pays_or_refuses Sample.payDb "r1" "ana"
                  (Sample.rentalOf "r1" "ana" APPROVED (Some Sample.march1))
                  (Wallet.mk "w-ana" "ana" 250%Z true)
                  eq_refl eq_refl
                  ltac:(discriminate) eq_refl
                  ltac:(repeat constructor; intros [])));
    simpl; lia.
Defined.

(** ** The expired-approval sweep *)

Lemma statusRow_absent (status : RentalStatus) (id : Id) (rs : list Rental.t) :
  find (fun y => Rental.id y =? id) rs = None ->
  map (statusRow status id) rs = rs.
Proof.
  intros Hnone. rewrite <- (map_id rs) at 2. apply map_ext_in. intros x Hin.
  unfold statusRow. rewrite (find_none _ _ Hnone x Hin). reflexivity.
Qed.

(** One turn of the loop never throws, and whatever happens to the
    equipment, the rental table has the rows of [rental] CANCELLED. *)
Lemma cancelExpired_rentals (now : DateTime) (rental : Rental.t) (db : Db) :
  exists (pushed : bool) (db' : Db),
    RentalService.cancelExpired now rental db = (inr pushed, db')
    /\ rentals db' = map (statusRow CANCELLED (Rental.id rental)) (rentals db).
Proof.
  unfold RentalService.cancelExpired, tryCatch.
  unfold bind at 1, prisma.rental_update at 1.
  destruct (find (fun r => Rental.id r =? Rental.id rental) (rentals db))
    as [r0|] eqn:Hr0.
  - unfold bind at 1, prisma.rental_findFirst at 1.
    match goal with
    | |- context [find ?f (rentals ?d)] => destruct (find f (rentals d))
    end.
    + exists true. eexists. split; [reflexivity|reflexivity].
    + unfold bind at 1, prisma.equipment_update at 1.
      match goal with
      | |- context [find ?f (equipments ?d)] => destruct (find f (equipments d))
      end.
      * exists true. eexists. split; [reflexivity|reflexivity].
      * exists false. eexists. split; [reflexivity|reflexivity].
  - exists false, db. split; [reflexivity|].
    symmetry. apply statusRow_absent. exact Hr0.
Qed.

Lemma cancelEach_rentals (now : DateTime) (expiredRentals : list Rental.t) :
  forall (cancelledRentals : list Rental.t) (db : Db),
  exists (cancelled : list Rental.t) (db' : Db),
    RentalService.cancelEach now expiredRentals cancelledRentals db
    = (inr cancelled, db')
    /\ rentals db' = fold_left cancelRows expiredRentals (rentals db)
    /\ (forall x, In x cancelled ->
                  In x cancelledRentals \/ In x expiredRentals).
Proof.
  induction expiredRentals as [|rental rest IH]; intros acc db.
  - exists acc, db. repeat split. intros x Hx. left. exact Hx.
  - destruct (cancelExpired_rentals now rental db) as (pushed & db1 & Hone & Hrs).
    cbn [RentalService.cancelEach]. rewrite (bind_ok _ _ _ _ _ Hone).
    destruct (IH (if pushed then (acc ++ [rental])%list else acc) db1)
      as (cancelled & db' & Hrest & Hrs' & Hsub).
    exists cancelled, db'. split; [exact Hrest|]. split.
    + cbn [fold_left]. unfold cancelRows at 2. rewrite <- Hrs. exact Hrs'.
    + intros x Hx. destruct (Hsub x Hx) as [Hacc | Hrest'].
      * destruct pushed; [|left; exact Hacc].
        apply in_app_or in Hacc. destruct Hacc as [Hacc | [<- | []]];
          [left; exact Hacc | right; left; reflexivity].
      * right. right. exact Hrest'.
Qed.

(** Cancelling the rows of a list of rentals one after the other cancels
    the rows whose identifier is in the list. *)
Lemma fold_cancelRows (l rs : list Rental.t) :
  fold_left cancelRows l rs
  = map (fun x => if existsb (fun r => Rental.id x =? Rental.id r) l
                  then Rental.set_status CANCELLED x else x) rs.
Proof.
  revert rs. induction l as [|r l IH]; intros rs; cbn [fold_left existsb].
  - symmetry. rewrite <- (map_id rs) at 2. apply map_ext. reflexivity.
  - rewrite IH. unfold cancelRows. rewrite map_map. apply map_ext. intros x.
    rewrite statusRow_id. unfold statusRow.
    destruct (Rental.id x =? Rental.id r); cbn [orb]; [|reflexivity].
    destruct (existsb _ l); reflexivity.
Qed.

Lemma same_id_same_row (rs : list Rental.t) (x y : Rental.t) :
  NoDup (map Rental.id rs) -> In x rs -> In y rs ->
  Rental.id x = Rental.id y -> x = y.
Proof.
  induction rs as [|z rs IH]; intros Hnd Hx Hy Hid; [contradiction|].
  cbn in Hnd. inversion Hnd as [|? ? Hnotin Hnd']; subst.
  destruct Hx as [-> | Hx], Hy as [-> | Hy].
  - reflexivity.
  - exfalso. apply Hnotin. rewrite Hid. apply in_map. exact Hy.
  - exfalso. apply Hnotin. rewrite <- Hid. apply in_map. exact Hx.
  - apply IH; assumption.
Qed.

Lemma selected_by_id (cond : Rental.t -> bool) (rs : list Rental.t) (x : Rental.t) :
  NoDup (map Rental.id rs) -> In x rs ->
  existsb (fun r => Rental.id x =? Rental.id r) (filter cond rs) = cond x.
Proof.
  intros Hnd Hx. destruct (cond x) eqn:Hc.
  - apply existsb_exists. exists x. split; [|apply String.eqb_refl].
    apply filter_In. split; assumption.
  - destruct (existsb _ (filter cond rs)) eqn:E; [|reflexivity].
    apply existsb_exists in E. destruct E as (y & Hy & Hid).
    apply filter_In in Hy. destruct Hy as [Hy Hcy].
    apply String.eqb_eq in Hid.
    rewrite (same_id_same_row rs x y Hnd Hx Hy Hid), Hcy in Hc. discriminate.
Qed.

(** [setHours] on [getHours() - timeoutHours] keeps the local date,
    minutes, seconds and milliseconds: the local clock goes back by
    [timeoutHours] hours, and the result is read back as an instant. *)
Lemma setHours_getHours (tz : TimeZone) (now : DateTime) (timeoutHours : Z) :
  JsDate.setHours tz now (JsDate.getHours tz now - timeoutHours)
  = wallClockHoursBefore tz timeoutHours now.
Proof.
  unfold JsDate.setHours, JsDate.getHours, wallClockHoursBefore, JsDate.UTC,
    JsDate.LocalTime.
  set (l := now + LocalTZA tz now true).
  assert (H : JsDate.MakeDate (JsDate.Day l)
                (JsDate.MakeTime (JsDate.HourFromTime l - timeoutHours)
                   (JsDate.MinFromTime l) (JsDate.SecFromTime l)
                   (JsDate.msFromTime l))
              = l - timeoutHours * 3600000).
  { unfold JsDate.MakeDate, JsDate.MakeTime, JsDate.Day, JsDate.HourFromTime,
      JsDate.MinFromTime, JsDate.SecFromTime, JsDate.msFromTime.
    change msPerDay with 86400000. change msPerHour with 3600000.
    change JsDate.msPerMinute with 60000. change JsDate.msPerSecond with 1000.
    Z.div_mod_to_equations. lia. }
  cbv zeta. rewrite H. reflexivity.
Qed.

Lemma isExpired_spec (expirationDate : DateTime) (x : Rental.t) :
  RentalService.isExpired expirationDate x = true
  <-> approvalExpired expirationDate x.
Proof.
  unfold RentalService.isExpired, approvalExpired. split.
  - intros H. apply andb_true_iff in H. destruct H as [H Ha].
    apply andb_true_iff in H. destruct H as [Hs Hp].
    apply rentalStatus_eqb_eq in Hs. apply paymentStatus_eqb_eq in Hp.
    destruct (Rental.approvedAt x) as [a|]; [|discriminate Ha].
    apply Z.leb_le in Ha. repeat split; try assumption.
    exists a. split; [reflexivity|exact Ha].
  - intros (Hs & Hp & a & Ha & Hle). rewrite Hs, Hp, Ha. cbn.
    apply Z.leb_le. exact Hle.
Qed.

(** The sweep never fails; it cancels the rows its query selects and
    reports only such rows. *)
Lemma cancelExpiredApprovedRentals_rows
      (tz : TimeZone) (timeoutHours : Z) (now : DateTime) (db : Db) :
  NoDup (map Rental.id (rentals db)) ->
  exists (cancelled : list Rental.t) (db' : Db),
    RentalService.cancelExpiredApprovedRentals tz timeoutHours now db
    = (inr cancelled, db')
    /\ rentals db'
       = map (sweptRow (wallClockHoursBefore tz timeoutHours now)) (rentals db)
    /\ (forall x, In x cancelled ->
          In x (rentals db)
          /\ RentalService.isExpired
               (wallClockHoursBefore tz timeoutHours now) x = true).
Proof.
  intros Hnd.
  unfold RentalService.cancelExpiredApprovedRentals.
  cbv zeta. rewrite setHours_getHours.
  unfold bind at 1, prisma.rental_findMany at 1.
  set (expirationDate := wallClockHoursBefore tz timeoutHours now).
  destruct (cancelEach_rentals now
              (filter (RentalService.isExpired expirationDate) (rentals db)) [] db)
    as (cancelled & db' & Hrun & Hrs & Hsub).
  exists cancelled, db'. split; [exact Hrun|]. split.
  - rewrite Hrs, fold_cancelRows. apply map_ext_in. intros x Hx.
    rewrite (selected_by_id _ _ _ Hnd Hx). reflexivity.
  - intros x Hx. destruct (Hsub x Hx) as [[] | Hsel].
    apply filter_In in Hsel. exact Hsel.
Qed.

(** C7.  The sweep never fails and rewrites the rental table row by row:
    a rental with [status = APPROVED], [paymentStatus = PENDING] and
    [approvedAt] at or before the threshold gets [status = CANCELLED],
    every other row and every other column is left as it is, and the
    rentals it reports were all selected that way.  The threshold is not
    [now - timeoutHours]: it is the instant at which the local clock of the
    server read [timeoutHours] hours less than at [now].  The two agree when
    the offset of local time is the same at both ends, and then, with a
    timeout of 24 hours, the rental approved 25 hours ago is cancelled and
    the one approved 23 hours ago stays APPROVED.  On the day the clocks go
    forward the threshold lies 23 hours back, and the rental approved 23
    hours ago is cancelled. *)
Theorem cancelExpiredApprovedRentals_wall_clock_hours :
  (forall (tz : TimeZone) (timeoutHours : Z) (now : DateTime) (db : Db),
      NoDup (map Rental.id (rentals db)) ->
      exists (cancelled : list Rental.t) (db' : Db),
        RentalService.cancelExpiredApprovedRentals tz timeoutHours now db
        = (inr cancelled, db')
        /\ Forall2
             (fun x y =>
                otherColumns y = otherColumns x
                /\ Rental.approvedAt y = Rental.approvedAt x
                /\ (approvalExpired (wallClockHoursBefore tz timeoutHours now) x ->
                    Rental.status y = CANCELLED)
                /\ (~ approvalExpired (wallClockHoursBefore tz timeoutHours now) x ->
                    Rental.status y = Rental.status x))
             (rentals db) (rentals db')
        /\ (forall x, In x cancelled ->
              In x (rentals db)
              /\ approvalExpired (wallClockHoursBefore tz timeoutHours now) x))
  /\ (forall (tz : TimeZone) (timeoutHours : Z) (now : DateTime),
        LocalTZA tz (now + LocalTZA tz now true - timeoutHours * 3600000) false
        = LocalTZA tz now true ->
        wallClockHoursBefore tz timeoutHours now = now - timeoutHours * 3600000)
  /\ (let db' := snd (RentalService.cancelExpiredApprovedRentals Sample.utc 24
                        Sample.changeDaySweepTime Sample.changeDayDb) in
      statusOf "r25" db' = Some CANCELLED
      /\ find (fun x => Rental.id x =? "r23") (rentals db')
         = find (fun x => Rental.id x =? "r23") (rentals Sample.changeDayDb)
      /\ statusOf "r23" db' = Some APPROVED)
  /\ (let db' := snd (RentalService.cancelExpiredApprovedRentals Sample.lisbon 24
                        Sample.changeDaySweepTime Sample.changeDayDb) in
      option_map Rental.approvedAt
        (find (fun x => Rental.id x =? "r23") (rentals Sample.changeDayDb))
      = Some (Some (Sample.changeDaySweepTime - 23 * 3600000))
      /\ statusOf "r23" Sample.changeDayDb = Some APPROVED
      /\ wallClockHoursBefore Sample.lisbon 24 Sample.changeDaySweepTime
         = Sample.changeDaySweepTime - 23 * 3600000
      /\ statusOf "r25" db' = Some CANCELLED
      /\ statusOf "r23" db' = Some CANCELLED).
Proof.
  split; [|split; [|split; [repeat split|repeat split]]].
  - intros tz timeoutHours now db Hnd.
    destruct (cancelExpiredApprovedRentals_rows tz timeoutHours now db Hnd)
      as (cancelled & db' & Hrun & Hrs & Hsub).
    exists cancelled, db'. split; [exact Hrun|]. split.
    + rewrite Hrs. apply Forall2_map_self. intros x _. unfold sweptRow.
      destruct (RentalService.isExpired _ x) eqn:Hx.
      * split; [reflexivity|]. split; [reflexivity|]. split.
        -- intros _. reflexivity.
        -- intros Hnot. exfalso. apply Hnot. apply isExpired_spec. exact Hx.
      * split; [reflexivity|]. split; [reflexivity|]. split.
        -- intros Hexp. apply isExpired_spec in Hexp. rewrite Hexp in Hx.
           discriminate Hx.
        -- intros _. reflexivity.
    + intros x Hx. destruct (Hsub x Hx) as [Hin Hexp].
      split; [exact Hin|]. apply isExpired_spec. exact Hexp.
  - intros tz timeoutHours now Hsame. unfold wallClockHoursBefore. cbv zeta.
    rewrite Hsame. lia.
Qed.

Lemma cancelExpiredApprovedRentals_wall_clock_hours_witness :
  exists (cancelled : list Rental.t) (db' : Db),
    RentalService.cancelExpiredApprovedRentals Sample.lisbon 24
      Sample.changeDaySweepTime Sample.changeDayDb
    = (inr cancelled, db')
    /\ Forall2
         (fun x y =>
            otherColumns y = otherColumns x
            /\ Rental.approvedAt y = Rental.approvedAt x
            /\ (approvalExpired (Sample.changeDaySweepTime - 23 * 3600000) x ->
                Rental.status y = CANCELLED)
            /\ (~ approvalExpired (Sample.changeDaySweepTime - 23 * 3600000) x ->
                Rental.status y = Rental.status x))
         (rentals Sample.changeDayDb) (rentals db')
    /\ (forall x, In x cancelled ->
          In x (rentals Sample.changeDayDb)
          /\ approvalExpired (Sample.changeDaySweepTime - 23 * 3600000) x).
Proof.
  apply (proj1 cancelExpiredApprovedRentals_wall_clock_hours Sample.lisbon 24%Z
           Sample.changeDaySweepTime Sample.changeDayDb).
  repeat constructor; cbn; intuition discriminate.
Defined.

(** ** Sponsorship *)

(** C9.  A sponsor who has an ACTIVE sponsorship whose window contains
    [now] cannot open another one: whatever the amount, the duration, the
    target equipment or the target user, [createSponsorship] throws and
    leaves the database as it was, so that no sponsorship and no wallet
    transaction is written. *)
Theorem createSponsorship_refused_while_active
        (db : Db) (sponsorId : Id) (dto : CreateSponsorshipDto) (now : DateTime)
        (s : AdSponsorship.t) :
  In s (adSponsorships db) ->
  AdSponsorship.sponsorId s = sponsorId ->
  AdSponsorship.status s = AD_ACTIVE ->
  (AdSponsorship.startDate s <= now <= AdSponsorship.endDate s)%Z ->
  exists e : HttpException,
    SponsorshipService.createSponsorship sponsorId dto now db = (inl e, db).
Proof.
  intros Hin Hsponsor Hactive [Hstart Hend].
  unfold SponsorshipService.createSponsorship.
  destruct (cs_amount dto <=? 0)%Z; [eexists; reflexivity|].
  destruct (cs_duration dto <=? 0)%Z; [eexists; reflexivity|].
  unfold bind at 1, prisma.adSponsorship_findFirst at 1.
  destruct (find (SponsorshipService.isActiveNow sponsorId now) (adSponsorships db))
    as [existing|] eqn:Hfind; [eexists; reflexivity|].
  exfalso. apply (find_none _ _ Hfind) in Hin.
  unfold SponsorshipService.isActiveNow in Hin.
  rewrite Hsponsor, String.eqb_refl, Hactive in Hin. cbn in Hin.
  apply Z.leb_le in Hstart. apply Z.leb_le in Hend.
  rewrite Hstart, Hend in Hin. discriminate.
Qed.

Lemma createSponsorship_refused_while_active_witness :
  exists e : HttpException,
    SponsorshipService.createSponsorship "olga"
      (mkCreateSponsorshipDto (Some "ana") None 500%Z 7%Z)
      (Sample.march1 + msPerDay)%Z Sample.sponsoredDb
    = (inl e, Sample.sponsoredDb).
Proof.
  apply (createSponsorship_refused_while_active Sample.sponsoredDb "olga"
           (mkCreateSponsorshipDto (Some "ana") None 500%Z 7%Z)
           (Sample.march1 + msPerDay)%Z
           (AdSponsorship.mk "s1" "olga" None (Some "drill") 1000%Z 4%Z
              Sample.march1 Sample.march5 AD_ACTIVE 0%Z 0%Z)).
  - left. reflexivity.
  - reflexivity.
  - reflexivity.
  - split; intros H; vm_compute in H; discriminate H.
Defined.

(** * Further properties of the services *)

(** ** Wallets *)

Lemma getWalletByUserId_run (userId : Id) (db : Db) :
  WalletService.getWalletByUserId userId db =
  match find (fun x => Wallet.userId x =? userId) (wallets db) with
  | Some w => (inr w, db)
  | None =>
      match find (fun x => User.id x =? userId) (users db) with
      | None => (inl (NotFoundException "User not found"), db)
      | Some _ =>
          (inr (Wallet.mk (uuid (nextUuid db)) userId 0%Z true),
           withEmptyWallet userId db)
      end
  end.
Proof.
  unfold WalletService.getWalletByUserId, bind at 1,
    prisma.wallet_findUnique_userId at 1.
  destruct (find _ (wallets db)) as [w|] eqn:Hw; [reflexivity|].
  unfold WalletService.createWallet. cbn [cw_userId cw_initialBalance].
  unfold bind at 1, prisma.user_findUnique at 1.
  destruct (find _ (users db)) as [u|]; [|reflexivity].
  unfold bind at 1, prisma.wallet_findUnique_userId at 1. rewrite Hw.
  reflexivity.
Qed.

Lemma credit_ids (walletId : Id) (amount : Money) (ws : list Wallet.t) :
  map Wallet.id (credit walletId amount ws) = map Wallet.id ws.
Proof.
  unfold credit. rewrite map_map. apply map_ext. intros x.
  destruct (Wallet.id x =? walletId); reflexivity.
Qed.

(** X1.  Wallet identifiers being unique, a transaction that goes through
    leaves no wallet overdrawn if none was: the guard on debits keeps every
    balance at or above zero. *)
Theorem createTransaction_no_overdraft
        (dto : CreateWalletTransactionDto) (db db' : Db) (t : WalletTransaction.t) :
  NoDup (map Wallet.id (wallets db)) ->
  noOverdraft db ->
  WalletService.createTransaction dto db = (inr t, db') ->
  noOverdraft db' /\ NoDup (map Wallet.id (wallets db')).
Proof.
  intros Hnd Hpos Hrun. rewrite createTransaction_run in Hrun.
  destruct (find _ (wallets db)) as [w0|] eqn:Hw0; [|discriminate].
  destruct (_ && _) eqn:Hdebit; [discriminate|].
  injection Hrun as _ <-. split.
  - intros w Hin. cbn in Hin. unfold credit in Hin. apply in_map_iff in Hin.
    destruct Hin as (x & <- & Hx). specialize (Hpos x Hx).
    destruct (Wallet.id x =? ct_walletId dto) eqn:E; [|exact Hpos].
    apply String.eqb_eq in E.
    pose proof (find_unique_wallet _ _ Hnd Hx) as Hfx. rewrite E, Hw0 in Hfx.
    injection Hfx as ->. cbn.
    apply andb_false_iff in Hdebit. destruct Hdebit as [H | H];
      apply Z.ltb_ge in H; lia.
  - cbn. rewrite credit_ids. exact Hnd.
Qed.

Lemma createTransaction_no_overdraft_witness :
  noOverdraft (posted
                 (mkCreateWalletTransactionDto "w-ana" PAYMENT (-40)%Z "debit"
                    None None None None None) Sample.walletDb)
  /\ NoDup (map Wallet.id
              (wallets (posted
                 (mkCreateWalletTransactionDto "w-ana" PAYMENT (-40)%Z "debit"
                    None None None None None) Sample.walletDb))).
Proof.
  apply (createTransaction_no_overdraft
           (mkCreateWalletTransactionDto "w-ana" PAYMENT (-40)%Z "debit"
              None None None None None)
           Sample.walletDb _
           (postedTransaction
              (mkCreateWalletTransactionDto "w-ana" PAYMENT (-40)%Z "debit"
                 None None None None None) (uuid 0))).
  - repeat constructor. intros [].
  - intros w [<- | []]. cbn. lia.
  - reflexivity.
Defined.

(** X2.  [createWallet] fails only before it writes: either the user does
    not exist ("User not found") or the user already has a wallet ("User
    already has a wallet"), and the database is left as it was. *)
Theorem createWallet_failure
        (dto : CreateWalletDto) (db db' : Db) (e : HttpException) :
  WalletService.createWallet dto db = (inl e, db') ->
  db' = db
  /\ ((find (fun x => User.id x =? cw_userId dto) (users db) = None
       /\ e = NotFoundException "User not found")
      \/ (exists w,
            find (fun x => Wallet.userId x =? cw_userId dto) (wallets db) = Some w
            /\ e = BadRequestException "User already has a wallet")).
Proof.
  unfold WalletService.createWallet.
  unfold bind at 1, prisma.user_findUnique at 1.
  destruct (find _ (users db)) as [u|] eqn:Hu.
  - unfold bind at 1, prisma.wallet_findUnique_userId at 1.
    destruct (find _ (wallets db)) as [w|] eqn:Hw.
    + intros H. injection H as <- <-. split; [reflexivity|]. right.
      exists w. split; reflexivity.
    + unfold bind at 1, prisma.wallet_create at 1, bind at 1,
        prisma.freshId at 1.
      set (initialBalance := match cw_initialBalance dto with
                             | Some b => b
                             | None => 0%Z
                             end).
      destruct (0 <? initialBalance)%Z eqn:Hpos; [|discriminate].
      unfold bind at 1, bind at 1. rewrite createTransaction_run.
      cbn [ct_walletId ct_amount wallets prisma.set_wallets Wallet.id].
      set (w0 := Wallet.mk (uuid (nextUuid db)) (cw_userId dto) initialBalance true).
      destruct (find_wallet_by_id (wallets db ++ [w0]) w0
                  ltac:(apply in_or_app; right; left; reflexivity)) as [w' Hw'].
      change (Wallet.id w0) with (uuid (nextUuid db)) in Hw'. rewrite Hw'.
      apply Z.ltb_lt in Hpos.
      assert (Hnodebit : (initialBalance <? 0)%Z = false) by (apply Z.ltb_ge; lia).
      rewrite Hnodebit. discriminate.
  - intros H. injection H as <- <-. split; [reflexivity|]. left.
    split; reflexivity.
Qed.

Lemma NoDup_snoc {A : Type} (l : list A) (a : A) :
  NoDup l -> ~ In a l -> NoDup (l ++ [a]).
Proof.
  induction l as [|x l IH]; intros Hnd Hnotin; cbn.
  - constructor; [intros []|constructor].
  - inversion Hnd as [|? ? Hx Hl]; subst. constructor.
    + intros Hin. apply in_app_or in Hin. destruct Hin as [Hin | [<- | []]].
      * exact (Hx Hin).
      * apply Hnotin. left. reflexivity.
    + apply IH; [exact Hl|]. intros Hin. apply Hnotin. right. exact Hin.
Qed.

(** X3.  At most one wallet per user, and a stable answer: if no user has
    two wallets, [getWalletByUserId] returns a wallet of the user asked
    for, leaves no user with two wallets, and asked again answers the same
    wallet without writing anything. *)
Theorem getWalletByUserId_stable (userId : Id) (db db' : Db) (w : Wallet.t) :
  NoDup (map Wallet.userId (wallets db)) ->
  WalletService.getWalletByUserId userId db = (inr w, db') ->
  Wallet.userId w = userId
  /\ In w (wallets db')
  /\ NoDup (map Wallet.userId (wallets db'))
  /\ WalletService.getWalletByUserId userId db' = (inr w, db').
Proof.
  intros Hnd Hrun. rewrite getWalletByUserId_run in Hrun.
  destruct (find _ (wallets db)) as [w1|] eqn:Hw1.
  - injection Hrun as <- <-.
    pose proof (find_some _ _ Hw1) as [Hin Hid]. apply String.eqb_eq in Hid.
    repeat split; try assumption.
    rewrite getWalletByUserId_run, Hw1. reflexivity.
  - destruct (find _ (users db)) as [u|]; [|discriminate].
    injection Hrun as <- <-. split; [reflexivity|]. split.
    { cbn. apply in_or_app. right. left. reflexivity. }
    split.
    + cbn. rewrite map_app. cbn.
      apply NoDup_snoc; [exact Hnd|]. intros Hin. apply in_map_iff in Hin.
      destruct Hin as (x & Hx & Hin).
      apply (find_none _ _ Hw1) in Hin. rewrite Hx, String.eqb_refl in Hin.
      discriminate.
    + rewrite getWalletByUserId_run. cbn [wallets withEmptyWallet].
      assert (Hfind : find (fun x => Wallet.userId x =? userId)
                        (wallets db ++ [Wallet.mk (uuid (nextUuid db)) userId 0%Z true])
                      = Some (Wallet.mk (uuid (nextUuid db)) userId 0%Z true)).
      { clear Hnd. induction (wallets db) as [|x ws IH]; cbn.
        - rewrite String.eqb_refl. reflexivity.
        - cbn in Hw1. destruct (Wallet.userId x =? userId); [discriminate|].
          apply IH. exact Hw1. }
      rewrite Hfind. reflexivity.
Qed.

Lemma getWalletByUserId_stable_witness :
  Wallet.userId (Wallet.mk "uuid-0" "ana" 0%Z true) = "ana"
  /\ In (Wallet.mk "uuid-0" "ana" 0%Z true)
        (wallets (withEmptyWallet "ana" Sample.emptyDb))
  /\ NoDup (map Wallet.userId (wallets (withEmptyWallet "ana" Sample.emptyDb)))
  /\ WalletService.getWalletByUserId "ana" (withEmptyWallet "ana" Sample.emptyDb)
     = (inr (Wallet.mk "uuid-0" "ana" 0%Z true),
        withEmptyWallet "ana" Sample.emptyDb).
Proof.
  apply (getWalletByUserId_stable "ana" Sample.emptyDb).
  - constructor.
  - reflexivity.
Defined.

Lemma createWallet_failure_witness :
  Sample.emptyDb = Sample.emptyDb
  /\ ((find (fun x => User.id x =? "zoe") (users Sample.emptyDb) = None
       /\ NotFoundException "User not found" = NotFoundException "User not found")
      \/ (exists w,
            find (fun x => Wallet.userId x =? "zoe") (wallets Sample.emptyDb)
            = Some w
            /\ NotFoundException "User not found"
               = BadRequestException "User already has a wallet")).
Proof.
  apply (createWallet_failure (mkCreateWalletDto "zoe" (Some 10%Z))
           Sample.emptyDb Sample.emptyDb (NotFoundException "User not found")).
  reflexivity.
Defined.

(** X4.  A withdrawal from the wallet [w] of the user goes through exactly
    for a positive amount the balance covers.  It then posts one COMPLETED
    WITHDRAWAL of [- amount]; the stored balance is the [newBalance]
    reported, [balance - amount], and is not negative.  Otherwise the call
    throws and writes nothing. *)
Theorem withdrawViaProxyPay_spec
        (db : Db) (userId : Id) (dto : ProxyPayWithdrawalDto)
        (resp : SimulatedWithdrawal) (w : Wallet.t) :
  find (fun x => Wallet.userId x =? userId) (wallets db) = Some w ->
  NoDup (map Wallet.id (wallets db)) ->
  ((0 < pw_amount dto <= Wallet.balance w)%Z ->
   exists (t : WalletTransaction.t) (db' : Db),
     WalletService.withdrawViaProxyPay userId dto resp db
     = (inr (t, (Wallet.balance w - pw_amount dto)%Z), db')
     /\ balanceOf (Wallet.id w) db' = Some (Wallet.balance w - pw_amount dto)%Z
     /\ (0 <= Wallet.balance w - pw_amount dto)%Z
     /\ wallets db' = credit (Wallet.id w) (- pw_amount dto) (wallets db)
     /\ walletTransactions db' = (walletTransactions db ++ [t])%list
     /\ WalletTransaction.type t = WITHDRAWAL
     /\ WalletTransaction.amount t = (- pw_amount dto)%Z
     /\ WalletTransaction.status t = TX_COMPLETED)
  /\
  ((pw_amount dto <= 0)%Z ->
   WalletService.withdrawViaProxyPay userId dto resp db
   = (inl (BadRequestException "Amount must be positive"), db))
  /\
  ((0 < pw_amount dto)%Z -> (Wallet.balance w < pw_amount dto)%Z ->
   WalletService.withdrawViaProxyPay userId dto resp db
   = (inl (BadRequestException "Insufficient balance"), db)).
Proof.
  intros Hw Hnd. unfold WalletService.withdrawViaProxyPay.
  split; [|split].
  - intros [Hpos Hcover].
    assert (H1 : (pw_amount dto <=? 0)%Z = false) by (apply Z.leb_gt; lia).
    assert (H2 : (Wallet.balance w <? pw_amount dto)%Z = false)
      by (apply Z.ltb_ge; lia).
    rewrite H1. rewrite (bind_ok _ _ _ _ _ (getWalletByUserId_found _ _ _ Hw)).
    rewrite H2. unfold bind at 1. rewrite createTransaction_run.
    cbn [ct_walletId ct_amount].
    pose proof (find_unique_wallet _ _ Hnd (proj1 (find_some _ _ Hw))) as Hwid.
    rewrite Hwid.
    assert (Hok : ((- pw_amount dto <? 0)%Z
                   && (Wallet.balance w + - pw_amount dto <? 0)%Z) = false).
    { apply andb_false_iff. right. apply Z.ltb_ge. lia. }
    rewrite Hok.
    eexists. eexists. split; [reflexivity|].
    split.
    { unfold balanceOf, posted. cbn [wallets ct_walletId ct_amount].
      rewrite (find_credit _ _ _ _ Hwid). reflexivity. }
    split; [lia|]. repeat split.
  - intros Hle. apply Z.leb_le in Hle. rewrite Hle. reflexivity.
  - intros Hpos Hshort.
    assert (H1 : (pw_amount dto <=? 0)%Z = false) by (apply Z.leb_gt; lia).
    rewrite H1. rewrite (bind_ok _ _ _ _ _ (getWalletByUserId_found _ _ _ Hw)).
    apply Z.ltb_lt in Hshort. rewrite Hshort. reflexivity.
Qed.

Lemma withdrawViaProxyPay_spec_witness :
  exists (t : WalletTransaction.t) (db' : Db),
    WalletService.withdrawViaProxyPay "ana"
      (mkProxyPayWithdrawalDto 40%Z "bank_transfer" "0000" None)
      (mkSimulatedWithdrawal "WIT_1" "PP_WIT_a" "PP_ID_b" "2024-03-01T00:00:00.000Z")
      Sample.walletDb
    = (inr (t, 0%Z), db')
    /\ balanceOf "w-ana" db' = Some 0%Z
    /\ (0 <= 40 - 40)%Z
    /\ wallets db' = credit "w-ana" (-40)%Z (wallets Sample.walletDb)
    /\ walletTransactions db' = [t]
    /\ WalletTransaction.type t = WITHDRAWAL
    /\ WalletTransaction.amount t = (-40)%Z
    /\ WalletTransaction.status t = TX_COMPLETED.
Proof.
  apply (proj1 (withdrawViaProxyPay_spec Sample.walletDb "ana"
                  (mkProxyPayWithdrawalDto 40%Z "bank_transfer" "0000" None)
                  (mkSimulatedWithdrawal "WIT_1" "PP_WIT_a" "PP_ID_b"
                     "2024-03-01T00:00:00.000Z")
                  (Wallet.mk "w-ana" "ana" 40%Z true)
                  eq_refl ltac:(repeat constructor; intros []))).
  cbn. lia.
Defined.

(** X5.  A deposit the gateway refuses credits nothing: the call throws,
    no transaction is written and no balance moves; at most an empty wallet
    has been opened for a user who had none. *)
Theorem depositViaProxyPay_gateway_failure
        (db : Db) (userId : Id) (dto : ProxyPayDepositDto) (resp : ProxyPayResponse) :
  pp_success resp = false ->
  exists (e : HttpException) (db' : Db),
    WalletService.depositViaProxyPay userId dto resp db = (inl e, db')
    /\ walletTransactions db' = walletTransactions db
    /\ (db' = db \/ db' = withEmptyWallet userId db).
Proof.
  intros Hfail. unfold WalletService.depositViaProxyPay.
  destruct (pd_amount dto <=? 0)%Z.
  { eexists. eexists. split; [reflexivity|]. split; [reflexivity|left; reflexivity]. }
  unfold bind at 1. rewrite getWalletByUserId_run.
  destruct (find _ (wallets db)) as [w|].
  - unfold bind at 1, prisma.user_findUnique at 1.
    destruct (find _ (users db)) as [u|].
    + rewrite Hfail. eexists. eexists. split; [reflexivity|].
      split; [reflexivity|left; reflexivity].
    + eexists. eexists. split; [reflexivity|].
      split; [reflexivity|left; reflexivity].
  - destruct (find (fun x => User.id x =? userId) (users db)) as [u|] eqn:Hu.
    + unfold bind at 1, prisma.user_findUnique at 1.
      cbn [users withEmptyWallet]. rewrite Hu, Hfail.
      eexists. eexists. split; [reflexivity|].
      split; [reflexivity|right; reflexivity].
    + eexists. eexists. split; [reflexivity|].
      split; [reflexivity|left; reflexivity].
Qed.

Lemma depositViaProxyPay_gateway_failure_witness :
  exists (e : HttpException) (db' : Db),
    WalletService.depositViaProxyPay "ana"
      (mkProxyPayDepositDto 500%Z "bank_transfer" None)
      (mkProxyPayResponse false "" "" "failed" None (Some "timeout"))
      Sample.walletDb = (inl e, db')
    /\ walletTransactions db' = walletTransactions Sample.walletDb
    /\ (db' = Sample.walletDb \/ db' = withEmptyWallet "ana" Sample.walletDb).
Proof.
  apply (depositViaProxyPay_gateway_failure Sample.walletDb "ana"
           (mkProxyPayDepositDto 500%Z "bank_transfer" None)
           (mkProxyPayResponse false "" "" "failed" None (Some "timeout"))).
  reflexivity.
Defined.

Lemma createWallet_inr (dto : CreateWalletDto) (db db' : Db) (w : Wallet.t) :
  WalletService.createWallet dto db = (inr w, db') ->
  Wallet.userId w = cw_userId dto
  /\ find (fun x => Wallet.userId x =? cw_userId dto) (wallets db) = None
  /\ exists w', In w' (wallets db') /\ Wallet.id w' = Wallet.id w
                /\ Wallet.userId w' = cw_userId dto.
Proof.
  unfold WalletService.createWallet.
  unfold bind at 1, prisma.user_findUnique at 1.
  destruct (find _ (users db)) as [u|]; [|discriminate].
  unfold bind at 1, prisma.wallet_findUnique_userId at 1.
  destruct (find _ (wallets db)) as [w1|]; [discriminate|].
  unfold bind at 1, prisma.wallet_create at 1, bind at 1, prisma.freshId at 1.
  set (initialBalance := match cw_initialBalance dto with
                         | Some b => b
                         | None => 0%Z
                         end).
  set (w0 := Wallet.mk (uuid (nextUuid db)) (cw_userId dto) initialBalance true).
  destruct (0 <? initialBalance)%Z.
  - unfold bind at 1, bind at 1. rewrite createTransaction_run.
    cbn [ct_walletId ct_amount wallets prisma.set_wallets Wallet.id].
    destruct (find _ (wallets db ++ [w0])); [|discriminate].
    destruct (_ && _); [discriminate|].
    intros H. injection H as <- <-. repeat split.
    exists (Wallet.incrementBalance initialBalance w0). repeat split.
    cbn. unfold credit. apply in_map_iff. exists w0. split.
    + cbn. rewrite String.eqb_refl. reflexivity.
    + apply in_or_app. right. left. reflexivity.
  - intros H. injection H as <- <-. repeat split.
    exists w0. repeat split. cbn. apply in_or_app. right. left. reflexivity.
Qed.

(** X6.  Through the controller, a caller who is not an administrator can
    open a wallet only for themselves: whatever [userId] the body names,
    the wallet created and stored belongs to the caller, who had none. *)
Theorem controller_createWallet_own_wallet
        (dto : CreateWalletDto) (user : RequestUser) (db db' : Db) (w : Wallet.t) :
  req_role user <> "ADMIN" ->
  WalletController.createWallet dto user db = (inr w, db') ->
  Wallet.userId w = req_userId user
  /\ find (fun x => Wallet.userId x =? req_userId user) (wallets db) = None
  /\ exists w', In w' (wallets db') /\ Wallet.id w' = Wallet.id w
                /\ Wallet.userId w' = req_userId user.
Proof.
  intros Hrole Hrun. unfold WalletController.createWallet in Hrun.
  assert (Hnot : (req_role user =? "ADMIN") = false)
    by (apply String.eqb_neq; exact Hrole).
  rewrite Hnot in Hrun. cbn [negb andb] in Hrun.
  destruct (cw_userId dto =? req_userId user) eqn:Hsame; cbn [negb] in Hrun.
  - apply String.eqb_eq in Hsame. rewrite <- Hsame.
    exact (createWallet_inr _ _ _ _ Hrun).
  - exact (createWallet_inr _ _ _ _ Hrun).
Qed.

Lemma controller_createWallet_own_wallet_witness :
  exists (w : Wallet.t) (db' : Db),
    WalletController.createWallet (mkCreateWalletDto "olga" None)
      (mkRequestUser "ana" "USER") Sample.emptyDb = (inr w, db')
    /\ Wallet.userId w = "ana"
    /\ find (fun x => Wallet.userId x =? "ana") (wallets Sample.emptyDb) = None
    /\ exists w', In w' (wallets db') /\ Wallet.id w' = Wallet.id w
                  /\ Wallet.userId w' = "ana".
Proof.
  destruct (WalletController.createWallet (mkCreateWalletDto "olga" None)
              (mkRequestUser "ana" "USER") Sample.emptyDb)
    as [[e|w] db'] eqn:Hrun.
  - vm_compute in Hrun. discriminate Hrun.
  - exists w, db'. split; [reflexivity|].
    exact (controller_createWallet_own_wallet (mkCreateWalletDto "olga" None)
             (mkRequestUser "ana" "USER") Sample.emptyDb db' w
             ltac:(discriminate) Hrun).
Defined.

(** ** Creating a rental *)

(** The best-effort priority fee of [create]: while the rental row is
    there it never throws, and it touches neither users, equipment nor
    sponsorships; the rental table is kept or has the priority of the new
    rental cleared. *)
Lemma priority_fee_never_fails
      (renterId : Id) (priorityAmount : Money) (description : string)
      (metadata : option Metadata) (rental : Rental.t) (db1 : Db) :
  (exists x, In x (rentals db1) /\ Rental.id x = Rental.id rental) ->
  exists d,
    tryCatch
      (wallet <- WalletService.getWalletByUserId renterId ;;
       if (priorityAmount <=? Wallet.balance wallet)%Z
       then
         WalletService.createTransaction
           (mkCreateWalletTransactionDto (Wallet.id wallet) PRIORITY_FEE
              (- priorityAmount) description
              None None None (Some TX_COMPLETED) metadata) ;;
         ret tt
       else
         prisma.rental_update (Rental.id rental) Rental.clear_priority ;;
         ret tt)
      (fun _ =>
         prisma.rental_update (Rental.id rental) Rental.clear_priority ;;
         ret tt) db1
    = (inr tt, d)
    /\ users d = users db1
    /\ equipments d = equipments db1
    /\ adSponsorships d = adSponsorships db1
    /\ (rentals d = rentals db1
        \/ rentals d = map (clearRow (Rental.id rental)) (rentals db1)).
Proof.
  intros (x & Hx & Hid).
  assert (Hclear : forall d, rentals d = rentals db1 ->
            exists r0,
              prisma.rental_update (Rental.id rental) Rental.clear_priority d
              = (inr r0,
                 prisma.set_rentals
                   (map (clearRow (Rental.id rental)) (rentals d)) d)).
  { intros d Hd. rewrite <- Hd in Hx.
    destruct (rental_update_run (Rental.id rental) Rental.clear_priority d x Hx Hid)
      as (r0 & _ & Hup).
    exists (Rental.clear_priority r0). exact Hup. }
  assert (Hhandler : forall d, rentals d = rentals db1 ->
            users d = users db1 -> equipments d = equipments db1 ->
            adSponsorships d = adSponsorships db1 ->
            exists d',
              (prisma.rental_update (Rental.id rental) Rental.clear_priority ;;
               ret tt) d = (inr tt, d')
              /\ users d' = users db1 /\ equipments d' = equipments db1
              /\ adSponsorships d' = adSponsorships db1
              /\ (rentals d' = rentals db1
                  \/ rentals d' = map (clearRow (Rental.id rental)) (rentals db1))).
  { intros d Hd Hu He Ha. destruct (Hclear d Hd) as (r0 & Hup).
    rewrite (bind_ok _ _ _ _ _ Hup). eexists. split; [reflexivity|].
    cbn. rewrite Hd. repeat split; try assumption. right. reflexivity. }
  unfold tryCatch. unfold bind at 1. rewrite getWalletByUserId_run.
  destruct (find _ (wallets db1)) as [w|].
  - destruct (priorityAmount <=? Wallet.balance w)%Z.
    + unfold bind at 1. rewrite createTransaction_run.
      destruct (find _ (wallets db1)) as [w1|].
      * destruct (_ && _).
        -- apply Hhandler; reflexivity.
        -- eexists. split; [reflexivity|]. cbn. repeat split. left. reflexivity.
      * apply Hhandler; reflexivity.
    + destruct (Hhandler db1 eq_refl eq_refl eq_refl eq_refl)
        as (d' & Hrun & Hrest).
      unfold bind in Hrun |- *.
      destruct (prisma.rental_update _ _ db1) as [[e|r0] d0];
        [discriminate Hrun|].
      exists d'. split; [exact Hrun|exact Hrest].
  - destruct (find _ (users db1)) as [u|].
    + destruct (priorityAmount <=? Wallet.balance _)%Z.
      * unfold bind at 1. rewrite createTransaction_run.
        destruct (find _ (wallets (withEmptyWallet renterId db1))) as [w1|].
        -- destruct (_ && _).
           ++ apply Hhandler; reflexivity.
           ++ eexists. split; [reflexivity|]. cbn. repeat split. left.
              reflexivity.
        -- apply Hhandler; reflexivity.
      * destruct (Hhandler (withEmptyWallet renterId db1)
                    eq_refl eq_refl eq_refl eq_refl) as (d' & Hrun & Hrest).
        unfold bind in Hrun |- *.
        destruct (prisma.rental_update _ _ (withEmptyWallet renterId db1))
          as [[e|r0] d0]; [discriminate Hrun|].
        exists d'. split; [exact Hrun|exact Hrest].
    + apply Hhandler; reflexivity.
Qed.

(** The two ways [create] ends: a refusal before anything is written, or a
    new PENDING rental. *)
Lemma create_outcome (dto : CreateRentalDto) (now today : DateTime) (db : Db) :
  (exists e, RentalService.create dto now today db = (inl e, db))
  \/ (exists (equipment : Equipment.t) (renter : User.t) (rental : Rental.t)
             (d : Db),
        RentalService.create dto now today db = (inr rental, d)
        /\ find (fun e => (Equipment.id e =? cr_equipmentId dto)
                          && match Equipment.deletedAt e with
                             | None => true
                             | Some _ => false
                             end) (equipments db) = Some equipment
        /\ Equipment.isAvailable equipment = true
        /\ Equipment.ownerId equipment <> cr_renterId dto
        /\ find (fun u => User.id u =? cr_renterId dto) (users db) = Some renter
        /\ User.userType renter <> "LANDLORD"
        /\ (today <= cr_startDate dto < cr_endDate dto)%Z
        /\ Rental.id rental = uuid (nextUuid db)
        /\ Rental.equipmentId rental = cr_equipmentId dto
        /\ Rental.renterId rental = cr_renterId dto
        /\ Rental.ownerId rental = Equipment.ownerId equipment
        /\ Rental.startDate rental = cr_startDate dto
        /\ Rental.endDate rental = cr_endDate dto
        /\ Rental.returnReminderDate rental = (cr_endDate dto - msPerDay)%Z
        /\ Rental.status rental = PENDING
        /\ Rental.paymentStatus rental = PAY_PENDING
        /\ Rental.approvedAt rental = None
        /\ Rental.deletedAt rental = None
        /\ users d = users db
        /\ equipments d = equipments db
        /\ adSponsorships d = adSponsorships db
        /\ (rentals d = (rentals db ++ [rental])%list
            \/ rentals d = map (clearRow (Rental.id rental))
                               (rentals db ++ [rental])%list)).
Proof.
  remember (RentalService.create dto now today db) as run eqn:Hrun.
  unfold RentalService.create in Hrun.
  unfold bind at 1, prisma.equipment_findUnique at 1 in Hrun.
  destruct (find _ (equipments db)) as [equipment|] eqn:Hequipment;
    [|left; eexists; exact Hrun].
  destruct (Equipment.isAvailable equipment) eqn:Havailable; cbn [negb] in Hrun;
    [|left; eexists; exact Hrun].
  destruct (Equipment.ownerId equipment =? cr_renterId dto) eqn:Hown;
    [left; eexists; exact Hrun|].
  unfold bind at 1, prisma.user_findUnique at 1 in Hrun.
  destruct (find _ (users db)) as [renter|] eqn:Hrenter;
    [|left; eexists; exact Hrun].
  destruct (User.userType renter =? "LANDLORD") eqn:Hlandlord;
    [left; eexists; exact Hrun|].
  destruct (cr_startDate dto <? today)%Z eqn:Hpast;
    [left; eexists; exact Hrun|].
  destruct (cr_endDate dto <=? cr_startDate dto)%Z eqn:Horder;
    [left; eexists; exact Hrun|].
  destruct (truthyNumber (cr_maxRentalDays dto) && _);
    [left; eexists; exact Hrun|].
  right.
  unfold bind at 1, prisma.rental_create at 1, bind at 1, prisma.freshId at 1
    in Hrun.
  match type of Hrun with
  | context [prisma.set_rentals (_ ++ [?row])%list ?d0] =>
      set (rental := row) in Hrun;
      set (db1 := prisma.set_rentals (_ ++ [rental])%list d0) in Hrun
  end.
  assert (Hrow : exists x, In x (rentals db1) /\ Rental.id x = Rental.id rental).
  { exists rental. split; [|reflexivity]. subst db1. cbn.
    apply in_or_app. right. left. reflexivity. }
  exists equipment, renter, rental.
  assert (Hfacts :
    forall d : Db,
      users d = users db1 -> equipments d = equipments db1 ->
      adSponsorships d = adSponsorships db1 ->
      (rentals d = rentals db1
       \/ rentals d = map (clearRow (Rental.id rental)) (rentals db1)) ->
      Some equipment = Some equipment
      /\ Equipment.isAvailable equipment = true
      /\ Equipment.ownerId equipment <> cr_renterId dto
      /\ Some renter = Some renter
      /\ User.userType renter <> "LANDLORD"
      /\ (today <= cr_startDate dto < cr_endDate dto)%Z
      /\ Rental.id rental = uuid (nextUuid db)
      /\ Rental.equipmentId rental = cr_equipmentId dto
      /\ Rental.renterId rental = cr_renterId dto
      /\ Rental.ownerId rental = Equipment.ownerId equipment
      /\ Rental.startDate rental = cr_startDate dto
      /\ Rental.endDate rental = cr_endDate dto
      /\ Rental.returnReminderDate rental = (cr_endDate dto - msPerDay)%Z
      /\ Rental.status rental = PENDING
      /\ Rental.paymentStatus rental = PAY_PENDING
      /\ Rental.approvedAt rental = None
      /\ Rental.deletedAt rental = None
      /\ users d = users db
      /\ equipments d = equipments db
      /\ adSponsorships d = adSponsorships db
      /\ (rentals d = (rentals db ++ [rental])%list
          \/ rentals d = map (clearRow (Rental.id rental))
                             (rentals db ++ [rental])%list)).
  { intros d Hu He Ha Hr.
    apply String.eqb_neq in Hown. apply String.eqb_neq in Hlandlord.
    apply Z.ltb_ge in Hpast. apply Z.leb_gt in Horder.
    repeat split; try assumption; try reflexivity; try lia. }
  destruct (truthyBool (cr_hasPriority dto) && truthyNumber (cr_priorityAmount dto)).
  - cbv zeta in Hrun.
    destruct (priority_fee_never_fails (cr_renterId dto)
                match cr_priorityAmount dto with Some p => p | None => 0%Z end
                ("Taxa de prioridade - Aluguel " ++ Equipment.name equipment)
                (Some [("rentalId", JString (Rental.id rental));
                       ("equipmentId", JString (Equipment.id equipment))])
                rental db1 Hrow) as (d & Hblock & Hu & He & Ha & Hr).
    exists d. rewrite (bind_ok _ _ _ _ _ Hblock) in Hrun.
    split; [exact Hrun|]. apply Hfacts; assumption.
  - exists db1. split; [exact Hrun|].
    apply Hfacts; try reflexivity. left. reflexivity.
Qed.

(** X7.  A rental request is refused before anything is written: when
    [create] throws, the database is exactly as it was. *)
Theorem create_failure_writes_nothing
        (dto : CreateRentalDto) (now today : DateTime) (db db' : Db)
        (e : HttpException) :
  RentalService.create dto now today db = (inl e, db') ->
  db' = db.
Proof.
  intros Hrun.
  destruct (create_outcome dto now today db)
    as [(e0 & Hfail) | (equipment & renter & rental & d & Hok & _)].
  - rewrite Hfail in Hrun. injection Hrun as _ <-. reflexivity.
  - rewrite Hok in Hrun. discriminate.
Qed.

Lemma create_failure_writes_nothing_witness :
  Sample.payDb = Sample.payDb.
Proof.
  apply (create_failure_writes_nothing (Sample.request (Some DAILY))
           Sample.march1 Sample.march1 Sample.payDb Sample.payDb
           (BadRequestException "Equipment is not available")).
  reflexivity.
Defined.



(** What is left of a successful [create] once the checks are passed and
    the row inserted, when a priority fee is asked. *)
Lemma create_priority_step
      (dto : CreateRentalDto) (now today : DateTime) (db db' : Db)
      (rental : Rental.t) (p : Money) :
  RentalService.create dto now today db = (inr rental, db') ->
  cr_hasPriority dto = Some true ->
  cr_priorityAmount dto = Some p ->
  p <> 0%Z ->
  Rental.hasPriority rental = true
  /\ Rental.priorityAmount rental = Some p
  /\ Rental.priorityPaidAt rental = Some now
  /\ Rental.renterId rental = cr_renterId dto
  /\ exists description metadata,
       tryCatch
         (wallet <- WalletService.getWalletByUserId (cr_renterId dto) ;;
          if (p <=? Wallet.balance wallet)%Z
          then
            WalletService.createTransaction
              (mkCreateWalletTransactionDto (Wallet.id wallet) PRIORITY_FEE
                 (- p) description None None None (Some TX_COMPLETED) metadata) ;;
            ret tt
          else
            prisma.rental_update (Rental.id rental) Rental.clear_priority ;;
            ret tt)
         (fun _ =>
            prisma.rental_update (Rental.id rental) Rental.clear_priority ;;
            ret tt) (withRental rental db)
       = (inr tt, db').
Proof.
  intros Hrun Hhas Hamount Hp.
  unfold RentalService.create in Hrun.
  apply bind_inr in Hrun as (equipment & db1 & Hfind & Hrun).
  injection Hfind as _ <-.
  destruct equipment as [equipment|]; [|discriminate].
  destruct (negb (Equipment.isAvailable equipment)); [discriminate|].
  destruct (Equipment.ownerId equipment =? cr_renterId dto); [discriminate|].
  apply bind_inr in Hrun as (renter & db2 & Hfind & Hrun).
  injection Hfind as _ <-.
  destruct renter as [renter|]; [|discriminate].
  destruct (User.userType renter =? "LANDLORD"); [discriminate|].
  destruct (cr_startDate dto <? today)%Z; [discriminate|].
  destruct (cr_endDate dto <=? cr_startDate dto)%Z; [discriminate|].
  destruct (truthyNumber (cr_maxRentalDays dto) && _); [discriminate|].
  apply bind_inr in Hrun as (created & db3 & Hcreate & Hrun).
  unfold prisma.rental_create, prisma.freshId, bind in Hcreate.
  injection Hcreate as <- <-.
  rewrite Hhas, Hamount in Hrun.
  assert (Htruthy : truthyNumber (Some p) = true).
  { cbn. apply negb_true_iff. apply Z.eqb_neq. exact Hp. }
  rewrite Htruthy in Hrun. cbn [truthyBool andb] in Hrun. cbv zeta in Hrun.
  apply bind_inr in Hrun as ([] & db4 & Hblock & Hrun).
  injection Hrun as <- <-.
  cbn [truthyBool Rental.hasPriority Rental.priorityAmount
       Rental.priorityPaidAt Rental.renterId].
  repeat split.
  eexists. eexists. exact Hblock.
Qed.

(** X9.  The priority fee is best effort.  When the renter's wallet does
    not cover it, the rental is still created; no transaction is written
    and no balance moves; the stored row has [hasPriority = false] and no
    priority amount or date, while the rental handed back to the caller
    still says [hasPriority = true]. *)
Theorem create_priority_not_covered
        (dto : CreateRentalDto) (now today : DateTime) (db db' : Db)
        (rental : Rental.t) (p : Money) (w : Wallet.t) :
  RentalService.create dto now today db = (inr rental, db') ->
  cr_hasPriority dto = Some true ->
  cr_priorityAmount dto = Some p ->
  p <> 0%Z ->
  find (fun x => Wallet.userId x =? cr_renterId dto) (wallets db) = Some w ->
  (Wallet.balance w < p)%Z ->
  wallets db' = wallets db
  /\ walletTransactions db' = walletTransactions db
  /\ rentals db' = map (clearRow (Rental.id rental)) (rentals db ++ [rental])%list
  /\ In (Rental.clear_priority rental) (rentals db')
  /\ Rental.hasPriority rental = true
  /\ Rental.hasPriority (Rental.clear_priority rental) = false.
Proof.
  intros Hrun Hhas Hamount Hp Hw Hshort.
  destruct (create_priority_step _ _ _ _ _ _ _ Hrun Hhas Hamount Hp)
    as (Hflag & _ & _ & _ & description & metadata & Hblock).
  unfold tryCatch in Hblock. unfold bind at 1 in Hblock.
  rewrite (getWalletByUserId_found _ (withRental rental db) w Hw) in Hblock.
  assert (Hno : (p <=? Wallet.balance w)%Z = false) by (apply Z.leb_gt; lia).
  rewrite Hno in Hblock.
  destruct (rental_update_run (Rental.id rental) Rental.clear_priority
              (withRental rental db) rental
              ltac:(cbn; apply in_or_app; right; left; reflexivity) eq_refl)
    as (r0 & _ & Hup).
  rewrite (bind_ok _ _ _ _ _ Hup) in Hblock.
  injection Hblock as <-. cbn.
  repeat split; try assumption.
  apply in_map_iff. exists rental. split.
  - rewrite String.eqb_refl. reflexivity.
  - apply in_or_app. right. left. reflexivity.
Qed.

(** X10.  When the wallet covers the priority amount [p], [create] posts
    one COMPLETED PRIORITY_FEE of [- p] against it and the rental keeps its
    priority.  The amount is not required to be positive: a negative [p]
    credits the wallet by [- p]. *)
Theorem create_priority_covered
        (dto : CreateRentalDto) (now today : DateTime) (db db' : Db)
        (rental : Rental.t) (p : Money) (w : Wallet.t) :
  RentalService.create dto now today db = (inr rental, db') ->
  cr_hasPriority dto = Some true ->
  cr_priorityAmount dto = Some p ->
  p <> 0%Z ->
  find (fun x => Wallet.userId x =? cr_renterId dto) (wallets db) = Some w ->
  NoDup (map Wallet.id (wallets db)) ->
  (p <= Wallet.balance w)%Z ->
  exists t,
    wallets db' = credit (Wallet.id w) (- p) (wallets db)
    /\ balanceOf (Wallet.id w) db' = Some (Wallet.balance w - p)%Z
    /\ walletTransactions db' = (walletTransactions db ++ [t])%list
    /\ WalletTransaction.type t = PRIORITY_FEE
    /\ WalletTransaction.amount t = (- p)%Z
    /\ WalletTransaction.status t = TX_COMPLETED
    /\ rentals db' = (rentals db ++ [rental])%list
    /\ Rental.hasPriority rental = true
    /\ Rental.priorityAmount rental = Some p.
Proof.
  intros Hrun Hhas Hamount Hp Hw Hnd Hcover.
  destruct (create_priority_step _ _ _ _ _ _ _ Hrun Hhas Hamount Hp)
    as (Hflag & Hpa & _ & _ & description & metadata & Hblock).
  unfold tryCatch in Hblock. unfold bind at 1 in Hblock.
  rewrite (getWalletByUserId_found _ (withRental rental db) w Hw) in Hblock.
  assert (Hyes : (p <=? Wallet.balance w)%Z = true) by (apply Z.leb_le; lia).
  rewrite Hyes in Hblock.
  unfold bind at 1 in Hblock. rewrite createTransaction_run in Hblock.
  cbn [ct_walletId ct_amount wallets withRental] in Hblock.
  pose proof (find_unique_wallet _ _ Hnd (proj1 (find_some _ _ Hw))) as Hwid.
  rewrite Hwid in Hblock.
  assert (Hok : ((- p <? 0)%Z && (Wallet.balance w + - p <? 0)%Z) = false).
  { apply andb_false_iff. right. apply Z.ltb_ge. lia. }
  rewrite Hok in Hblock. injection Hblock as <-.
  eexists. split; [reflexivity|]. split.
  { unfold balanceOf, posted. cbn [wallets ct_walletId ct_amount withRental].
    rewrite (find_credit _ _ _ _ Hwid). reflexivity. }
  repeat split; assumption.
Qed.

Lemma create_priority_not_covered_witness :
  exists (rental : Rental.t) (db' : Db),
    RentalService.create (Sample.priorityRequest 100%Z) Sample.march1
      Sample.march1 Sample.walletDb = (inr rental, db')
    /\ wallets db' = wallets Sample.walletDb
    /\ walletTransactions db' = walletTransactions Sample.walletDb
    /\ rentals db' = map (clearRow (Rental.id rental))
                         (rentals Sample.walletDb ++ [rental])%list
    /\ In (Rental.clear_priority rental) (rentals db')
    /\ Rental.hasPriority rental = true
    /\ Rental.hasPriority (Rental.clear_priority rental) = false.
Proof.
  destruct (RentalService.create (Sample.priorityRequest 100%Z) Sample.march1
              Sample.march1 Sample.walletDb) as [[e|rental] db'] eqn:Hrun.
  - vm_compute in Hrun. discriminate Hrun.
  - exists rental, db'. split; [reflexivity|].
    apply (create_priority_not_covered (Sample.priorityRequest 100%Z)
             Sample.march1 Sample.march1 Sample.walletDb db' rental 100%Z
             (Wallet.mk "w-ana" "ana" 40%Z true) Hrun eq_refl eq_refl).
    + discriminate.
    + reflexivity.
    + cbn. lia.
Defined.

Lemma create_priority_covered_witness :
  exists (rental : Rental.t) (db' : Db) (t : WalletTransaction.t),
    RentalService.create (Sample.priorityRequest (-500)%Z) Sample.march1
      Sample.march1 Sample.walletDb = (inr rental, db')
    /\ wallets db' = credit "w-ana" 500%Z (wallets Sample.walletDb)
    /\ balanceOf "w-ana" db' = Some 540%Z
    /\ walletTransactions db' = (walletTransactions Sample.walletDb ++ [t])%list
    /\ WalletTransaction.type t = PRIORITY_FEE
    /\ WalletTransaction.amount t = 500%Z
    /\ WalletTransaction.status t = TX_COMPLETED
    /\ rentals db' = (rentals Sample.walletDb ++ [rental])%list
    /\ Rental.hasPriority rental = true
    /\ Rental.priorityAmount rental = Some (-500)%Z.
Proof.
  destruct (RentalService.create (Sample.priorityRequest (-500)%Z) Sample.march1
              Sample.march1 Sample.walletDb) as [[e|rental] db'] eqn:Hrun.
  - vm_compute in Hrun. discriminate Hrun.
  - destruct (create_priority_covered (Sample.priorityRequest (-500)%Z)
                Sample.march1 Sample.march1 Sample.walletDb db' rental (-500)%Z
                (Wallet.mk "w-ana" "ana" 40%Z true) Hrun eq_refl eq_refl
                ltac:(discriminate) eq_refl
                ltac:(repeat constructor; intros [])
                ltac:(cbn; lia)) as (t & H).
    exists rental, db', t. split; [reflexivity|exact H].
Defined.

(** ** Access to a rental *)

Lemma bind_err {A B : Type} (m : Promise A) (k : A -> Promise B)
      (db db1 : Db) (e : HttpException) :
  m db = (inl e, db1) -> bind m k db = (inl e, db1).
Proof. intros H. unfold bind. rewrite H. reflexivity. Qed.

Lemma findOne_stranger (id userId : Id) (db : Db) (r : Rental.t) :
  find (fun x => (Rental.id x =? id) && RentalService.notDeleted x) (rentals db)
  = Some r ->
  userId <> "" -> userId <> Rental.renterId r -> userId <> Rental.ownerId r ->
  RentalService.findOne id (Some userId) db
  = (inl (ForbiddenException "You do not have permission to view this rental"),
     db).
Proof.
  intros Hr Hne Hrenter Howner.
  unfold RentalService.findOne, bind, prisma.rental_findUnique. rewrite Hr.
  cbn [truthyString].
  apply String.eqb_neq in Hne.
  assert (H1 : (Rental.renterId r =? userId) = false)
    by (apply String.eqb_neq; intros H; apply Hrenter; symmetry; exact H).
  assert (H2 : (Rental.ownerId r =? userId) = false)
    by (apply String.eqb_neq; intros H; apply Howner; symmetry; exact H).
  rewrite Hne, H1, H2. reflexivity.
Qed.

(** X11.  A user who is neither the renter nor the owner of a rental can
    neither read it, nor change its status, nor cancel it: the three calls
    answer Forbidden and write nothing.  And nobody but the owner can
    approve: for every other caller [updateStatus] to APPROVED answers
    Forbidden and writes nothing. *)
Theorem rental_access_control
        (db : Db) (id userId : Id) (now : DateTime) (r : Rental.t) :
  find (fun x => (Rental.id x =? id) && RentalService.notDeleted x) (rentals db)
  = Some r ->
  (userId <> "" -> userId <> Rental.renterId r -> userId <> Rental.ownerId r ->
   let refused :=
     (inl (ForbiddenException "You do not have permission to view this rental"),
      db) in
   RentalService.findOne id (Some userId) db = refused
   /\ (forall status,
         RentalService.updateStatus id status userId now db = refused)
   /\ RentalService.cancelRental id userId now db = refused)
  /\
  (userId <> Rental.ownerId r ->
   exists message,
     RentalService.updateStatus id APPROVED userId now db
     = (inl (ForbiddenException message), db)).
Proof.
  intros Hr. split.
  - intros Hne Hrenter Howner. cbv zeta.
    pose proof (findOne_stranger id userId db r Hr Hne Hrenter Howner) as Hf.
    split; [exact Hf|]. split.
    + intros status. unfold RentalService.updateStatus.
      apply bind_err. exact Hf.
    + unfold RentalService.cancelRental. apply bind_err. exact Hf.
  - intros Howner. unfold RentalService.updateStatus.
    destruct (RentalService.findOne id (Some userId) db) as [[e|r1] d] eqn:Hf.
    + unfold bind. rewrite Hf.
      unfold RentalService.findOne, bind, prisma.rental_findUnique in Hf.
      rewrite Hr in Hf. destruct (truthyString (Some userId) && _);
        [|discriminate].
      injection Hf as <- <-. eexists. reflexivity.
    + apply findOne_inr in Hf as Hf'. destruct Hf' as [-> Hfind].
      rewrite Hr in Hfind. injection Hfind as <-.
      rewrite (bind_ok _ _ _ _ _ Hf). cbn [rentalStatus_eqb andb].
      assert (H : (Rental.ownerId r =? userId) = false)
        by (apply String.eqb_neq; intros H; apply Howner; symmetry; exact H).
      rewrite H. eexists. reflexivity.
Qed.

Lemma rental_access_control_witness :
  RentalService.findOne "r1" (Some "rui") Sample.pendingDb
  = (inl (ForbiddenException "You do not have permission to view this rental"),
     Sample.pendingDb)
  /\ (forall status,
        RentalService.updateStatus "r1" status "rui" Sample.march1 Sample.pendingDb
        = (inl (ForbiddenException
                  "You do not have permission to view this rental"),
           Sample.pendingDb))
  /\ RentalService.cancelRental "r1" "rui" Sample.march1 Sample.pendingDb
     = (inl (ForbiddenException "You do not have permission to view this rental"),
        Sample.pendingDb).
Proof.
  apply (proj1 (rental_access_control Sample.pendingDb "r1" "rui" Sample.march1
                  (Sample.rentalOf "r1" "ana" PENDING None) eq_refl));
    discriminate.
Defined.

Lemma findOne_gone (id : Id) (caller : option Id) (d : Db) :
  (forall y, In y (rentals d) -> Rental.id y = id ->
             RentalService.notDeleted y = false) ->
  RentalService.findOne id caller d
  = (inl (NotFoundException "Rental not found"), d).
Proof.
  intros Hdel. unfold RentalService.findOne, bind, prisma.rental_findUnique.
  destruct (find _ (rentals d)) as [y|] eqn:Hy; [|reflexivity].
  exfalso. apply find_some in Hy. destruct Hy as [Hin Hy].
  apply andb_true_iff in Hy. destruct Hy as [Hyid Hlive].
  apply String.eqb_eq in Hyid. rewrite (Hdel y Hin Hyid) in Hlive. discriminate.
Qed.

(** X12.  [cancelRental] soft-deletes: the rental it returns is CANCELLED
    and stamped [deletedAt = now], and from then on the rental is gone for
    [findOne], [updateStatus] and [cancelRental], which answer "Rental not
    found" for every caller and write nothing. *)
Theorem cancelRental_hides_rental
        (db db' : Db) (id userId : Id) (now : DateTime) (res : Rental.t) :
  RentalService.cancelRental id userId now db = (inr res, db') ->
  Rental.status res = CANCELLED
  /\ Rental.deletedAt res = Some now
  /\ (forall caller,
        RentalService.findOne id caller db'
        = (inl (NotFoundException "Rental not found"), db'))
  /\ (forall status caller later,
        RentalService.updateStatus id status caller later db'
        = (inl (NotFoundException "Rental not found"), db'))
  /\ (forall caller later,
        RentalService.cancelRental id caller later db'
        = (inl (NotFoundException "Rental not found"), db')).
Proof.
  intros Hrun. unfold RentalService.cancelRental in Hrun.
  apply bind_inr in Hrun as (rental & db1 & Hfind & Hrun).
  apply findOne_inr in Hfind as [-> Hfind].
  destruct (negb (Rental.renterId rental =? userId) && _); [discriminate|].
  destruct (rentalStatus_eqb (Rental.status rental) COMPLETED); [discriminate|].
  apply bind_inr in Hrun as (updated & db2 & Hup & Hrun).
  apply rental_update_inr in Hup as [-> (r0 & _ & ->)].
  apply bind_inr in Hrun as (e1 & db3 & Hequ & Hrun).
  apply equipment_update_inr in Hequ as [-> _].
  injection Hrun as <- <-.
  split; [reflexivity|]. split; [reflexivity|].
  match goal with
  | |- context [RentalService.findOne id _ ?d] => set (db' := d)
  end.
  assert (Hgone : forall caller,
            RentalService.findOne id caller db'
            = (inl (NotFoundException "Rental not found"), db')).
  { intros caller. apply findOne_gone. intros y Hin Hyid.
    subst db'. cbn in Hin. apply in_map_iff in Hin. destruct Hin as (x & <- & _).
    destruct (Rental.id x =? id) eqn:Hx; [reflexivity|].
    rewrite Hyid, String.eqb_refl in Hx. discriminate. }
  split; [exact Hgone|]. split.
  - intros status caller later. unfold RentalService.updateStatus.
    apply bind_err. apply Hgone.
  - intros caller later. unfold RentalService.cancelRental.
    apply bind_err. apply Hgone.
Qed.

Lemma cancelRental_hides_rental_witness :
  exists (res : Rental.t) (db' : Db),
    RentalService.cancelRental "r1" "ana" Sample.march1 Sample.pendingDb
    = (inr res, db')
    /\ Rental.status res = CANCELLED
    /\ Rental.deletedAt res = Some Sample.march1
    /\ (forall caller,
          RentalService.findOne "r1" caller db'
          = (inl (NotFoundException "Rental not found"), db')).
Proof.
  destruct (RentalService.cancelRental "r1" "ana" Sample.march1 Sample.pendingDb)
    as [[e|res] db'] eqn:Hrun.
  - vm_compute in Hrun. discriminate Hrun.
  - exists res, db'. split; [reflexivity|].
    pose proof (cancelRental_hides_rental Sample.pendingDb db' "r1" "ana"
                  Sample.march1 res Hrun) as H.
    split; [apply H|]. split; apply H.
Defined.

(** ** Payment receipts *)

Lemma find_rental_plain (id : Id) (rs : list Rental.t) :
  find (fun x => (Rental.id x =? id) && true) rs
  = find (fun x => Rental.id x =? id) rs.
Proof. apply find_ext_bool. intros x. apply andb_true_r. Qed.

Lemma validatePaymentReceipt_inr
      (db db' : Db) (id moderatorId : Id) (isApproved : bool)
      (rejectionReason : option string) (res : Rental.t) :
  RentalService.validatePaymentReceipt id isApproved moderatorId rejectionReason db
  = (inr res, db') ->
  exists r,
    find (fun x => Rental.id x =? id) (rentals db) = Some r
    /\ Rental.paymentReceiptStatus r = Some RECEIPT_PENDING
    /\ res = Rental.set_receipt_validated isApproved r
    /\ db' = prisma.set_rentals
               (map (fun x => if Rental.id x =? id
                              then Rental.set_receipt_validated isApproved x
                              else x) (rentals db)) db.
Proof.
  intros Hrun. unfold RentalService.validatePaymentReceipt in Hrun.
  apply bind_inr in Hrun as (found & db1 & Hfind & Hrun).
  unfold prisma.rental_findUnique in Hfind. injection Hfind as <- <-.
  rewrite find_rental_plain in Hrun.
  destruct (find _ (rentals db)) as [r|] eqn:Hr; [|discriminate].
  destruct (Rental.paymentReceiptStatus r) as [[| |]|] eqn:Hstatus;
    try discriminate.
  apply rental_update_inr in Hrun as [-> (r0 & Hr0 & ->)].
  rewrite Hr in Hr0. injection Hr0 as <-.
  exists r. repeat split; assumption.
Qed.

(** X13.  A receipt is validated once.  A validation that goes through
    found the receipt PENDING; an approval makes the rental PAID (status
    and payment status) whatever its status was, a rejection leaves both
    as they were; and every further validation of the same rental answers
    "Payment receipt is not pending validation" and writes nothing. *)
Theorem validatePaymentReceipt_once
        (db db' : Db) (id moderatorId : Id) (isApproved : bool)
        (rejectionReason : option string) (res : Rental.t) :
  RentalService.validatePaymentReceipt id isApproved moderatorId rejectionReason db
  = (inr res, db') ->
  (exists r,
      find (fun x => Rental.id x =? id) (rentals db) = Some r
      /\ Rental.paymentReceiptStatus r = Some RECEIPT_PENDING
      /\ (isApproved = true ->
          Rental.status res = PAID /\ Rental.paymentStatus res = PAY_PAID
          /\ Rental.paymentReceiptStatus res = Some RECEIPT_APPROVED)
      /\ (isApproved = false ->
          Rental.status res = Rental.status r
          /\ Rental.paymentStatus res = Rental.paymentStatus r
          /\ Rental.paymentReceiptStatus res = Some RECEIPT_REJECTED))
  /\ (forall isApproved' moderatorId' rejectionReason',
        RentalService.validatePaymentReceipt id isApproved' moderatorId'
          rejectionReason' db'
        = (inl (BadRequestException "Payment receipt is not pending validation"),
           db')).
Proof.
  intros Hrun.
  apply validatePaymentReceipt_inr in Hrun as (r & Hr & Hpending & -> & ->).
  split.
  - exists r. split; [exact Hr|]. split; [exact Hpending|].
    split; intros ->; repeat split.
  - intros a' m' reason'. unfold RentalService.validatePaymentReceipt.
    unfold bind at 1, prisma.rental_findUnique at 1.
    rewrite find_rental_plain. cbn [rentals prisma.set_rentals].
    rewrite (find_map_id _ id (rentals db)).
    + rewrite Hr. cbn [option_map].
      pose proof (find_some _ _ Hr) as [_ Hid]. rewrite Hid.
      destruct isApproved; reflexivity.
    + intros x. destruct (Rental.id x =? id); reflexivity.
Qed.

Lemma validatePaymentReceipt_once_witness :
  exists (res : Rental.t) (db' : Db),
    RentalService.validatePaymentReceipt "r1" true "mod" None Sample.receiptDb
    = (inr res, db')
    /\ Rental.status res = PAID
    /\ (forall isApproved' moderatorId' rejectionReason',
          RentalService.validatePaymentReceipt "r1" isApproved' moderatorId'
            rejectionReason' db'
          = (inl (BadRequestException
                    "Payment receipt is not pending validation"), db')).
Proof.
  destruct (RentalService.validatePaymentReceipt "r1" true "mod" None
              Sample.receiptDb) as [[e|res] db'] eqn:Hrun.
  - vm_compute in Hrun. discriminate Hrun.
  - exists res, db'. split; [reflexivity|].
    destruct (validatePaymentReceipt_once Sample.receiptDb db' "r1" "mod" true
                None res Hrun) as [(r & _ & _ & Happroved & _) Honce].
    split; [apply (Happroved eq_refl) | exact Honce].
Defined.

(** X14.  Only the renter uploads a receipt, and only for a rental paid by
    RECEIPT.  An upload that goes through puts the receipt back to PENDING
    without touching the status or the payment status of the rental, so
    that the receipt can be validated (once) again, also after an earlier
    approval or rejection. *)
Theorem uploadPaymentReceipt_reopens_validation
        (db db' : Db) (id userId : Id) (receiptUrl : string) (res : Rental.t) :
  RentalService.uploadPaymentReceipt id receiptUrl userId db = (inr res, db') ->
  (exists r,
      find (fun x => Rental.id x =? id) (rentals db) = Some r
      /\ Rental.renterId r = userId
      /\ Rental.paymentMethod r = RECEIPT
      /\ Rental.status res = Rental.status r
      /\ Rental.paymentStatus res = Rental.paymentStatus r
      /\ Rental.paymentReceiptStatus res = Some RECEIPT_PENDING)
  /\ (forall isApproved moderatorId rejectionReason,
        exists res' db'',
          RentalService.validatePaymentReceipt id isApproved moderatorId
            rejectionReason db' = (inr res', db'')
          /\ Rental.paymentReceiptStatus res'
             = Some (if isApproved then RECEIPT_APPROVED else RECEIPT_REJECTED)).
Proof.
  intros Hrun. unfold RentalService.uploadPaymentReceipt in Hrun.
  apply bind_inr in Hrun as (found & db1 & Hfind & Hrun).
  unfold prisma.rental_findUnique in Hfind. injection Hfind as <- <-.
  rewrite find_rental_plain in Hrun.
  destruct (find _ (rentals db)) as [r|] eqn:Hr; [|discriminate].
  destruct (Rental.renterId r =? userId) eqn:Hrenter; cbn [negb] in Hrun;
    [|discriminate].
  apply String.eqb_eq in Hrenter.
  destruct (Rental.paymentMethod r) eqn:Hmethod; try discriminate.
  apply rental_update_inr in Hrun as [-> (r0 & Hr0 & ->)].
  rewrite Hr in Hr0. injection Hr0 as <-.
  split.
  - exists r. repeat split; assumption.
  - intros a m reason. unfold RentalService.validatePaymentReceipt.
    unfold bind at 1, prisma.rental_findUnique at 1.
    rewrite find_rental_plain. cbn [rentals prisma.set_rentals].
    assert (Hkeep : forall x,
              Rental.id (if Rental.id x =? id
                         then Rental.set_receipt_uploaded x else x)
              = Rental.id x)
      by (intros x; destruct (Rental.id x =? id); reflexivity).
    rewrite (find_map_id _ id (rentals db) Hkeep), Hr. cbn [option_map].
    pose proof (find_some _ _ Hr) as [_ Hid]. rewrite Hid.
    cbn [Rental.paymentReceiptStatus Rental.set_receipt_uploaded].
    unfold prisma.rental_update. cbn [rentals prisma.set_rentals].
    rewrite (find_map_id _ id (rentals db) Hkeep), Hr. cbn [option_map].
    rewrite Hid.
    eexists. eexists. split; [reflexivity|]. destruct a; reflexivity.
Qed.

Lemma uploadPaymentReceipt_reopens_validation_witness :
  exists (res : Rental.t) (db' : Db),
    RentalService.uploadPaymentReceipt "r1" "https://example.com/receipt.png"
      "ana" Sample.receiptDb = (inr res, db')
    /\ Rental.paymentReceiptStatus res = Some RECEIPT_PENDING
    /\ (forall isApproved moderatorId rejectionReason,
          exists res' db'',
            RentalService.validatePaymentReceipt "r1" isApproved moderatorId
              rejectionReason db' = (inr res', db'')
            /\ Rental.paymentReceiptStatus res'
               = Some (if isApproved then RECEIPT_APPROVED else RECEIPT_REJECTED)).
Proof.
  destruct (RentalService.uploadPaymentReceipt "r1"
              "https://example.com/receipt.png" "ana" Sample.receiptDb)
    as [[e|res] db'] eqn:Hrun.
  - vm_compute in Hrun. discriminate Hrun.
  - exists res, db'. split; [reflexivity|].
    destruct (uploadPaymentReceipt_reopens_validation Sample.receiptDb db' "r1"
                "ana" "https://example.com/receipt.png" res Hrun)
      as [(r & _ & _ & _ & _ & _ & Hpending) Hagain].
    split; [exact Hpending | exact Hagain].
Defined.

(** ** Sponsorships *)


















(** ** How the rental operations compose *)

Lemma getWalletByUserId_rentals (userId : Id) (db : Db) :
  rentals (snd (WalletService.getWalletByUserId userId db)) = rentals db
  /\ equipments (snd (WalletService.getWalletByUserId userId db)) = equipments db.
Proof.
  rewrite getWalletByUserId_run.
  destruct (find _ (wallets db)); [split; reflexivity|].
  destruct (find _ (users db)); split; reflexivity.
Qed.

Lemma payWithWallet_inr (db db' : Db) (rentalId userId : Id) (res : Rental.t) :
  RentalService.payWithWallet rentalId userId db = (inr res, db') ->
  exists r,
    find (fun x => Rental.id x =? rentalId) (rentals db) = Some r
    /\ Rental.renterId r = userId
    /\ Rental.paymentStatus r <> PAY_PAID
    /\ res = Rental.set_paid_by_wallet r
    /\ rentals db' = map (paidRow rentalId) (rentals db).
Proof.
  intros Hrun. unfold RentalService.payWithWallet in Hrun.
  apply bind_inr in Hrun as (found & db1 & Hfind & Hrun).
  unfold prisma.rental_findUnique in Hfind. injection Hfind as <- <-.
  rewrite find_rental_plain in Hrun.
  destruct (find _ (rentals db)) as [r|] eqn:Hr; [|discriminate].
  destruct (Rental.renterId r =? userId) eqn:Hrenter; cbn [negb] in Hrun;
    [|discriminate].
  apply String.eqb_eq in Hrenter.
  destruct (paymentStatus_eqb (Rental.paymentStatus r) PAY_PAID) eqn:Hpaid;
    [discriminate|].
  apply bind_inr in Hrun as (wallet & db1 & Hwallet & Hrun).
  pose proof (getWalletByUserId_rentals userId db) as [Hrs1 _].
  rewrite Hwallet in Hrs1. cbn [snd] in Hrs1.
  destruct (Wallet.balance wallet <? Rental.totalAmount r)%Z; [discriminate|].
  apply bind_inr in Hrun as (name & db2 & Hname & Hrun).
  apply bind_inr in Hname as (e & db3 & Hequipment & Hname).
  unfold prisma.equipment_findUnique in Hequipment.
  injection Hequipment as _ <-. unfold ret in Hname. injection Hname as _ <-.
  apply bind_inr in Hrun as (t & db4 & Hpost & Hrun).
  rewrite createTransaction_run in Hpost.
  destruct (find _ (wallets db1)); [|discriminate].
  destruct (_ && _); [discriminate|].
  injection Hpost as _ <-.
  apply rental_update_inr in Hrun as [-> (r0 & Hr0 & ->)].
  cbn [rentals posted] in Hr0. rewrite Hrs1, Hr in Hr0. injection Hr0 as <-.
  exists r. repeat split; try assumption.
  - intros H. rewrite H in Hpaid. discriminate.
  - cbn. rewrite Hrs1. reflexivity.
Qed.

(** X21.  A rental is paid from the wallet once: after a payment that went
    through, every further [payWithWallet] on the rental answers
    Forbidden to another caller and "Rental already paid" to the renter,
    and writes nothing. *)
Theorem payWithWallet_once
        (db db' : Db) (rentalId userId : Id) (res : Rental.t) :
  RentalService.payWithWallet rentalId userId db = (inr res, db') ->
  Rental.paymentStatus res = PAY_PAID
  /\ RentalService.payWithWallet rentalId userId db'
     = (inl (BadRequestException "Rental already paid"), db')
  /\ (forall caller,
        exists e, RentalService.payWithWallet rentalId caller db' = (inl e, db')).
Proof.
  intros Hrun.
  apply payWithWallet_inr in Hrun as (r & Hr & Hrenter & _ & -> & Hrs).
  assert (Hfound : find (fun x => (Rental.id x =? rentalId) && true) (rentals db')
                   = Some (Rental.set_paid_by_wallet r)).
  { rewrite find_rental_plain, Hrs.
    rewrite (find_map_id (paidRow rentalId) rentalId (rentals db)).
    - rewrite Hr. cbn [option_map]. unfold paidRow.
      pose proof (find_some _ _ Hr) as [_ Hid]. rewrite Hid. reflexivity.
    - intros x. unfold paidRow. destruct (Rental.id x =? rentalId); reflexivity. }
  split; [reflexivity|]. split.
  - unfold RentalService.payWithWallet, bind at 1, prisma.rental_findUnique at 1.
    rewrite Hfound. cbn [Rental.renterId Rental.set_paid_by_wallet].
    rewrite Hrenter, String.eqb_refl. reflexivity.
  - intros caller.
    unfold RentalService.payWithWallet, bind at 1, prisma.rental_findUnique at 1.
    rewrite Hfound. cbn [Rental.renterId Rental.set_paid_by_wallet].
    destruct (Rental.renterId r =? caller); cbn [negb]; eexists; reflexivity.
Qed.

Lemma payWithWallet_once_witness :
  exists (res : Rental.t) (db' : Db),
    RentalService.payWithWallet "r1" "ana" Sample.payDb = (inr res, db')
    /\ Rental.paymentStatus res = PAY_PAID
    /\ RentalService.payWithWallet "r1" "ana" db'
       = (inl (BadRequestException "Rental already paid"), db').
Proof.
  destruct (RentalService.payWithWallet "r1" "ana" Sample.payDb)
    as [[e|res] db'] eqn:Hrun.
  - vm_compute in Hrun. discriminate Hrun.
  - exists res, db'. split; [reflexivity|].
    pose proof (payWithWallet_once Sample.payDb db' "r1" "ana" res Hrun) as H.
    split; apply H.
Defined.

Lemma updateStatus_approved_equipments
      (db db' : Db) (id userId : Id) (now : DateTime) (res : Rental.t) :
  RentalService.updateStatus id APPROVED userId now db = (inr res, db') ->
  exists r,
    find (fun x => (Rental.id x =? id) && RentalService.notDeleted x) (rentals db)
    = Some r
    /\ equipments db'
       = setAvailability (Rental.equipmentId r) false (equipments db).
Proof.
  intros Hrun. unfold RentalService.updateStatus in Hrun.
  apply bind_inr in Hrun as (r & db1 & Hfind & Hrun).
  apply findOne_inr in Hfind as [-> Hfind].
  cbn [rentalStatus_eqb andb orb] in Hrun.
  destruct (Rental.ownerId r =? userId); cbn [negb] in Hrun; [|discriminate].
  apply bind_inr in Hrun as (updated & db2 & Hup1 & Hrun).
  apply rental_update_inr in Hup1 as [-> _].
  apply bind_inr in Hrun as (u1 & db3 & Hblock & Hrun).
  apply bind_inr in Hrun as (u2 & db4 & Hret & Hrun).
  injection Hret as _ <-. injection Hrun as _ <-.
  apply bind_inr in Hblock as (e1 & db5 & Heq & Hblock).
  apply equipment_update_inr in Heq as [-> _].
  apply bind_inr in Hblock as (u3 & db6 & Hmany & Hblock).
  injection Hmany as _ <-.
  apply bind_inr in Hblock as (r3 & db7 & Hup2 & Hblock).
  apply rental_update_inr in Hup2 as [-> _].
  injection Hblock as _ <-.
  exists r. split; [exact Hfind|reflexivity].
Qed.

(** X22.  An approval takes the equipment off the market: after
    [updateStatus] to APPROVED went through for a rental, every new rental
    request for the equipment of that rental is refused and writes
    nothing. *)
Theorem approval_blocks_new_requests
        (db db' : Db) (id userId : Id) (now : DateTime) (r res : Rental.t) :
  find (fun x => (Rental.id x =? id) && RentalService.notDeleted x) (rentals db)
  = Some r ->
  RentalService.updateStatus id APPROVED userId now db = (inr res, db') ->
  forall (dto : CreateRentalDto) (later today : DateTime),
    cr_equipmentId dto = Rental.equipmentId r ->
    exists e, RentalService.create dto later today db' = (inl e, db').
Proof.
  intros Hr Hrun dto later today Hsame.
  destruct (updateStatus_approved_equipments _ _ _ _ _ _ Hrun)
    as (r1 & Hr1 & Heqs).
  rewrite Hr in Hr1. injection Hr1 as <-.
  unfold RentalService.create.
  unfold bind at 1, prisma.equipment_findUnique at 1. rewrite Heqs.
  match goal with
  | |- context [find ?f ?l] => destruct (find f l) as [q|] eqn:Hq
  end; [|eexists; reflexivity].
  apply find_some in Hq. destruct Hq as [Hin Hq].
  apply andb_true_iff in Hq. destruct Hq as [Hqid _].
  apply String.eqb_eq in Hqid.
  unfold setAvailability in Hin. apply in_map_iff in Hin.
  destruct Hin as (x & <- & _).
  destruct (Equipment.id x =? Rental.equipmentId r) eqn:Ex.
  - cbn. eexists. reflexivity.
  - rewrite Hqid, Hsame, String.eqb_refl in Ex. discriminate.
Qed.

Lemma approval_blocks_new_requests_witness :
  exists (res : Rental.t) (db' : Db),
    RentalService.updateStatus "r1" APPROVED "olga" Sample.march1 Sample.pendingDb
    = (inr res, db')
    /\ exists e,
         RentalService.create (Sample.request (Some DAILY)) Sample.march1
           Sample.march1 db' = (inl e, db').
Proof.
  destruct (RentalService.updateStatus "r1" APPROVED "olga" Sample.march1
              Sample.pendingDb) as [[e|res] db'] eqn:Hrun.
  - vm_compute in Hrun. discriminate Hrun.
  - exists res, db'. split; [reflexivity|].
    apply (approval_blocks_new_requests Sample.pendingDb db' "r1" "olga"
             Sample.march1 (Sample.rentalOf "r1" "ana" PENDING None) res
             eq_refl Hrun).
    reflexivity.
Defined.

(** C8.  Approving a rental goes through only for the owner recorded on
    it.  [create] records there the owner of the equipment the request
    names: for a rental stored by [create] whose [ownerId] and
    [equipmentId] are still the ones stored, the actor is the owner that
    equipment had.  When the approval goes through, every
    row of that equipment is unavailable; in the rental table the rental
    has [status = APPROVED] and [approvedAt = now], every other rental of
    the same equipment that was PENDING has [status = REJECTED], and every
    other column of every row is what it was.  The status the rental had
    plays no part, so this holds in particular for a PENDING one. *)
Theorem updateStatus_approved
        (db db' : Db) (id userId : Id) (now : DateTime) (r res : Rental.t) :
  find (fun x => (Rental.id x =? id) && RentalService.notDeleted x) (rentals db)
  = Some r ->
  RentalService.updateStatus id APPROVED userId now db = (inr res, db') ->
  userId = Rental.ownerId r
  /\ (forall (db0 db1 : Db) (dto : CreateRentalDto) (t0 today : DateTime)
             (created : Rental.t),
        RentalService.create dto t0 today db0 = (inr created, db1) ->
        Rental.id created = id ->
        (forall x, In x (rentals db0) -> Rental.id x <> id) ->
        (exists x1, In x1 (rentals db1)
                    /\ Rental.id x1 = id
                    /\ Rental.ownerId r = Rental.ownerId x1
                    /\ Rental.equipmentId r = Rental.equipmentId x1) ->
        exists equipment,
          In equipment (equipments db0)
          /\ Equipment.id equipment = cr_equipmentId dto
          /\ Rental.equipmentId r = Equipment.id equipment
          /\ userId = Equipment.ownerId equipment)
  /\ equipments db' = setAvailability (Rental.equipmentId r) false (equipments db)
  /\ (exists e, In e (equipments db')
                /\ Equipment.id e = Rental.equipmentId r
                /\ Equipment.isAvailable e = false)
  /\ (forall e, In e (equipments db') ->
                Equipment.id e = Rental.equipmentId r ->
                Equipment.isAvailable e = false)
  /\ Forall2
       (fun x y =>
          otherColumns y = otherColumns x
          /\ (Rental.id x = id ->
              Rental.status y = APPROVED /\ Rental.approvedAt y = Some now)
          /\ (Rental.id x <> id ->
              Rental.approvedAt y = Rental.approvedAt x
              /\ (Rental.equipmentId x = Rental.equipmentId r
                  /\ Rental.status x = PENDING ->
                  Rental.status y = REJECTED)
              /\ (~ (Rental.equipmentId x = Rental.equipmentId r
                     /\ Rental.status x = PENDING) ->
                  Rental.status y = Rental.status x)))
       (rentals db) (rentals db').
Proof.
  intros Hr Hrun.
  destruct (updateStatus_approved_inr _ _ _ _ _ _ _ Hr Hrun)
    as (Howner & Heqs & Hex & Hrs).
  destruct (found_rental _ _ _ _ Hr) as (Hin & Hid & _).
  split; [exact Howner|]. split; [|split; [exact Heqs|split; [exact Hex|split]]].
  - intros db0 db1 dto t0 today created Hcreate Hcid Hfresh
           (x1 & Hin1 & Hid1 & Hsameo & Hsamee).
    destruct (create_outcome dto t0 today db0)
      as [(e & He)
         | (equipment & renter & rental & d & Hc & Hfind & _ & _ & _ & _ & _
            & _ & Heid & _ & Hoid & _ & _ & _ & _ & _ & _ & _ & _ & _ & _
            & Hrents)].
    { rewrite He in Hcreate. discriminate Hcreate. }
    rewrite Hc in Hcreate. injection Hcreate as -> ->.
    apply find_some in Hfind. destruct Hfind as [Hine Hfind].
    apply andb_true_iff in Hfind. destruct Hfind as [Hfind _].
    apply String.eqb_eq in Hfind.
    assert (Hrow : Rental.equipmentId x1 = Rental.equipmentId created
                   /\ Rental.ownerId x1 = Rental.ownerId created).
    { destruct Hrents as [Hrents | Hrents]; rewrite Hrents in Hin1.
      - apply in_app_or in Hin1. destruct Hin1 as [Hin1 | [<- | []]].
        + exfalso. exact (Hfresh x1 Hin1 Hid1).
        + split; reflexivity.
      - apply in_map_iff in Hin1. destruct Hin1 as (x & Hx & Hin1).
        assert (Hxid : Rental.id x = id).
        { rewrite <- Hid1, <- Hx. unfold clearRow.
          destruct (Rental.id x =? Rental.id created); reflexivity. }
        apply in_app_or in Hin1. destruct Hin1 as [Hin1 | [<- | []]].
        + exfalso. exact (Hfresh x Hin1 Hxid).
        + rewrite <- Hx. unfold clearRow.
          destruct (Rental.id created =? Rental.id created);
            split; reflexivity. }
    destruct Hrow as [Hre Hro]. rewrite <- Hsamee in Hre. rewrite <- Hsameo in Hro.
    exists equipment. split; [exact Hine|]. split; [exact Hfind|]. split.
    + rewrite Hre, Heid, Hfind. reflexivity.
    + rewrite Howner, Hro. exact Hoid.
  - intros e He Heid. rewrite Heqs in He. unfold setAvailability in He.
    apply in_map_iff in He. destruct He as (x & Hx & _).
    destruct (Equipment.id x =? Rental.equipmentId r) eqn:Ex.
    + rewrite <- Hx. reflexivity.
    + subst x. rewrite Heid, String.eqb_refl in Ex. discriminate Ex.
  - rewrite Hrs. apply Forall2_map_self. intros x _. unfold approveRow.
    destruct (Rental.id x =? Rental.id r) eqn:Ex.
    + split; [reflexivity|]. split.
      * intros _. split; reflexivity.
      * intros Hne. exfalso. apply Hne. rewrite <- Hid.
        apply String.eqb_eq. exact Ex.
    + assert (Hne : Rental.id x <> id).
      { intros Hx. rewrite Hx, <- Hid, String.eqb_refl in Ex. discriminate Ex. }
      destruct (Rental.equipmentId x =? Rental.equipmentId r) eqn:Ee;
        [destruct (rentalStatus_eqb (Rental.status x) PENDING) eqn:Es|];
        cbn [andb].
      * split; [reflexivity|]. split; [intros Hx; contradiction|].
        intros _. split; [reflexivity|]. split; [intros _; reflexivity|].
        intros Hnot. exfalso. apply Hnot. split.
        -- apply String.eqb_eq. exact Ee.
        -- apply rentalStatus_eqb_eq. exact Es.
      * split; [reflexivity|]. split; [intros Hx; contradiction|].
        intros _. split; [reflexivity|]. split; [|intros _; reflexivity].
        intros [_ Hp]. apply rentalStatus_eqb_eq in Hp. rewrite Hp in Es.
        discriminate Es.
      * split; [reflexivity|]. split; [intros Hx; contradiction|].
        intros _. split; [reflexivity|]. split; [|intros _; reflexivity].
        intros [He' _]. apply String.eqb_eq in He'. rewrite He' in Ee.
        discriminate Ee.
Qed.

Lemma updateStatus_approved_witness :
  exists (res : Rental.t) (db' : Db),
    RentalService.updateStatus "uuid-0" APPROVED "olga" Sample.march1
      Sample.askedTwiceDb
    = (inr res, db')
    /\ "olga" = Rental.ownerId (Sample.rentalOf "uuid-0" "ana" PENDING None)
    /\ (exists equipment,
          In equipment (equipments Sample.emptyDb)
          /\ Equipment.id equipment = "drill"
          /\ "drill" = Equipment.id equipment
          /\ "olga" = Equipment.ownerId equipment)
    /\ (forall e, In e (equipments db') ->
                  Equipment.id e = "drill" ->
                  Equipment.isAvailable e = false)
    /\ Forall2
         (fun x y =>
            otherColumns y = otherColumns x
            /\ (Rental.id x = "uuid-0" ->
                Rental.status y = APPROVED
                /\ Rental.approvedAt y = Some Sample.march1)
            /\ (Rental.id x <> "uuid-0" ->
                Rental.approvedAt y = Rental.approvedAt x
                /\ (Rental.equipmentId x = "drill" /\ Rental.status x = PENDING ->
                    Rental.status y = REJECTED)
                /\ (~ (Rental.equipmentId x = "drill"
                       /\ Rental.status x = PENDING) ->
                    Rental.status y = Rental.status x)))
         (rentals Sample.askedTwiceDb) (rentals db').
Proof.
  destruct (RentalService.updateStatus "uuid-0" APPROVED "olga" Sample.march1
              Sample.askedTwiceDb) as [[e|res] db'] eqn:Hrun.
  - vm_compute in Hrun. discriminate Hrun.
  - exists res, db'. split; [reflexivity|].
    pose proof (updateStatus_approved Sample.askedTwiceDb db' "uuid-0" "olga"
                  Sample.march1 (Sample.rentalOf "uuid-0" "ana" PENDING None) res
                  eq_refl Hrun) as (Howner & Hcreated & _ & _ & Hfree & Hrows).
    split; [exact Howner|]. split; [|split; [exact Hfree|exact Hrows]].
    apply (Hcreated Sample.emptyDb Sample.askedOnceDb (Sample.requestBy "ana")
             Sample.march1 Sample.march1
             (Sample.rentalOf "uuid-0" "ana" PENDING None)).
    + reflexivity.
    + reflexivity.
    + intros x [].
    + exists (Sample.rentalOf "uuid-0" "ana" PENDING None).
      split; [left; reflexivity|]. repeat split.
Defined.

Lemma filter_map_none {A : Type} (f : A -> bool) (g : A -> A) (l : list A) :
  (forall x, In x l -> f (g x) = false) -> filter f (map g l) = [].
Proof.
  induction l as [|x l IH]; intros Hall; [reflexivity|].
  cbn [map filter]. rewrite (Hall x (or_introl eq_refl)).
  apply IH. intros y Hy. apply Hall. right. exact Hy.
Qed.

(** X23.  The expired-approval sweep is idempotent: run again at the same
    instant on the database it left, it selects no rental, reports none and
    writes nothing. *)
Theorem cancelExpiredApprovedRentals_idempotent
        (tz : TimeZone) (timeoutHours : Z) (now : DateTime) (db db' : Db)
        (cancelled : list Rental.t) :
  RentalService.cancelExpiredApprovedRentals tz timeoutHours now db
  = (inr cancelled, db') ->
  RentalService.cancelExpiredApprovedRentals tz timeoutHours now db'
  = (inr [], db').
Proof.
  intros Hrun. unfold RentalService.cancelExpiredApprovedRentals in Hrun |- *.
  cbv zeta in Hrun |- *.
  unfold bind at 1, prisma.rental_findMany at 1 in Hrun.
  unfold bind at 1, prisma.rental_findMany at 1.
  set (expirationDate :=
         JsDate.setHours tz now (JsDate.getHours tz now - timeoutHours)) in *.
  destruct (cancelEach_rentals now
              (filter (RentalService.isExpired expirationDate) (rentals db)) [] db)
    as (cancelled' & db'' & Hrun' & Hrs & _).
  rewrite Hrun' in Hrun. injection Hrun as _ <-.
  assert (Hnone : filter (RentalService.isExpired expirationDate) (rentals db'')
                  = []).
  { rewrite Hrs, fold_cancelRows.
    match goal with
    | |- filter ?f (map ?g ?l) = [] =>
        assert (Hall : forall x, In x l -> f (g x) = false)
    end.
    { intros x Hin.
      destruct (existsb _ _) eqn:Hsel; [reflexivity|].
      destruct (RentalService.isExpired expirationDate x) eqn:Hexp;
        [|reflexivity].
      exfalso.
      assert (Hex : existsb (fun r => Rental.id x =? Rental.id r)
                      (filter (RentalService.isExpired expirationDate)
                         (rentals db)) = true).
      { apply existsb_exists. exists x. split; [|apply String.eqb_refl].
        apply filter_In. split; assumption. }
      rewrite Hex in Hsel. discriminate. }
    apply filter_map_none. exact Hall. }
  rewrite Hnone. reflexivity.
Qed.

Lemma cancelExpiredApprovedRentals_idempotent_witness :
  exists (cancelled : list Rental.t) (db' : Db),
    RentalService.cancelExpiredApprovedRentals Sample.utc 24 Sample.sweepTime
      Sample.sweepDb
    = (inr cancelled, db')
    /\ RentalService.cancelExpiredApprovedRentals Sample.utc 24 Sample.sweepTime
         db'
       = (inr [], db').
Proof.
  destruct (RentalService.cancelExpiredApprovedRentals Sample.utc 24
              Sample.sweepTime Sample.sweepDb) as [[e|cancelled] db'] eqn:Hrun.
  - vm_compute in Hrun. discriminate Hrun.
  - exists cancelled, db'. split; [reflexivity|].
    exact (cancelExpiredApprovedRentals_idempotent Sample.utc 24 Sample.sweepTime
             Sample.sweepDb db' cancelled Hrun).
Defined.
